(** * LOONE: the daily lake simulation (LOONE_Q) and its adaptive protocol

    A shallow embedding of the daily simulation loop of [LOONE_Q.py], of the
    adaptive-protocol rule chain ([AP_FNs.py], [THC_Class.py]) and of the
    model state store ([model_variables.py]), with the properties of the
    specification stated and proved over it.

    Conventions.
    - A Python float is an IEEE binary64 number: Rocq's primitive [float],
      with its not-a-number. The arithmetic that the code does itself is
      float arithmetic, in the order of the source.
    - A Python int is a [Z]; the loop index and array positions are [nat].
      Where a step computes with the cells of object arrays as they are
      (the storage increment, the releases that are capped or floored), the
      operations are those of Python's numbers: exact on two ints, on
      doubles as soon as one operand is a float.
    - A NumPy array is a [list val]; the attributes of the model-variable
      object are a finite map from attribute name to array, so that an array
      passed to a function is passed by its name. An array of dtype float64
      holds floats only: a flag stored in it is 1.0 or 0.0.
    - Code that raises is modelled in a state-and-exception monad: the store
      keeps the writes made before the exception.
    - The helper modules that are not part of these sources ([lo_functions],
      [dec_tree_functions], [stg_sto_ar]) are parameters, as they are
      parameters of the step functions of LOONE_Q.py. *)

From Stdlib Require Import ZArith Floats Bool Lia.
From stdpp Require Import base option list gmap strings pretty.

Local Open Scope Z_scope.
#[local] Set Warnings "-inexact-float".

(** ** Python values and exceptions *)

Inductive exn : Set :=
  | UnboundLocalError | NameError | IndexError | KeyError
  | AttributeError | TypeError | ValueError | OverflowError.

Inductive result (A : Type) : Type :=
  | Ok (a : A)
  | Raise (e : exn).
Arguments Ok {A} a.
Arguments Raise {A} e.

(** The values that live in arrays, tables and the configuration. *)
Inductive val : Type :=
  | VInt (z : Z)
  | VFloat (x : float)
  | VBool (b : bool)
  | VStr (s : string)
  | VDate (year month day : Z).

(** [float(n)] for a Python int [n] (below 2^63 in absolute value). *)
Definition Z2f (z : Z) : float :=
  match z with
  | Z0 => 0%float
  | Zpos _ => PrimFloat.of_uint63 (Uint63.of_Z z)
  | Zneg p => PrimFloat.opp (PrimFloat.of_uint63 (Uint63.of_Z (Zpos p)))
  end.

(** A Python bool as a number: [True == 1], [False == 0]; this is also what a
    float64 array stores for it. *)
Definition b2f (b : bool) : float := if b then 1%float else 0%float.

(** [x == True] for a float [x] read back from a float64 array. *)
Definition is_True (x : float) : bool := PrimFloat.eqb x 1%float.

(** The number a value denotes in arithmetic, if it is one. *)
Definition num_of (v : val) : option float :=
  match v with
  | VInt z => Some (Z2f z)
  | VFloat x => Some x
  | VBool b => Some (b2f b)
  | VStr _ | VDate _ _ _ => None
  end.

(** Python's [min(a, b)] and [max(a, b)] on floats: the first argument wins
    unless the second is strictly smaller (larger). *)
Definition py_min (a b : float) : float := if PrimFloat.ltb b a then b else a.
Definition py_max (a b : float) : float := if PrimFloat.ltb a b then b else a.

(** [max(xs)] of an iterable; [ValueError] on an empty one. *)
Definition py_max_list (xs : list float) : result float :=
  match xs with
  | [] => Raise ValueError
  | x :: rest => Ok (fold_left py_max rest x)
  end.

(** [return F] of a local that only some branches assign. *)
Definition return_local {A} (F : option A) : result A :=
  match F with
  | Some v => Ok v
  | None => Raise UnboundLocalError
  end.

(** ** AP_FNs.py: the rules of the adaptive protocol

    Flags are typed [bool], quantities [float], option switches, the month
    and the water-shortage zone [Z]. Comparisons keep the shape of the
    source: [x == True] on a flag is [Bool.eqb x true]. A function that
    returns a local which only some branches assign returns a [result]. *)
Module AP_FNs.
Local Open Scope float_scope.

Definition THC_Class_normal_or_above
    (Tributary_Hydrologic_Condition Pre_defined_Variables_THC_threshold : float) : bool :=
  if Pre_defined_Variables_THC_threshold <? Tributary_Hydrologic_Condition
  then true else false.

Definition LStgCorres (month : Z) (WSMs_WSM1 Targ_Stg_df_Pre_defined_Variables_LowChance : float)
    (Pre_defined_Variables_Opt_LChance_line Pre_defined_Variables_LowChance : Z) : float :=
  if (Pre_defined_Variables_Opt_LChance_line =? 1)%Z then
    if (5 <? month)%Z && (month <? 10)%Z then WSMs_WSM1 else WSMs_WSM1 + 0.5
  else if (Pre_defined_Variables_LowChance =? 1)%Z || ((5 <? month)%Z && (month <? 10)%Z)
  then -999
  else Targ_Stg_df_Pre_defined_Variables_LowChance.

Definition LowChance_Check (Lake_O_Stage_AP LStgCorres : float) : bool :=
  if LStgCorres <? Lake_O_Stage_AP then true else false.

Definition Forecast_D_Sal (Pre_defined_Variables_OptSalFcast : Z) : result float :=
  let F : option float :=
    if (Pre_defined_Variables_OptSalFcast =? 1)%Z then None
    else if (Pre_defined_Variables_OptSalFcast =? 2)%Z then None
    else if (Pre_defined_Variables_OptSalFcast =? 3)%Z then Some nan
    else None in
  return_local F.

Definition n30d_mavg (Pre_defined_Variables_OptSalFcast : Z) : result float :=
  let F : option float :=
    if (Pre_defined_Variables_OptSalFcast =? 1)%Z then None
    else if (Pre_defined_Variables_OptSalFcast =? 2)%Z then None
    else if (Pre_defined_Variables_OptSalFcast =? 3)%Z then Some nan
    else None in
  return_local F.

Definition n30davgForecast (Estuary_needs_water : bool) (n30d_mavg_i2iplus13 : list float)
    (Pre_defined_Variables_OptSalFcast : Z) (Pre_defined_Variables_CE_SalThreshold : float)
    : result bool :=
  if (Pre_defined_Variables_OptSalFcast =? 3)%Z then Ok Estuary_needs_water
  else
    match py_max_list n30d_mavg_i2iplus13 with
    | Raise e => Raise e
    | Ok m => if Pre_defined_Variables_CE_SalThreshold <? m then Ok true else Ok false
    end.

Definition LORS08_bf_rel (S77BS_AP : float) (n30davgForecast : bool) : bool :=
  if 0 <? S77BS_AP then n30davgForecast else false.

Definition LDS_LC6_1 (Late_Dry_Season LowChance_Check : bool)
    (Pre_defined_Variables_Late_Dry_Season_Option : Z) : bool :=
  if (Pre_defined_Variables_Late_Dry_Season_Option =? 1)%Z then
    if Bool.eqb Late_Dry_Season true then LowChance_Check else false
  else LowChance_Check.

Definition S_O (LDS_LC6_1 : bool) (S77BS_AP : float) : float :=
  if Bool.eqb LDS_LC6_1 false then
    if 0 <? S77BS_AP then 1 else 0
  else 0.

Definition All_4 (LORS08_bf_rel LDS_LC6_1 : bool) : bool :=
  if Bool.eqb LORS08_bf_rel true then LDS_LC6_1 else false.

Definition Sabf (Lake_O_Schedule_Zone : float) : bool :=
  if 3 <? Lake_O_Schedule_Zone then true else false.

Definition Swbf (Lake_O_Schedule_Zone : float) : bool :=
  if Lake_O_Schedule_Zone =? 3 then true else false.

Definition Swbu (Lake_O_Schedule_Zone : float) : bool :=
  if Lake_O_Schedule_Zone =? 2 then true else false.

Definition All_4andStage (All_4 Sabf : bool) : bool :=
  if Bool.eqb All_4 true && Bool.eqb Sabf true then true else false.

Definition All_4andStagein (All_4 Sabf : bool) : bool :=
  if Bool.eqb All_4 true && Bool.eqb Sabf false then true else false.

Definition P_AP_BF_Stg (Lake_O_Schedule_Zone S77BS_AP : float) : bool :=
  if ((3 <? Lake_O_Schedule_Zone) && (Lake_O_Schedule_Zone <? 7)) && (0 <? S77BS_AP)
  then true else false.

Definition Logic_test_1 (All_4andStage P_AP_BF_Stg : bool)
    (Pre_defined_Variables_Opt_NoAP_above_BF_SB : Z) : bool :=
  if (Pre_defined_Variables_Opt_NoAP_above_BF_SB =? 0)%Z then All_4andStage
  else P_AP_BF_Stg.

Definition Post_Ap_Baseflow (Logic_test_1 : bool) (S77BS_AP : float)
    (All_4andStagein : bool) (Choose_1 : float) : float :=
  if Bool.eqb Logic_test_1 true then S77BS_AP
  else if Bool.eqb All_4andStagein true then py_min S77BS_AP Choose_1
  else 0.

Definition S77RSplusPreAPS77bsf (S77RS_Pre_AP_S77_Baseflow Lake_O_Schedule_Zone : float)
    (Pre_defined_Variables_Opt_CEews_LOWSM : Z) : bool :=
  if (Pre_defined_Variables_Opt_CEews_LOWSM =? 0)%Z then
    if (S77RS_Pre_AP_S77_Baseflow =? 0) && (1 <? Lake_O_Schedule_Zone) then true else false
  else if S77RS_Pre_AP_S77_Baseflow =? 0 then true
  else false.

Definition AndEstNeedsLakeWater (n30davgForecast S77RSplusPreAPS77bsf : bool) : bool :=
  if Bool.eqb n30davgForecast true && Bool.eqb S77RSplusPreAPS77bsf true then true else false.

Definition AndLowChance61stagelessth11 (LDS_LC6_1 AndEstNeedsLakeWater : bool) : bool :=
  if Bool.eqb LDS_LC6_1 true && Bool.eqb AndEstNeedsLakeWater true then true else false.

Definition ATHCnora (AndLowChance61stagelessth11 THC_Class_normal_or_above Late_Dry_Season : bool)
    (Pre_defined_Variables_Opt_THCbypLateDS : Z) : bool :=
  if (Pre_defined_Variables_Opt_THCbypLateDS =? 1)%Z then
    if Bool.eqb AndLowChance61stagelessth11 true
       && (Bool.eqb THC_Class_normal_or_above true || Bool.eqb Late_Dry_Season true)
    then true else false
  else
    if Bool.eqb AndLowChance61stagelessth11 true && Bool.eqb THC_Class_normal_or_above true
    then true else false.

Definition Choose_PAPEWS_1 (WSM_Zone : Z)
    (Pre_defined_Variables_APCB1 Pre_defined_Variables_APCB2
     Pre_defined_Variables_APCB3 Pre_defined_Variables_APCB4 : float) : float :=
  if (WSM_Zone =? 1)%Z then Pre_defined_Variables_APCB1 / 100
  else if (WSM_Zone =? 2)%Z then Pre_defined_Variables_APCB2 / 100
  else if (WSM_Zone =? 3)%Z then Pre_defined_Variables_APCB3 / 100
  else if (WSM_Zone =? 4)%Z then Pre_defined_Variables_APCB4 / 100
  else -9999.

Definition Choose_PAPEWS_2 (Pre_defined_Variables_Opt_CEews_LOWSM : Z)
    (Pre_defined_Variables_CalEst_ews : float) : result float :=
  let C2 : option float :=
    if (Pre_defined_Variables_Opt_CEews_LOWSM + 1 =? 1)%Z then Some 0
    else if (Pre_defined_Variables_Opt_CEews_LOWSM + 1 =? 2)%Z
    then Some Pre_defined_Variables_CalEst_ews
    else if (Pre_defined_Variables_Opt_CEews_LOWSM + 1 =? 3)%Z then Some 300
    else None in
  return_local C2.

Definition Post_AP_EWS (ATHCnora : bool) (WSM_Zone : Z)
    (Choose_PAPEWS_1 Choose_PAPEWS_2 Pre_defined_Variables_CalEst_ews : float) : float :=
  if Bool.eqb ATHCnora true then
    if (WSM_Zone =? 0)%Z then Pre_defined_Variables_CalEst_ews
    else (1 - Choose_PAPEWS_1) * Choose_PAPEWS_2
  else 0.

End AP_FNs.

(** ** Tables, the state store and the monad of the loop *)

(** A pandas DataFrame with the default integer index: [df_len] rows and
    named columns. *)
Record DataFrame : Type := mkDataFrame {
  df_len : nat;
  df_cols : gmap string (list val)
}.

(** The mutable state of a run: the attributes of the model-variable object
    (each a NumPy array) and the output table [lo_model]. *)
Record state : Type := mkState {
  mvars : gmap string (list val);
  lo_model : DataFrame
}.

Definition M (A : Type) : Type := state → state * result A.

#[export] Instance M_ret : MRet M := λ A a s, (s, Ok a).
#[export] Instance M_bind : MBind M := λ A B f m s,
  match m s with
  | (s', Ok a) => f a s'
  | (s', Raise e) => (s', Raise e)
  end.

Definition raise {A} (e : exn) : M A := λ s, (s, Raise e).
Definition lift {A} (r : result A) : M A := λ s, (s, r).
Definition lift_opt {A} (e : exn) (o : option A) : M A :=
  match o with
  | Some a => mret a
  | None => raise e
  end.
Definition get_state : M state := λ s, (s, Ok s).
Definition put_mvars (m : gmap string (list val)) : M unit :=
  λ s, (mkState m (lo_model s), Ok tt).
Definition put_lo_model (d : DataFrame) : M unit :=
  λ s, (mkState (mvars s) d, Ok tt).

(** The content of cell [k] of array [x], when there is one. *)
Definition cell (s : state) (x : string) (k : nat) : option val :=
  mvars s !! x ≫= λ a, a !! k.

(** NumPy index normalisation: a negative index counts from the end. *)
Definition np_index (n : nat) (z : Z) : option nat :=
  if 0 <=? z then (if z <? Z.of_nat n then Some (Z.to_nat z) else None)
  else if - Z.of_nat n <=? z then Some (Z.to_nat (Z.of_nat n + z))
  else None.

(** [model_variables.x[z]] *)
Definition rdz (x : string) (z : Z) : M val :=
  s ← get_state;
  a ← lift_opt AttributeError (mvars s !! x);
  k ← lift_opt IndexError (np_index (length a) z);
  lift_opt IndexError (a !! k).

Definition rd (x : string) (k : nat) : M val := rdz x (Z.of_nat k).

(** [model_variables.x[k] = v], for an array of dtype object. *)
Definition wr (x : string) (k : nat) (v : val) : M unit :=
  s ← get_state;
  a ← lift_opt AttributeError (mvars s !! x);
  if decide (k < length a)%nat then put_mvars (<[x := <[k := v]> a]> (mvars s))
  else raise IndexError.

Definition as_float (v : val) : M float := lift_opt TypeError (num_of v).

(** A value used where Python needs an int. *)
Definition int_of (v : val) : option Z :=
  match v with
  | VInt z => Some z
  | VBool b => Some (if b then 1 else 0)
  | _ => None
  end.
Definition as_int (v : val) : M Z := lift_opt TypeError (int_of v).

(** A table cell used as a flag. *)
Definition bool_of (v : val) : option bool :=
  match v with
  | VBool b => Some b
  | _ => None
  end.
Definition as_bool (v : val) : M bool := lift_opt TypeError (bool_of v).

Definition as_date (v : val) : M (Z * Z * Z) :=
  match v with
  | VDate y m d => mret (y, m, d)
  | _ => raise AttributeError
  end.

(** [model_variables.x[k] = v], for an array of dtype float64: the value is
    converted to a float. *)
Definition wrF (x : string) (k : nat) (v : val) : M unit :=
  f ← as_float v; wr x k (VFloat f).

Definition wrB (x : string) (k : nat) (b : bool) : M unit := wr x k (VFloat (b2f b)).

Definition rdF (x : string) (k : nat) : M float := v ← rd x k; as_float v.
Definition rdZ (x : string) (k : nat) : M Z := v ← rd x k; as_int v.
(** A flag read back from a float64 array and tested with [== True]. *)
Definition rdB (x : string) (k : nat) : M bool := f ← rdF x k; mret (is_True f).

(** [model_variables.x[i:j]] of a float64 array; a slice never raises. *)
Definition rd_slice (x : string) (i j : nat) : M (list float) :=
  s ← get_state;
  a ← lift_opt AttributeError (mvars s !! x);
  mret (omap num_of (take (j - i) (drop i a))).

(** [df.at[r, c]]: the row label must be in the index. *)
Definition df_at (df : DataFrame) (r : Z) (c : string) : M val :=
  if (0 <=? r) && (r <? Z.of_nat (df_len df)) then
    col ← lift_opt KeyError (df_cols df !! c);
    lift_opt KeyError (col !! Z.to_nat r)
  else raise KeyError.

(** [df[c].iloc[k]] *)
Definition df_iloc (df : DataFrame) (c : string) (k : nat) : M val :=
  col ← lift_opt KeyError (df_cols df !! c);
  lift_opt IndexError (col !! k).

(** [xs[k]] of a Python list, or of a Series with the default index. *)
Definition list_at (e : exn) (xs : list val) (k : nat) : M val :=
  lift_opt e (xs !! k).

(** [cfg[k]] of a parameter dictionary. *)
Definition getkey (cfg : gmap string val) (k : string) : M val :=
  lift_opt KeyError (cfg !! k).
Definition getkeyF (cfg : gmap string val) (k : string) : M float :=
  v ← getkey cfg k; as_float v.
Definition getkeyZ (cfg : gmap string val) (k : string) : M Z :=
  v ← getkey cfg k; as_int v.

(** Python's [==] between a value and a number. *)
Definition eq_num (v : val) (x : float) : bool :=
  match num_of v with
  | Some f => PrimFloat.eqb f x
  | None => false
  end.

(** ** Python numbers

    The arithmetic of Python on the cells of an object array, where a cell
    holds the Python object that was stored: two ints (a bool counts as an
    int) are combined exactly and give an int; when one operand is a float
    the other is converted to the nearest double, [OverflowError] when the
    int is beyond the doubles, and the operation is that of IEEE doubles.
    Values that are not numbers are outside this arithmetic: [TypeError].
    The numbers are Python's [int], [bool] and [float]. *)

(** [float(n)] for any Python int [n]: the nearest double, ties to even. *)
Definition float_of_int (z : Z) : result float :=
  let f := SF2Prim (binary_normalize prec emax z 0 false) in
  if PrimFloat.is_infinity f then Raise OverflowError else Ok f.

Definition is_number (v : val) : bool :=
  match v with
  | VInt _ | VFloat _ | VBool _ => true
  | VStr _ | VDate _ _ _ => false
  end.

Definition py_float (v : val) : result float :=
  match v with
  | VFloat x => Ok x
  | VInt z => float_of_int z
  | VBool b => Ok (b2f b)
  | VStr _ | VDate _ _ _ => Raise TypeError
  end.

Definition py_arith (on_int : Z → Z → Z) (on_float : float → float → float)
    (a b : val) : result val :=
  if is_number a && is_number b then
    match int_of a, int_of b with
    | Some x, Some y => Ok (VInt (on_int x y))
    | _, _ =>
        match py_float a with
        | Ok f =>
            match py_float b with
            | Ok g => Ok (VFloat (on_float f g))
            | Raise e => Raise e
            end
        | Raise e => Raise e
        end
    end
  else Raise TypeError.

(** [a + b], [a - b] and [a * b] *)
Definition py_add : val → val → result val := py_arith Z.add PrimFloat.add.
Definition py_sub : val → val → result val := py_arith Z.sub PrimFloat.sub.
Definition py_mul : val → val → result val := py_arith Z.mul PrimFloat.mul.

(** The order of an int and a float: Python compares the two numbers
    exactly, without converting the int. There is none with a NaN. (A NumPy
    float64 scalar converts the int to a double first, which makes a
    difference only for an int beyond 2^53.) *)
Definition Z_compare_float (z : Z) (f : float) : option comparison :=
  match Prim2SF f with
  | S754_nan => None
  | S754_infinity neg => Some (if neg then Gt else Lt)
  | S754_zero _ => Some (z ?= 0)
  | S754_finite neg m e =>
      let v := if neg then Zneg m else Zpos m in
      Some (if 0 <=? e then z ?= v * 2 ^ e else z * 2 ^ (- e) ?= v)
  end.

(** [a < b] *)
Definition py_lt (a b : val) : result bool :=
  match a, b with
  | VFloat f, VFloat g => Ok (PrimFloat.ltb f g)
  | VFloat f, _ =>
      match int_of b with
      | Some y => Ok (bool_decide (Z_compare_float y f = Some Gt))
      | None => Raise TypeError
      end
  | _, VFloat g =>
      match int_of a with
      | Some x => Ok (bool_decide (Z_compare_float x g = Some Lt))
      | None => Raise TypeError
      end
  | _, _ =>
      match int_of a, int_of b with
      | Some x, Some y => Ok (x <? y)
      | _, _ => Raise TypeError
      end
  end.

(** [min(a, b)] and [max(a, b)] of two objects: the result is one of the two
    argument objects, the first unless the second is strictly smaller
    ([b < a]) or strictly larger ([b > a], the same test as [a < b]). *)
Definition py_min_obj (a b : val) : result val :=
  match py_lt b a with
  | Ok lt => Ok (if lt then b else a)
  | Raise e => Raise e
  end.
Definition py_max_obj (a b : val) : result val :=
  match py_lt a b with
  | Ok lt => Ok (if lt then b else a)
  | Raise e => Raise e
  end.

(** [for i in range(n): body i] *)
Fixpoint for_range_from (start n : nat) (body : nat → M unit) : M unit :=
  match n with
  | O => mret tt
  | S n' => body start;; for_range_from (S start) n' body
  end.
Definition for_range (n : nat) (body : nat → M unit) : M unit :=
  for_range_from 0 n body.

(** ** THC_Class.py: one day of the adaptive protocol

    The arrays are passed by reference: each array parameter is the name of
    an attribute of the model-variable object, so that two parameters bound
    to one attribute alias. [Pre_defined_Variables] is the parameter object
    of the module (LOONE_Q.py passes its configuration for it), [format] is
    Python's string formatting of a value. A rule reads its flags back from
    the float64 arrays, where [True] is 1.0; the table columns
    [Late_Dry_Season] and [Estuary Needs Water?] hold Python bools, and the
    water-shortage zone is an int. The function returns the pair
    (Post_AP_EWS, Post_Ap_Baseflow) of its [THC_Out]. *)
Section THC_Class.
Variable Pre_defined_Variables : gmap string val.
Variable format : val → string.
Variable i : nat.
Variables THC_Class_normal_or_above Lake_O_Stage_AP Lake_O_Schedule_Zone LStgCorres
  LowChance_Check S77RS_AP S77BS_AP S77RS_Pre_AP_S77_Baseflow Forecast_D_Sal n30d_mavg
  n30davgForecast LORS08_bf_rel LDS_LC6_1 S_O All_4 Sabf Swbf Swbu All_4andStage
  All_4andStagein P_AP_BF_Stg Logic_test_1 Post_Ap_Baseflow S77RSplusPreAPS77bsf
  AndEstNeedsLakeWater AndLowChance61stagelessth11 ATHCnora Choose_PAPEWS_1
  Choose_PAPEWS_2 Post_AP_EWS Post_AP_Baseflow_EWS_cfs : string.
Variable AdapProt_df : DataFrame.
Variables Stage_LO Zone_Code : string.
Variables df_WSMs Targ_Stg_df : DataFrame.
Variables S77RS S77BS : string.
Variable Estuary_needs_water : DataFrame.
Variable Choose_1 : val.
Variable WSM_Zone : string.

Definition THC_Class : M (float * float) :=
  thc ← df_iloc AdapProt_df "Tributary Hydrologic Condition" i ≫= as_float;
  thr ← getkeyF Pre_defined_Variables "THC_threshold";
  wrB THC_Class_normal_or_above i (AP_FNs.THC_Class_normal_or_above thc thr);;
  (* Lake Okeechobee Stage *)
  (rd Stage_LO (i + 1) ≫= wrF Lake_O_Stage_AP i);;
  (* Lake Okeechobee Zone Code *)
  (rd Zone_Code (i + 1) ≫= wrF Lake_O_Schedule_Zone i);;
  '(_, month, _) ← df_iloc AdapProt_df "date" i ≫= as_date;
  wsm1 ← df_iloc df_WSMs "WSM1" (i + 1) ≫= as_float;
  LowChance ← getkey Pre_defined_Variables "LowChance";
  targ ← df_iloc Targ_Stg_df (format LowChance +:+ "%") i ≫= as_float;
  opt_line ← getkeyZ Pre_defined_Variables "Opt_LChance_line";
  low_chance ← as_int LowChance;
  wr LStgCorres i (VFloat (AP_FNs.LStgCorres month wsm1 targ opt_line low_chance));;
  (* Lowchance 6/1 stage falls <11'? *)
  stage_ap ← rdF Lake_O_Stage_AP i;
  lstg ← rdF LStgCorres i;
  wrB LowChance_Check i (AP_FNs.LowChance_Check stage_ap lstg);;
  (rd S77RS (i + 2) ≫= wrF S77RS_AP i);;
  (rd S77BS (i + 2) ≫= wrF S77BS_AP i);;
  (* Sum S77RS + S77BS *)
  rs ← rdF S77RS_AP i;
  bs ← rdF S77BS_AP i;
  wr S77RS_Pre_AP_S77_Baseflow i (VFloat (rs + bs)%float);;
  OptSalFcast ← getkeyZ Pre_defined_Variables "OptSalFcast";
  (lift (AP_FNs.Forecast_D_Sal OptSalFcast) ≫= λ F, wr Forecast_D_Sal i (VFloat F));;
  (* Calculate 30-day moving avg salinity (psu) *)
  (lift (AP_FNs.n30d_mavg OptSalFcast) ≫= λ F, wr n30d_mavg i (VFloat F));;
  est ← df_iloc Estuary_needs_water "Estuary Needs Water?" i ≫= as_bool;
  window ← rd_slice n30d_mavg i (i + 13);
  sal_thr ← getkeyF Pre_defined_Variables "CE_SalThreshold";
  (lift (AP_FNs.n30davgForecast est window OptSalFcast sal_thr) ≫= wrB n30davgForecast i);;
  (* LORS-08 suggests baseflow release from Lake & estuary needs Lake water *)
  bs ← rdF S77BS_AP i;
  fc ← rdB n30davgForecast i;
  wrB LORS08_bf_rel i (AP_FNs.LORS08_bf_rel bs fc);;
  lds ← df_iloc AdapProt_df "Late_Dry_Season" i ≫= as_bool;
  lcc ← rdB LowChance_Check i;
  lds_opt ← getkeyZ Pre_defined_Variables "Late_Dry_Season_Option";
  wrB LDS_LC6_1 i (AP_FNs.LDS_LC6_1 lds lcc lds_opt);;
  (* Define Switch at Cell O *)
  ldslc ← rdB LDS_LC6_1 i;
  bs ← rdF S77BS_AP i;
  wr S_O i (VFloat (AP_FNs.S_O ldslc bs));;
  (* Define All 4 prior conditions are TRUE: *)
  lors ← rdB LORS08_bf_rel i;
  ldslc ← rdB LDS_LC6_1 i;
  wrB All_4 i (AP_FNs.All_4 lors ldslc);;
  (* Stage above / within Baseflow SB? within Bene.Use SB? *)
  (rdF Lake_O_Schedule_Zone i ≫= λ z, wrB Sabf i (AP_FNs.Sabf z));;
  (rdF Lake_O_Schedule_Zone i ≫= λ z, wrB Swbf i (AP_FNs.Swbf z));;
  (rdF Lake_O_Schedule_Zone i ≫= λ z, wrB Swbu i (AP_FNs.Swbu z));;
  (* All 4 and Stage > Baseflow SB? *)
  a4 ← rdB All_4 i;
  sa ← rdB Sabf i;
  wrB All_4andStage i (AP_FNs.All_4andStage a4 sa);;
  (* All 4 and Stage in Baseflow SB? *)
  a4 ← rdB All_4 i;
  sa ← rdB Sabf i;
  wrB All_4andStagein i (AP_FNs.All_4andStagein a4 sa);;
  (* Pre-AP BF>0 AND stg>BF Subband *)
  z ← rdF Lake_O_Schedule_Zone i;
  bs ← rdF S77BS_AP i;
  wrB P_AP_BF_Stg i (AP_FNs.P_AP_BF_Stg z bs);;
  (* Create a logic test to be used for Post-AP Baseflow (cfs) *)
  a4s ← rdB All_4andStage i;
  pap ← rdB P_AP_BF_Stg i;
  opt_noap ← getkeyZ Pre_defined_Variables "Opt_NoAP_above_BF_SB";
  wrB Logic_test_1 i (AP_FNs.Logic_test_1 a4s pap opt_noap);;
  (* Main Function *)
  lt1 ← rdB Logic_test_1 i;
  bs ← rdF S77BS_AP i;
  a4si ← rdB All_4andStagein i;
  ch1 ← as_float Choose_1;
  wr Post_Ap_Baseflow i (VFloat (AP_FNs.Post_Ap_Baseflow lt1 bs a4si ch1));;
  (* S77RS+PreAPS77bsf=0 and [Stage above LOWSM]? *)
  pre ← rdF S77RS_Pre_AP_S77_Baseflow i;
  z ← rdF Lake_O_Schedule_Zone i;
  opt_ce ← getkeyZ Pre_defined_Variables "Opt_CEews_LOWSM";
  wrB S77RSplusPreAPS77bsf i (AP_FNs.S77RSplusPreAPS77bsf pre z opt_ce);;
  (* AND Est Needs Lake Water? *)
  fc ← rdB n30davgForecast i;
  sp ← rdB S77RSplusPreAPS77bsf i;
  wrB AndEstNeedsLakeWater i (AP_FNs.AndEstNeedsLakeWater fc sp);;
  (* AND Low chance 6/1 stage <11'? *)
  ldslc ← rdB LDS_LC6_1 i;
  aen ← rdB AndEstNeedsLakeWater i;
  wrB AndLowChance61stagelessth11 i (AP_FNs.AndLowChance61stagelessth11 ldslc aen);;
  (* AND THC normal or above? *)
  alc ← rdB AndLowChance61stagelessth11 i;
  thcn ← rdB THC_Class_normal_or_above i;
  lds ← df_iloc AdapProt_df "Late_Dry_Season" i ≫= as_bool;
  opt_byp ← getkeyZ Pre_defined_Variables "Opt_THCbypLateDS";
  wrB ATHCnora i (AP_FNs.ATHCnora alc thcn lds opt_byp);;
  (* Post-AP EWS (cfs): define Choose_PAPEWS_1 and 2 *)
  wz ← rdZ WSM_Zone (i + 2);
  cb1 ← getkeyF Pre_defined_Variables "APCB1";
  cb2 ← getkeyF Pre_defined_Variables "APCB2";
  cb3 ← getkeyF Pre_defined_Variables "APCB3";
  cb4 ← getkeyF Pre_defined_Variables "APCB4";
  wr Choose_PAPEWS_1 i (VFloat (AP_FNs.Choose_PAPEWS_1 wz cb1 cb2 cb3 cb4));;
  cal ← getkeyF Pre_defined_Variables "CalEst_ews";
  (lift (AP_FNs.Choose_PAPEWS_2 opt_ce cal) ≫= λ c, wr Choose_PAPEWS_2 i (VFloat c));;
  at_ ← rdB ATHCnora i;
  wz ← rdZ WSM_Zone (i + 2);
  c1 ← rdF Choose_PAPEWS_1 i;
  c2 ← rdF Choose_PAPEWS_2 i;
  wr Post_AP_EWS i (VFloat (AP_FNs.Post_AP_EWS at_ wz c1 c2 cal));;
  (* Post-AP Baseflow + EWS (cfs) *)
  pb ← rdF Post_Ap_Baseflow i;
  pe ← rdF Post_AP_EWS i;
  wr Post_AP_Baseflow_EWS_cfs i (VFloat (pb + pe)%float);;
  out_ews ← rdF Post_AP_EWS i;
  out_bf ← rdF Post_Ap_Baseflow i;
  mret (out_ews, out_bf).

End THC_Class.

(** ** LOONE_Q.py: the steps of one simulated day

    The helper modules [lo_functions], [dec_tree_functions] and [stg_sto_ar]
    are parameters of the steps, as in the source: a helper module maps a
    function name and the argument list to the returned value. The model
    variables are the [mvars] of the state; [lo_model] is the table of the
    state. Arithmetic that a step does itself is float arithmetic. *)

Definition pyobj : Type := string → list val → val.

Definition df_atz (df : DataFrame) (r : Z) (c : string) : M val := df_at df r c.
Definition df_atn (df : DataFrame) (r : nat) (c : string) : M val := df_at df (Z.of_nat r) c.

(** [lo_model.at[r, c]] *)
Definition lo_at (r : nat) (c : string) : M val :=
  s ← get_state; df_atn (lo_model s) r c.

(** [data.name] *)
Definition data_attr (data : gmap string DataFrame) (name : string) : M DataFrame :=
  lift_opt AttributeError (data !! name).

(** A free name of the module: bound only if the module defines it. *)
Definition global {A} (g : option A) : M A := lift_opt NameError g.

Definition _calculate_wsm_zone (i : nat) (lo_functions : pyobj) (df_WSMs : DataFrame) : M unit :=
  stage ← rd "Lake_Stage" (i + 1);
  w4 ← df_atn df_WSMs (i + 1) "WSM4";
  w3 ← df_atn df_WSMs (i + 1) "WSM3";
  w2 ← df_atn df_WSMs (i + 1) "WSM2";
  w1 ← df_atn df_WSMs (i + 1) "WSM1";
  wr "WSM_Zone" (i + 2) (lo_functions "WSM_Zone" [stage; w4; w3; w2; w1]).

Definition _calculate_max_supply (i : nat) (lo_functions : pyobj) (water_demand : DataFrame)
    (config : gmap string val) : M unit :=
  zone ← rd "WSM_Zone" (i + 2);
  dmd ← df_atn water_demand i "Daily_demand";
  z1 ← getkey config "z1_cutback";
  z2 ← getkey config "z2_cutback";
  z3 ← getkey config "z3_cutback";
  z4 ← getkey config "z4_cutback";
  wr "Max_Supply" (i + 2) (lo_functions "Max_Supply" [zone; dmd; z1; z2; z3; z4]).

Definition _calculate_losa_supply (i : nat) (lo_functions : pyobj) (config : gmap string val)
    : M unit :=
  zone ← rd "WSM_Zone" (i + 2);
  dmd ← lo_at (i + 2) "LOSA_dmd_SFWMM";
  ms ← rd "Max_Supply" (i + 2);
  opt ← getkey config "opt_losa_ws";
  wr "LOSA_Supply" (i + 2) (lo_functions "LOSA_Supply" [zone; dmd; ms; opt]).

Definition _calculate_ni_supply (i : nat) : M unit :=
  ni ← lo_at (i + 2) "Net_Inflow" ≫= as_float;
  ls ← rdF "LOSA_Supply" (i + 2);
  wr "NI_Supply" (i + 2) (VFloat (ni - ls)%float).

Definition _calculate_cutback (i : nat) : M unit :=
  dmd ← lo_at (i + 2) "LOSA_dmd_SFWMM" ≫= as_float;
  ls ← rdF "LOSA_Supply" (i + 2);
  let cutback := (dmd - ls)%float in
  wr "Cut_back" (i + 2) (VFloat cutback).

Definition _calculate_demand_not_supplied (i : nat) : M unit :=
  dmd ← lo_at (i + 2) "LOSA_dmd_SFWMM";
  demand_not_supplied ←
    (if eq_num dmd 0 then mret (VInt 0)
     else
       cb ← rdF "Cut_back" (i + 2);
       d ← lo_at (i + 2) "LOSA_dmd_SFWMM" ≫= as_float;
       mret (VFloat ((cb / d) * 100)%float));
  wr "Dem_N_Sup" (i + 2) demand_not_supplied.

Definition _calculate_initial_zone_code_and_lo_zone (lo_functions : pyobj)
    (df_WSMs : DataFrame) : M unit :=
  stage ← rd "Lake_Stage" 0;
  a ← df_iloc df_WSMs "A" 0;
  b ← df_iloc df_WSMs "B" 0;
  c ← df_iloc df_WSMs "C" 0;
  d3 ← df_iloc df_WSMs "D3" 0;
  d2 ← df_iloc df_WSMs "D2" 0;
  d1 ← df_iloc df_WSMs "D1" 0;
  d0 ← df_iloc df_WSMs "D0" 0;
  w1 ← df_iloc df_WSMs "WSM1" 0;
  wr "Zone_Code" 0 (lo_functions "Zone_Code" [stage; a; b; c; d3; d2; d1; d0; w1]);;
  zc ← rd "Zone_Code" 0;
  wr "LO_Zone" 0 (lo_functions "LO_Zone" [zc]).

Definition _calculate_zone_code (i : nat) (lo_functions : pyobj) (df_WSMs : DataFrame) : M unit :=
  stage ← rd "Lake_Stage" (i + 1);
  a ← df_atn df_WSMs (i + 1) "A";
  b ← df_atn df_WSMs (i + 1) "B";
  c ← df_atn df_WSMs (i + 1) "C";
  d3 ← df_atn df_WSMs (i + 1) "D3";
  d2 ← df_atn df_WSMs (i + 1) "D2";
  d1 ← df_atn df_WSMs (i + 1) "D1";
  d0 ← df_atn df_WSMs (i + 1) "D0";
  w1 ← df_atn df_WSMs (i + 1) "WSM1";
  wr "Zone_Code" (i + 1) (lo_functions "Zone_Code" [stage; a; b; c; d3; d2; d1; d0; w1]).

Definition _generate_zone_column (i : nat) (lo_functions : pyobj) : M unit :=
  zc ← rd "Zone_Code" (i + 1);
  wr "LO_Zone" (i + 1) (lo_functions "LO_Zone" [zc]).

Definition _calculate_decision_tree_variables (i : nat) (dec_tree_functions : pyobj)
    (tc_lonino_df : DataFrame) (config : gmap string val) (seasons dec_tree_df df_WSMs : DataFrame)
    : M unit :=
  tc ← df_atn tc_lonino_df i "Tributary_Condition";
  new_tree ← getkey config "opt_new_tree";
  wrF "Zone_D_Trib" i (dec_tree_functions "Zone_D_Trib" [tc; new_tree]);;
  stage ← rd "Lake_Stage" (i + 1);
  cb ← df_atn df_WSMs i "C-b";
  wrF "Zone_D_stage" i (dec_tree_functions "Zone_D_stage" [stage; cb]);;
  seas ← df_atn tc_lonino_df i "LONINO_Seasonal_Classes";
  dtrib ← rd "Zone_D_Trib" i;
  new_tree ← getkey config "opt_new_tree";
  wrF "Zone_D_Seas" i (dec_tree_functions "Zone_D_Seas" [seas; dtrib; new_tree]);;
  mseas ← df_atn tc_lonino_df i "LONINO_MultiSeasonal_Classes";
  wrF "Zone_D_MSeas" i (dec_tree_functions "Zone_D_MSeas" [mseas]);;
  d_trib ← rdF "Zone_D_Trib" i;
  d_stage ← rdF "Zone_D_stage" i;
  d_seas ← rdF "Zone_D_Seas" i;
  d_mseas ← rdF "Zone_D_MSeas" i;
  wr "Zone_D_Branch_Code" i
     (VFloat (d_trib * 1000 + d_stage * 100 + d_seas * 10 + d_mseas * 1)%float);;
  d_code ← rd "Zone_D_Branch_Code" i;
  dec_tree ← getkey config "opt_dec_tree";
  wrF "Zone_D_Rel_Code" i (dec_tree_functions "Zone_D_Rel_Code" [d_code; dec_tree]);;
  tc ← df_atn tc_lonino_df i "Tributary_Condition";
  new_tree ← getkey config "opt_new_tree";
  wrF "Zone_C_Trib" i (dec_tree_functions "Zone_C_Trib" [tc; new_tree]);;
  seas ← df_atn tc_lonino_df i "LONINO_Seasonal_Classes";
  new_tree ← getkey config "opt_new_tree";
  wrF "Zone_C_Seas" i (dec_tree_functions "Zone_C_Seas" [seas; new_tree]);;
  mseas ← df_atn tc_lonino_df i "LONINO_MultiSeasonal_Classes";
  wrF "Zone_C_MSeas" i (dec_tree_functions "Zone_C_MSeas" [mseas]);;
  cseas ← rd "Zone_C_Seas" i;
  seas ← df_atn tc_lonino_df i "LONINO_Seasonal_Classes";
  ind ← getkey config "zone_c_met_fcast_indicator";
  wrF "Zone_C_MetFcast" i (dec_tree_functions "Zone_C_MetFcast" [cseas; seas; ind]);;
  c_trib ← rdF "Zone_C_Trib" i;
  c_met ← rdF "Zone_C_MetFcast" i;
  c_seas ← rdF "Zone_C_Seas" i;
  c_mseas ← rdF "Zone_C_MSeas" i;
  wr "Zone_C_Branch_Code" i
     (VFloat (c_trib * 1000 + c_met * 100 + c_seas * 10 + c_mseas * 1)%float);;
  c_code ← rd "Zone_C_Branch_Code" i;
  dec_tree ← getkey config "opt_dec_tree";
  wrF "Zone_C_Rel_Code" i (dec_tree_functions "Zone_C_Rel_Code" [c_code; dec_tree]);;
  tc ← df_atn tc_lonino_df i "Tributary_Condition";
  new_tree ← getkey config "opt_new_tree";
  wrF "Zone_B_Trib" i (dec_tree_functions "Zone_B_Trib" [tc; new_tree]);;
  stage ← rd "Lake_Stage" (i + 1);
  season ← df_atn seasons i "Season";
  wrF "Zone_B_Stage" i (dec_tree_functions "Zone_B_Stage" [stage; season]);;
  seas ← df_atn tc_lonino_df i "LONINO_Seasonal_Classes";
  wrF "Zone_B_Seas" i (dec_tree_functions "Zone_B_Seas" [seas]);;
  b_trib ← rdF "Zone_B_Trib" i;
  b_stage ← rdF "Zone_B_Stage" i;
  b_met ← df_atn dec_tree_df i "Zone_B_MetFcast" ≫= as_float;
  b_seas ← rdF "Zone_B_Seas" i;
  wr "Zone_B_Branch_Code" i
     (VFloat (b_trib * 1000 + b_stage * 100 + b_met * 10 + b_seas * 1)%float);;
  b_code ← rd "Zone_B_Branch_Code" i;
  dec_tree ← getkey config "opt_dec_tree";
  wrF "Zone_B_Rel_Code" i (dec_tree_functions "Zone_B_Rel_Code" [b_code; dec_tree]).

Definition _calculate_release_levels (i : nat) (startdate : Z * Z * Z)
    (lo_functions : pyobj) (config : gmap string val) (tc_lonino_df : DataFrame) : M unit :=
  zc ← rd "Zone_Code" (i + 1);
  d ← rd "Zone_D_Rel_Code" i;
  c ← rd "Zone_C_Rel_Code" i;
  b ← rd "Zone_B_Rel_Code" i;
  wr "DecTree_Relslevel" (i + 2) (lo_functions "DecTree_Relslevel" [zc; d; c; b]);;
  (if decide (3 ≤ i)%nat then
     let '(sy, sm, sd) := startdate in
     '(y, m, d) ← lo_at i "date" ≫= as_date;
     same_day ←
       (if (sm =? m) && (sd =? d) then
          cs ← getkey config "cs_flag";
          mret (eq_num cs 0 || (sy =? y))
        else mret false);
     let X2 := if same_day : bool then VStr "SimDay1" else VDate y m d in
     wr "DayFlags" i X2
   else mret tt);;
  flag ← rd "DayFlags" (i + 2);
  rel ← rd "DecTree_Relslevel" (i + 2);
  sw ← getkey config "pls_day_switch";
  wr "PlsDay" (i + 2) (lo_functions "PlsDay" [flag; rel; sw]);;
  prev ← rd "Release_Level" (i + 1);
  stage ← rd "Lake_Stage" (i + 1);
  tc ← df_atn tc_lonino_df i "Tributary_Condition";
  pls ← rd "PlsDay" (i + 2);
  zc ← rd "Zone_Code" (i + 1);
  rel ← rd "DecTree_Relslevel" (i + 2);
  trig ← getkey config "max_qstg_trigger";
  wr "Release_Level" (i + 2)
     (lo_functions "release_level" [prev; stage; tc; pls; zc; rel; trig]);;
  (if decide (6 ≤ i)%nat then
     a ← rdF "Lake_Stage" (i + 1);
     b ← rdF "Lake_Stage" (i - 6);
     let dh := (a - b)%float in
     wr "dh_7days" (i + 1) (VFloat dh)
   else mret tt).

Definition _calculate_zone_codes (i : nat) (lo_functions : pyobj) (df_WSMs : DataFrame) : M unit :=
  let thresholds : M (list val) :=
    w1 ← df_atn df_WSMs (i + 1) "WSM1";
    d0 ← df_atn df_WSMs (i + 1) "D0";
    d1 ← df_atn df_WSMs (i + 1) "D1";
    d2 ← df_atn df_WSMs (i + 1) "D2";
    d3 ← df_atn df_WSMs (i + 1) "D3";
    c ← df_atn df_WSMs (i + 1) "C";
    b ← df_atn df_WSMs (i + 1) "B";
    a ← df_atn df_WSMs (i + 1) "A";
    mret [w1; d0; d1; d2; d3; c; b; a] in
  zc ← rd "Zone_Code" (i + 1);
  ths ← thresholds;
  wr "ZoneCodeminus1Code" (i + 1) (lo_functions "ZoneCodeminus1Code" (zc :: ths));;
  zc ← rd "Zone_Code" (i + 1);
  ths ← thresholds;
  wr "ZoneCodeCode" (i + 1) (lo_functions "ZoneCodeCode" (zc :: ths));;
  zc ← rd "Zone_Code" (i + 1);
  stage ← rd "Lake_Stage" (i + 1);
  lower ← rd "ZoneCodeminus1Code" (i + 1);
  upper ← rd "ZoneCodeCode" (i + 1);
  wr "Fraction_of_Zone_height" (i + 1)
     (lo_functions "Fraction_of_Zone_height" [zc; stage; lower; upper]).

(** The five zone parameters [config[prefix_d1]], ..., [config[prefix_b]]. *)
Definition zone_params (config : gmap string val) (prefix : string) : M (list val) :=
  d1 ← getkey config (prefix +:+ "_d1");
  d2 ← getkey config (prefix +:+ "_d2");
  d3 ← getkey config (prefix +:+ "_d3");
  c ← getkey config (prefix +:+ "_c");
  b ← getkey config (prefix +:+ "_b");
  mret [d1; d2; d3; c; b].

Definition _calculate_release_level_codes (i : nat) (lo_functions : pyobj)
    (config : gmap string val) : M unit :=
  rl ← rd "Release_Level" (i + 2);
  ps ← zone_params config "dstar";
  wr "ReLevelCode_1" (i + 2) (lo_functions "ReLevelCode_1" (rl :: ps));;
  rl ← rd "Release_Level" (i + 2);
  ps ← zone_params config "astar";
  wr "ReLevelCode_2" (i + 2) (lo_functions "ReLevelCode_2" (rl :: ps));;
  rl ← rd "Release_Level" (i + 2);
  ps ← zone_params config "bstar_s80";
  wr "ReLevelCode_3_S80" (i + 2) (lo_functions "ReLevelCode_3_S80" (rl :: ps)).

Definition _calculate_relevel_code_3_s77 (i : nat) (lo_functions : pyobj)
    (config : gmap string val) : M unit :=
  rl ← rd "Release_Level" (i + 2);
  ps ← zone_params config "bstar_s77";
  wr "ReLevelCode_3_S77" (i + 2) (lo_functions "ReLevelCode_3_S77" (rl :: ps)).

Definition _calculate_outlet2ds_mult (i : nat) (lo_functions : pyobj) (seasons : DataFrame)
    (config : gmap string val) : M unit :=
  season ← df_atn seasons i "Season";
  month ← df_atn seasons i "Month";
  dh ← rd "dh_7days" (i + 1);
  c1 ← rd "ReLevelCode_1" (i + 2);
  frac ← rd "Fraction_of_Zone_height" (i + 1);
  c2 ← rd "ReLevelCode_2" (i + 2);
  c3 ← rd "ReLevelCode_3_S80" (i + 2);
  opt ← getkey config "opt_qreg_mult";
  wr "Outlet2DS_Mult" (i + 2)
     (lo_functions "Outlet2DS_Mult" [season; month; dh; c1; frac; c2; c3; opt]);;
  '(_, m, d) ← lo_at (i + 2) "date" ≫= as_date;
  pls ← rd "PlsDay" (i + 2);
  p ← rdZ "PlsDay" (i + 2);
  back ← rdz "Outlet2DS_Mult" (Z.of_nat i + 2 - p);
  cur ← rd "Outlet2DS_Mult" (i + 2);
  opt ← getkey config "opt_qreg_mult";
  wr "Outlet2DS_Mult_2" (i + 2)
     (lo_functions "Outlet2DS_Mult_2" [VInt m; VInt d; pls; back; cur; opt]).

(** The row of the pulse table that the pulse-day counter selects:
    [PlsDay - 1 if PlsDay - 1 >= 0 else len(data.Pulses) - 1]. *)
Definition pulse_row (PlsDay : Z) (Pulses : DataFrame) : Z :=
  if 0 <=? PlsDay - 1 then PlsDay - 1 else Z.of_nat (df_len Pulses) - 1.

(** [data.Pulses.at[row, f'prefix{config["schedule"]}']] *)
Definition pulse_at (i : nat) (data : gmap string DataFrame) (config : gmap string val)
    (format : val → string) (prefix : string) : M val :=
  Pulses ← data_attr data "Pulses";
  p ← rdZ "PlsDay" (i + 2);
  schedule ← getkey config "schedule";
  df_atz Pulses (pulse_row p Pulses) (prefix +:+ format schedule).

(** [data.CE_SLE_turns.at[lo_model.at[i + 2, "date"].year - config["start_year"], c]] *)
Definition turn_at (i : nat) (data : gmap string DataFrame) (config : gmap string val)
    (c : string) : M val :=
  turns ← data_attr data "CE_SLE_turns";
  '(y, _, _) ← lo_at (i + 2) "date" ≫= as_date;
  start_year ← getkeyZ config "start_year";
  df_atz turns (y - start_year) c.

(** The cells of the arrays and of the tables are scalars in this model, so
    that [diff] below is a number and the test [isinstance(diff, pd.Series)]
    of the source is false: [max] gets [diff] itself, and returns the int
    literal [0] unless [diff > 0]. *)
Definition _calculate_outlet2dsrs (i : nat) (lo_functions : pyobj)
    (data : gmap string DataFrame) (s80avg_l1 s80avg_l2 s80avg_l3 : val)
    (config : gmap string val) (format : val → string) : M unit :=
  rl ← rd "Release_Level" (i + 2);
  rates ← data_attr data "S80_RegRelRates";
  zd1 ← df_atn rates 0 "Zone_D1";
  p1 ← pulse_at i data config format "S-80_L1_";
  mult ← rd "Outlet2DS_Mult_2" (i + 2);
  turn ← turn_at i data config "SLEturn";
  zd2 ← df_atn rates 0 "Zone_D2";
  p2 ← pulse_at i data config format "S-80_L2_";
  zd3 ← df_atn rates 0 "Zone_D3";
  p3 ← pulse_at i data config format "S-80_L3_";
  zc ← df_atn rates 0 "Zone_C";
  zb ← df_atn rates 0 "Zone_B";
  za ← df_atn rates 0 "Zone_A";
  wr "Outlet2DSRS" (i + 2)
     (lo_functions "Outlet2DSRS"
        [rl; zd1; s80avg_l1; p1; mult; turn; zd2; s80avg_l2; p2; zd3; s80avg_l3; p3; zc; zb; za]);;
  rs ← rd "Outlet2DSRS" (i + 2);
  ro ← lo_at (i + 2) "C44RO";
  diff ← lift (py_sub rs ro);
  rg1 ← lift (py_max_obj (VInt 0) diff);
  wr "Outlet2USRG1" (i + 2) rg1;;
  '(_, _, day) ← lo_at (i + 2) "date" ≫= as_date;
  rg1 ← rd "Outlet2USRG1" (i + 2);
  wr "Sum_Outlet2USRG1" (i + 2) (lo_functions "Sum_Outlet2USRG1" [VInt day; rg1]).

Definition _calculate_outlet2dsbs (i : nat) (lo_functions : pyobj) (vlookup1_c : list val)
    (outlet2_baseflow : val) (config : gmap string val) : M unit :=
  rl ← rd "Release_Level" (i + 2);
  sum ← rd "Sum_Outlet2USRG1" (i + 2);
  v ← list_at IndexError vlookup1_c i;
  opt ← getkey config "option_s80_baseflow";
  wr "Outlet2DSBS" (i + 2) (lo_functions "Outlet2DSBS" [rl; sum; v; outlet2_baseflow; opt]).

Definition _calculate_outlet2usbk (i : nat) (lo_functions : pyobj) (df_WSMs : DataFrame)
    (data : gmap string DataFrame) (config : gmap string val) : M unit :=
  stage ← rd "Lake_Stage" (i + 1);
  d1 ← df_atn df_WSMs (i + 1) "D1";
  rg ← rd "Outlet2USRG" (i + 1);
  ro ← lo_at (i + 2) "C44RO";
  sfwmm ← data_attr data "SFWMM_Daily_Outputs";
  bk ← df_atn sfwmm (i + 2) "S308BK";
  opt ← getkey config "opt_s308";
  const ← getkey config "s308_bk_const";
  thr ← getkey config "s308_bk_thr";
  wr "Outlet2USBK" (i + 2)
     (lo_functions "Outlet2USBK" [stage; d1; rg; ro; bk; opt; const; thr]);;
  ro ← lo_at (i + 2) "C44RO" ≫= as_float;
  bk ← rdF "Outlet2USBK" (i + 2);
  wr "ROeast" (i + 2) (VFloat (ro - bk)%float);;
  bs ← rd "Outlet2DSBS" (i + 2);
  rg1 ← rd "Outlet2USRG1" (i + 2);
  east ← rd "ROeast" (i + 2);
  opt ← getkey config "option_s80_baseflow";
  wr "Outlet2USBS" (i + 2) (lo_functions "Outlet2USBS" [bs; rg1; east; opt]);;
  '(_, _, day) ← lo_at (i + 2) "date" ≫= as_date;
  bk ← rd "Outlet2USBK" (i + 2);
  wr "Sum_Outlet2USBK" (i + 2) (lo_functions "Sum_Outlet2USBK" [VInt day; bk]).

(** Membership of a month in a list of month numbers. *)
Definition month_in (m : Z) (ms : list Z) : bool := bool_decide (m ∈ ms).

(** [dv[month - 1]] of a sequence. *)
Definition seq_at (dv : list val) (z : Z) : M val :=
  lift_opt IndexError (np_index (length dv) z ≫= λ k, dv !! k).

(** The parametric release of an outlet (the branch [sim_type != 0]): the
    stage bands, then the monthly decision variable [dv] when the lake
    indicator [tp_lake_s[i]] is under the threshold of the season. *)
Definition parametric_release (i : nat) (cap : Z) (tp_lake_s : M (list val)) (p1 p2 : M val)
    (dv : M (list val)) (date_range_6 : list val) : M val :=
  stage ← rdF "Lake_Stage" (i + 1);
  if (18 <=? stage)%float then mret (VInt cap)
  else if (stage <=? 8)%float then mret (VInt 0)
  else
    let month : M Z := '(_, m, _) ← list_at IndexError date_range_6 (i + 2) ≫= as_date; mret m in
    let under (p : M val) : M bool :=
      tp ← tp_lake_s; t ← list_at IndexError tp i ≫= as_float;
      pv ← p ≫= as_float; mret (t <=? pv)%float in
    let both (p : M val) (ms : list Z) : M bool :=
      u ← under p; if u : bool then m ← month; mret (month_in m ms) else mret false in
    let pick : M val := d ← dv; m ← month; seq_at d (m - 1) in
    c1 ← both p1 [1; 2; 3; 4; 11; 12];
    if c1 : bool then pick
    else
      c2 ← both p2 [5; 6; 7; 8; 9; 10];
      if c2 : bool then pick else mret (VInt 0).

(** The free names of LOONE_Q.py that its step functions read: they exist
    only if the module binds them. *)
Record globals : Type := mkGlobals {
  g_p1 : option val;
  g_p2 : option val;
  g_tp_lake_s : option (list val);
  g_s308_dv : option (list val);
  g_start_storage : option val
}.

Definition _calculate_outlet2usrg_code (i : nat) (G : globals) (lo_functions : pyobj)
    (data : gmap string DataFrame) (config : gmap string val) (date_range_6 : list val)
    : M unit :=
  rg1 ← rd "Outlet2USRG1" (i + 2);
  bs ← rd "Outlet2USBS" (i + 2);
  sfwmm ← data_attr data "SFWMM_Daily_Outputs";
  s308rg ← df_atn sfwmm (i + 2) "S308RG";
  stest ← df_atn sfwmm (i + 2) "STEST";
  opt ← getkey config "option_reg_s77_s308";
  wr "Outlet2USRG_Code" (i + 2)
     (lo_functions "Outlet2USRG_Code" [rg1; bs; s308rg; stest; opt]);;
  sim_type ← getkey config "sim_type";
  if eq_num sim_type 0 then
    code ← rd "Outlet2USRG_Code" (i + 2);
    s308rg ← df_atn sfwmm (i + 2) "S308RG";
    stest ← df_atn sfwmm (i + 2) "STEST";
    opt ← getkey config "opt_s308";
    const ← getkey config "s308_rg_const";
    wr "Outlet2USRG" (i + 2) (lo_functions "Outlet2USRG" [code; s308rg; stest; opt; const])
  else
    parametric_release i 7200 (global (g_tp_lake_s G)) (global (g_p1 G)) (global (g_p2 G))
      (global (g_s308_dv G)) date_range_6
    ≫= wr "Outlet2USRG" (i + 2).

Definition _calculate_outlet2ds (i : nat) (lo_functions : pyobj) (data : gmap string DataFrame)
    (config : gmap string val) : M unit :=
  east ← rd "ROeast" (i + 2);
  rg ← rd "Outlet2USRG" (i + 2);
  sfwmm ← data_attr data "SFWMM_Daily_Outputs";
  s80 ← df_atn sfwmm (i + 2) "S80";
  const ← getkey config "s80_const";
  wr "Outlet2DS" (i + 2) (lo_functions "S80" [east; rg; s80; const]).

Definition _calculate_outlet1us_mult (i : nat) (lo_functions : pyobj) (seasons : DataFrame)
    (config : gmap string val) : M unit :=
  season ← df_atn seasons i "Season";
  month ← df_atn seasons i "Month";
  dh ← rd "dh_7days" (i + 1);
  c1 ← rd "ReLevelCode_1" (i + 2);
  frac ← rd "Fraction_of_Zone_height" (i + 1);
  c2 ← rd "ReLevelCode_2" (i + 2);
  c3 ← rd "ReLevelCode_3_S77" (i + 2);
  opt ← getkey config "opt_qreg_mult";
  wr "Outlet1US_Mult" (i + 2)
     (lo_functions "Outlet1US_Mult" [season; month; dh; c1; frac; c2; c3; opt]).

Definition _calculate_outlet1us_mult_2 (i : nat) (lo_functions : pyobj)
    (config : gmap string val) : M unit :=
  '(_, m, d) ← lo_at (i + 2) "date" ≫= as_date;
  pls ← rd "PlsDay" (i + 2);
  p ← rdZ "PlsDay" (i + 2);
  back ← rdz "Outlet1US_Mult" (Z.of_nat i + 2 - p);
  cur ← rd "Outlet1US_Mult" (i + 2);
  opt ← getkey config "opt_qreg_mult";
  wr "Outlet1US_Mult_2" (i + 2)
     (lo_functions "Outlet1US_Mult_2" [VInt m; VInt d; pls; back; cur; opt]).

Definition _calculate_outlet1usrs (i : nat) (lo_functions : pyobj)
    (data : gmap string DataFrame) (config : gmap string val)
    (s77avg_l1 s77avg_l2 s77avg_l3 : val) (format : val → string) : M unit :=
  rl ← rd "Release_Level" (i + 2);
  rates ← data_attr data "S77_RegRelRates";
  zd1 ← df_atn rates 0 "Zone_D1";
  p1 ← pulse_at i data config format "S-77_L1_";
  mult ← rd "Outlet1US_Mult_2" (i + 2);
  ro ← lo_at (i + 2) "C43RO";
  turn ← turn_at i data config "CEturn";
  zd2 ← df_atn rates 0 "Zone_D2";
  p2 ← pulse_at i data config format "S-77_L2_";
  zcode ← rd "Zone_Code" (i + 1);
  zd3 ← df_atn rates 0 "Zone_D3";
  p3 ← pulse_at i data config format "S-77_L3_";
  zc ← df_atn rates 0 "Zone_C";
  zb ← df_atn rates 0 "Zone_B";
  za ← df_atn rates 0 "Zone_A";
  opt ← getkey config "opt_outlet1_dsrg";
  wr "Outlet1USRS" (i + 2)
     (lo_functions "Outlet1USRS"
        [rl; zd1; s77avg_l1; p1; mult; ro; turn; zd2; s77avg_l2; p2; zcode;
         zd3; s77avg_l3; p3; zc; zb; za; opt]).

Definition _calculate_sum_outlet1usrs (i : nat) (lo_functions : pyobj) : M unit :=
  '(_, _, day) ← lo_at (i + 2) "date" ≫= as_date;
  rs ← rd "Outlet1USRS" (i + 2);
  wr "Sum_Outlet1USRS" (i + 2) (lo_functions "Sum_Outlet1USRS" [VInt day; rs]).

Definition _calculate_outlet1usbk (i : nat) (lo_functions : pyobj)
    (data : gmap string DataFrame) (config : gmap string val) : M unit :=
  stage ← rd "Lake_Stage" (i + 1);
  rs ← rd "Outlet1USRS" (i + 2);
  bsap ← rd "Outlet1USBSAP" (i + 1);
  ews ← rd "Outlet1USEWS" (i + 1);
  ro ← lo_at (i + 2) "C43RO";
  sfwmm ← data_attr data "SFWMM_Daily_Outputs";
  bk ← df_atn sfwmm (i + 2) "S77BK";
  sw ← getkey config "outlet1_usbk_switch";
  thr ← getkey config "outlet1_usbk_threshold";
  wr "Outlet1USBK" (i + 2) (lo_functions "Outlet1USBK" [stage; rs; bsap; ews; ro; bk; sw; thr]).

Definition _calculate_rowest (i : nat) : M unit :=
  ro ← lo_at (i + 2) "C43RO" ≫= as_float;
  bk ← rdF "Outlet1USBK" (i + 2);
  wr "ROwest" (i + 2) (VFloat (ro - bk)%float).

Definition _calculate_outlet1dsbs (i : nat) (lo_functions : pyobj) (vlookup2_c : list val)
    (outlet1_baseflow : val) (config : gmap string val) : M unit :=
  rl ← rd "Release_Level" (i + 2);
  sum ← rd "Sum_Outlet1USRS" (i + 2);
  v ← list_at IndexError vlookup2_c i;
  opt ← getkey config "option_s77_baseflow";
  wr "Outlet1DSBS" (i + 2) (lo_functions "Outlet1DSBS" [rl; sum; v; outlet1_baseflow; opt]).

Definition _calculate_outlet1usbs (i : nat) (lo_functions : pyobj) (config : gmap string val)
    : M unit :=
  bs ← rd "Outlet1DSBS" (i + 2);
  rs ← rd "Outlet1USRS" (i + 2);
  west ← rd "ROwest" (i + 2);
  opt ← getkey config "option_s77_baseflow";
  wr "Outlet1USBS" (i + 2) (lo_functions "Outlet1USBS" [bs; rs; west; opt]).

Definition _calculate_outlet1usbsap (i : nat) (lo_functions : pyobj) (config : gmap string val)
    : M unit :=
  bs ← rd "Outlet1USBS" (i + 2);
  pab ← rd "Post_Ap_Baseflow" i;
  opt ← getkey config "opt_adap_prot";
  wr "Outlet1USBSAP" (i + 2) (lo_functions "Outlet1USBSAP" [bs; pab; opt]).

Definition _calculate_outlet1usews (i : nat) (lo_functions : pyobj)
    (data : gmap string DataFrame) (config : gmap string val) : M unit :=
  ews ← rd "Post_AP_EWS" i;
  sfwmm ← data_attr data "SFWMM_Daily_Outputs";
  caest ← df_atn sfwmm (i + 2) "CAEST";
  sw ← getkey config "outlet1_usews_switch";
  opt ← getkey config "opt_adap_prot";
  wr "Outlet1USEWS" (i + 2) (lo_functions "Outlet1USEWS" [ews; caest; sw; opt]).

(** The adaptive protocol of day [i], run only when [i < n_rows - 2]; its two
    results are then stored again in their cells. *)
Definition _define_thc_class_normal_or_above (i n_rows : nat) (config : gmap string val)
    (format : val → string) (adaptive_protocol_df df_WSMs targ_stg_df : DataFrame)
    (data : gmap string DataFrame) (choose_1 : val) : M unit :=
  if decide (i < n_rows - 2)%nat then
    Estuary_needs_water ← data_attr data "Estuary_needs_water";
    '(ews, baseflow) ←
      THC_Class config format i
        "THC_Class_normal_or_above" "Lake_O_Stage_AP" "Lake_O_Schedule_Zone" "LStgCorres"
        "LowChance_Check" "Outlet1USRS_AP" "Outlet1USBS_AP" "Outlet1USRS_Pre_AP_S77_Baseflow"
        "Forecast_D_Sal" "n30d_mavg" "n30davgForecast" "LORS08_bf_rel" "LDS_LC6_1" "S_O"
        "All_4" "Sabf" "Swbf" "Swbu" "All_4andStage" "All_4andStagein" "P_AP_BF_Stg"
        "Logic_test_1" "Post_Ap_Baseflow" "Outlet1USRSplusPreAPS77bsf" "AndEstNeedsLakeWater"
        "AndLowChance61stagelessth11" "ATHCnora" "Choose_PAPEWS_1" "Choose_PAPEWS_2"
        "Post_AP_EWS" "Post_AP_Baseflow_EWS_cfs"
        adaptive_protocol_df "Lake_Stage" "Zone_Code" df_WSMs targ_stg_df
        "Outlet1USRS" "Outlet1USBS" Estuary_needs_water choose_1 "WSM_Zone";
    wr "Post_Ap_Baseflow" i (VFloat baseflow);;
    wr "Post_AP_EWS" i (VFloat ews)
  else mret tt.

Definition _calculate_outlet1usreg (i : nat) (G : globals) (lo_functions : pyobj)
    (data : gmap string DataFrame) (config : gmap string val)
    (tp_lake_s s77_dv : list val) (date_range_6 : list val) : M unit :=
  sim_type ← getkey config "sim_type";
  if eq_num sim_type 0 then
    rs ← rd "Outlet1USRS" (i + 2);
    bsap ← rd "Outlet1USBSAP" (i + 2);
    sfwmm ← data_attr data "SFWMM_Daily_Outputs";
    s77rg ← df_atn sfwmm (i + 2) "S77RG";
    sw ← getkey config "outlet1_usreg_switch";
    opt ← getkey config "option_reg_s77_s308";
    wr "Outlet1USREG" (i + 2) (lo_functions "Outlet1USREG" [rs; bsap; s77rg; sw; opt])
  else
    parametric_release i 7800 (mret tp_lake_s) (global (g_p1 G)) (global (g_p2 G))
      (mret s77_dv) date_range_6
    ≫= wr "Outlet1USREG" (i + 2).

Definition _calculate_outlet1ds (i : nat) (lo_functions : pyobj) (data : gmap string DataFrame)
    (config : gmap string val) : M unit :=
  reg ← rd "Outlet1USREG" (i + 2);
  ews ← rd "Outlet1USEWS" (i + 2);
  west ← rd "ROwest" (i + 2);
  sfwmm ← data_attr data "SFWMM_Daily_Outputs";
  s79 ← df_atn sfwmm (i + 2) "S79";
  sw ← getkey config "outlet1_ds_switch";
  wr "Outlet1DS" (i + 2) (lo_functions "Outlet1DS" [reg; ews; west; s79; sw]).

Definition _calculate_tot_reg_ew (i : nat) : M unit :=
  reg ← rdF "Outlet1USREG" (i + 2);
  rg ← rdF "Outlet2USRG" (i + 2);
  wr "TotRegEW" (i + 2) (VFloat ((reg + rg) * 1.9835)%float).

Definition _calculate_choose_wca (i : nat) (lo_functions : pyobj) (data : gmap string DataFrame)
    (config : gmap string val) : M unit :=
  sfwmm ← data_attr data "SFWMM_Daily_Outputs";
  reg ← df_atn sfwmm (i + 2) "RegWCA";
  opt ← getkey config "option_reg_wca";
  const ← getkey config "constant_reg_wca";
  wr "Choose_WCA" (i + 2) (lo_functions "Choose_WCA" [reg; opt; const]);;
  cap ← getkey config "max_cap_reg_wca";
  mult ← getkey config "multiplier_reg_wca";
  ch ← rd "Choose_WCA" (i + 2);
  prod ← lift (py_mul mult ch);
  reg ← lift (py_min_obj cap prod);
  wr "RegWCA" (i + 2) reg.

Definition _calculate_choose_l8c51 (i : nat) (lo_functions : pyobj)
    (data : gmap string DataFrame) (config : gmap string val) : M unit :=
  sfwmm ← data_attr data "SFWMM_Daily_Outputs";
  reg ← df_atn sfwmm (i + 2) "RegL8C51";
  opt ← getkey config "option_reg_l8_c51";
  const ← getkey config "constant_reg_l8_c51";
  wr "Choose_L8C51" (i + 2) (lo_functions "Choose_L8C51" [reg; opt; const]);;
  cap ← getkey config "max_cap_reg_l8_c51";
  mult ← getkey config "multiplier_reg_l8_c51";
  ch ← rd "Choose_L8C51" (i + 2);
  prod ← lift (py_mul mult ch);
  reg ← lift (py_min_obj cap prod);
  wr "RegL8C51" (i + 2) reg.

Definition _calculate_tot_reg_so (i : nat) : M unit :=
  wca ← rdF "RegWCA" (i + 2);
  l8 ← rdF "RegL8C51" (i + 2);
  wr "TotRegSo" (i + 2) (VFloat ((wca + l8) * 1.9835)%float).

Definition _calculate_stage2ar_and_stage2marsh (i : nat) (stg_sto_ar : pyobj) : M unit :=
  stage ← rd "Lake_Stage" (i + 1);
  wr "Stage2ar" (i + 2) (stg_sto_ar "stg2ar" [stage; VInt 0]);;
  stage ← rd "Lake_Stage" (i + 1);
  wr "Stage2marsh" (i + 2) (stg_sto_ar "stg2mar" [stage; VInt 0]).

Definition _calculate_rf_and_et (i : nat) (lo_functions : pyobj) (data : gmap string DataFrame)
    (config : gmap string val) : M unit :=
  rf_vol ← data_attr data "RF_Vol";
  (df_atn rf_vol (i + 2) "RFVol_acft" ≫= wr "RF" (i + 2));;
  sfwmm ← data_attr data "SFWMM_Daily_Outputs";
  et_dry ← df_atn sfwmm (i + 2) "et_dry";
  ar ← rd "Stage2ar" (i + 2);
  et_lit ← df_atn sfwmm (i + 2) "et_litoral";
  marsh ← rd "Stage2marsh" (i + 2);
  et_open ← df_atn sfwmm (i + 2) "et_open";
  et_vol ← data_attr data "ET_Vol";
  vol ← df_atn et_vol (i + 2) "ETVol_acft";
  sw ← getkey config "et_switch";
  wr "ET" (i + 2) (lo_functions "ET" [et_dry; ar; et_lit; marsh; et_open; vol; sw]).

Definition _calculate_wsa (i : nat) (lo_functions : pyobj)
    (df_WSMs wca_stages_df tc_lonino_df : DataFrame) (data : gmap string DataFrame)
    (config : gmap string val) : M unit :=
  w1 ← df_atn df_WSMs (i + 2) "WSM1";
  opt ← getkey config "opt_wsa";
  trig2 ← getkey config "wsa_trig2";
  off2 ← getkey config "wsa_off2";
  wr "Choose_WSA_1" (i + 2) (lo_functions "Choose_WSA_1" [w1; opt; trig2; off2]);;
  w1 ← df_atn df_WSMs (i + 2) "WSM1";
  opt ← getkey config "opt_wsa";
  trig1 ← getkey config "wsa_trig1";
  off1 ← getkey config "wsa_off1";
  wr "Choose_WSA_2" (i + 2) (lo_functions "Choose_WSA_2" [w1; opt; trig1; off1]);;
  runoff ← data_attr data "EAA_MIA_RUNOFF";
  low ← df_atn wca_stages_df i "Are WCA stages too low?";
  seas ← df_atn tc_lonino_df i "LONINO_Seasonal_Classes";
  stage ← rd "Lake_Stage" (i + 1);
  ch1 ← rd "Choose_WSA_1" (i + 2);
  mia ← df_atn runoff i "MIA";
  s3 ← df_atn runoff i "S3PMP";
  ch2 ← rd "Choose_WSA_2" (i + 2);
  opt ← getkey config "opt_wsa";
  thc ← getkey config "wsa_thc";
  cap2 ← getkey config "mia_cap2";
  cap1 ← getkey config "mia_cap1";
  wr "WSA_MIA" (i + 2)
     (lo_functions "WSA_MIA" [low; seas; stage; ch1; mia; s3; ch2; opt; thc; cap2; cap1]);;
  low ← df_atn wca_stages_df i "Are WCA stages too low?";
  seas ← df_atn tc_lonino_df i "LONINO_Seasonal_Classes";
  stage ← rd "Lake_Stage" (i + 1);
  ch1 ← rd "Choose_WSA_1" (i + 2);
  nnr ← df_atn runoff i "NNR";
  s2 ← df_atn runoff i "S2PMP";
  ch2 ← rd "Choose_WSA_2" (i + 2);
  opt ← getkey config "opt_wsa";
  thc ← getkey config "wsa_thc";
  cap2 ← getkey config "nnr_cap2";
  cap1 ← getkey config "nnr_cap1";
  wr "WSA_NNR" (i + 2)
     (lo_functions "WSA_NNR" [low; seas; stage; ch1; nnr; s2; ch2; opt; thc; cap2; cap1]).

Definition _calculate_dsto_and_storage (i : nat) (lo_functions : pyobj)
    (storage_deviation : list val) (start_storage : val) : M unit :=
  ni ← rd "NI_Supply" (i + 2);
  rf ← rd "RF" (i + 2);
  t1 ← lift (py_add ni rf);
  et ← rd "ET" (i + 2);
  t2 ← lift (py_sub t1 et);
  o2bk ← rd "Outlet2USBK" (i + 2);
  o1bk ← rd "Outlet1USBK" (i + 2);
  u1 ← lift (py_add o2bk o1bk);
  mia ← rd "WSA_MIA" (i + 2);
  u2 ← lift (py_add u1 mia);
  nnr ← rd "WSA_NNR" (i + 2);
  u3 ← lift (py_add u2 nnr);
  ews ← rd "Outlet1USEWS" (i + 2);
  u4 ← lift (py_sub u3 ews);
  t3 ← lift (py_mul (VFloat 1.9835) u4);
  t4 ← lift (py_add t2 t3);
  ew ← rd "TotRegEW" (i + 2);
  t5 ← lift (py_sub t4 ew);
  so ← rd "TotRegSo" (i + 2);
  t6 ← lift (py_sub t5 so);
  dev ← list_at KeyError storage_deviation (i + 2);
  dsto ← lift (py_add t6 dev);
  wr "DSto" (i + 2) dsto;;
  flag ← rd "DayFlags" (i + 2);
  sto ← rd "Storage" i;
  prev ← rd "Storage" (i + 1);
  dsto ← rd "DSto" (i + 2);
  wr "Storage" (i + 2) (lo_functions "Storage" [flag; sto; start_storage; prev; dsto]).

Definition _calculate_lake_stage (i : nat) (lo_functions stg_sto_ar : pyobj)
    (data : gmap string DataFrame) (config : gmap string val) : M unit :=
  sto ← rd "Storage" (i + 2);
  sfwmm ← data_attr data "SFWMM_Daily_Outputs";
  eod ← df_atn sfwmm (i + 2) "EOD Stg(ft,NGVD)";
  opt ← getkey config "option_stage";
  wr "Lake_Stage" (i + 2)
     (lo_functions "Lake_Stage" [stg_sto_ar "stg2sto" [sto; VInt 1]; eod; opt]).

(** [lo_model[c] = model_variables.x]: the array becomes column [c]; pandas
    refuses an array whose length is not that of the index. This is the
    assignment to a table with rows; a table without rows would take the
    length of the array. *)
Definition set_column (c x : string) : M unit :=
  s ← get_state;
  a ← lift_opt AttributeError (mvars s !! x);
  if decide (length a = df_len (lo_model s)) then
    put_lo_model (mkDataFrame (df_len (lo_model s)) (<[c := a]> (df_cols (lo_model s))))
  else raise ValueError.

Definition _update_lo_model : M unit :=
  set_column "Cutback" "Cut_back";;
  set_column "Stage" "Lake_Stage";;
  set_column "Storage" "Storage";;
  set_column "S77_Q" "Outlet1USREG";;
  set_column "S308_Q" "Outlet2USRG";;
  set_column "S77EW" "Outlet1USEWS";;
  set_column "TotRegEW" "TotRegEW";;
  set_column "TotRegSo" "TotRegSo".

Definition _set_starting_storage (start_storage : val) : M unit :=
  wr "Storage" 0 start_storage;;
  wr "Storage" 1 start_storage.

Definition _determine_day_flags (startdate begdateCS : Z * Z * Z) : M val :=
  let '(sy, sm, sd) := startdate in
  let '(by_, bm, bd) := begdateCS in
  s ← get_state;
  '(y, m, d) ← df_iloc (lo_model s) "date" 2 ≫= as_date;
  if (sm =? m) && (sd =? d) then mret (VStr "SimDay1")
  else if (by_ =? y) && (bm =? m) && (bd =? d) then mret (VStr "CS start date")
  else mret (VDate y m d).

Definition _initialize_model_variables_stage_levels_flags (config : gmap string val)
    (startdate begdateCS : Z * Z * Z) : M unit :=
  (getkey config "beg_stage_cs" ≫= wr "Lake_Stage" 0);;
  (getkey config "beg_stage_cs" ≫= wr "Lake_Stage" 1);;
  wr "DecTree_Relslevel" 0 (VFloat nan);;
  wr "DecTree_Relslevel" 1 (VFloat nan);;
  (_determine_day_flags startdate begdateCS ≫= wr "DayFlags" 2).

(** ** model_variables.py: the arrays of a run

    Dates are day numbers. [pd.date_range(start, end, freq="D")] has
    [end - start + 1] days (none if that is negative); the numbers of weeks
    and of months in the horizon are inputs. *)

Definition date_range_len (start end_ : Z) : nat := Z.to_nat (end_ - start + 1).

(** [np.zeros(n)] and [np.zeros(n, dtype=object)] *)
Definition zeros (n : nat) : list val := replicate n (VFloat 0).
Definition zeros_object (n : nat) : list val := replicate n (VInt 0).

Definition weekly_arrays : list string :=
  ["RF_Cls"; "MainTrib_Cls"; "Palmer_Cls"; "NetInflow_Cls"; "Max_RF_MainTrib";
   "Max_Palmer_NetInf"].
Definition monthly_arrays : list string := ["Seas"; "M_Seas"].
Definition lonino_arrays : list string := ["LONINO_Seas_cls"; "LONINO_M_Seas_cls"].
Definition season_arrays : list string := ["Daily_Seasons"; "Mon"].
Definition percentile_arrays : list string :=
  ["V10per"; "V20per"; "V25per"; "V30per"; "V40per"; "V45per"; "V50per"; "V60per"].

(** The arrays of [n_rows] cells of dtype object. *)
Definition row_arrays : list string :=
  ["Lake_Stage"; "WSM_Zone"; "Max_Supply"; "LOSA_Supply"; "Cut_back"; "Dem_N_Sup";
   "NI_Supply"; "Zone_Code"; "LO_Zone";
   "DecTree_Relslevel"; "DayFlags"; "PlsDay"; "Release_Level"; "dh_7days";
   "ZoneCodeminus1Code"; "ZoneCodeCode"; "Fraction_of_Zone_height"; "ReLevelCode_1";
   "ReLevelCode_2"; "ReLevelCode_3_S80"; "Outlet2DS_Mult"; "Outlet2DS_Mult_2";
   "Outlet2DSRS"; "Outlet2USRG1"; "Sum_Outlet2USRG1"; "Outlet2DSBS"; "Outlet2USBK";
   "ROeast"; "Outlet2USBS"; "Sum_Outlet2USBK"; "Outlet2USRG_Code"; "Outlet2USRG";
   "Outlet2DS"; "ReLevelCode_3_S77"; "Outlet1US_Mult"; "Outlet1US_Mult_2";
   "Outlet1USBSAP"; "Outlet1USRS"; "Sum_Outlet1USRS"; "Outlet1USBK"; "ROwest";
   "Outlet1DSBS"; "Outlet1USBS"; "Outlet1USEWS"; "Outlet1USREG"; "Outlet1DS";
   "TotRegEW"; "Choose_WCA"; "RegWCA"; "Choose_L8C51"; "RegL8C51"; "TotRegSo";
   "Stage2ar"; "Stage2marsh"; "RF"; "ET"; "Choose_WSA_1"; "Choose_WSA_2"; "WSA_MIA";
   "WSA_NNR"; "DSto"; "Storage"].

(** The float64 arrays of the decision tree, one cell per simulated day. *)
Definition tree_arrays : list string :=
  ["Zone_D_Trib"; "Zone_D_stage"; "Zone_D_Seas"; "Zone_D_MSeas"; "Zone_D_Branch_Code";
   "Zone_D_Rel_Code"; "Zone_C_Trib"; "Zone_C_Seas"; "Zone_C_MSeas"; "Zone_C_MetFcast";
   "Zone_C_Branch_Code"; "Zone_C_Rel_Code"; "Zone_B_Trib"; "Zone_B_Stage"; "Zone_B_Seas";
   "Zone_B_Branch_Code"; "Zone_B_Rel_Code"].

(** The float64 arrays of the adaptive protocol, one cell per simulated day. *)
Definition AP_arrays : list string :=
  ["THC_Class_normal_or_above"; "Lake_O_Stage_AP"; "Lake_O_Schedule_Zone"; "LStgCorres";
   "LowChance_Check"; "Outlet1USRS_AP"; "Outlet1USBS_AP"; "Outlet1USRS_Pre_AP_S77_Baseflow";
   "Forecast_D_Sal"; "n30d_mavg"; "n30davgForecast"; "LORS08_bf_rel"; "LDS_LC6_1"; "S_O";
   "All_4"; "Sabf"; "Swbf"; "Swbu"; "All_4andStage"; "All_4andStagein"; "P_AP_BF_Stg";
   "Logic_test_1"; "Post_Ap_Baseflow"; "Outlet1USRSplusPreAPS77bsf"; "AndEstNeedsLakeWater";
   "Choose_PAPEWS_1"; "Choose_PAPEWS_2"; "AndLowChance61stagelessth11"; "ATHCnora";
   "Post_AP_EWS"; "Post_AP_Baseflow_EWS_cfs"].

Definition alloc (names : list string) (a : list val) : list (string * list val) :=
  (λ x, (x, a)) <$> names.

(** [M_var.__init__]: every array, filled with zeros. [start_date_entry],
    [end_date_entry] are the dates of the configuration, [today] the current
    date (used by a forecast run). *)
Definition M_var (forecast : bool) (today start_date_entry end_date_entry : Z)
    (TC_Count LONINO_Count month_n : nat) : gmap string (list val) :=
  let startdate := if forecast then today else start_date_entry in
  let enddate := if forecast then today + 15 else end_date_entry in
  let Seas_Count := date_range_len startdate enddate in
  let n_rows := date_range_len (startdate - 1) enddate in
  let V := Seas_Count in
  let Counter := Seas_Count in
  let Count_AP := Seas_Count in
  list_to_map
    (alloc weekly_arrays (zeros TC_Count)
     ++ alloc monthly_arrays (zeros LONINO_Count)
     ++ alloc lonino_arrays (zeros month_n)
     ++ alloc season_arrays (zeros Seas_Count)
     ++ alloc row_arrays (zeros_object n_rows)
     ++ alloc percentile_arrays (zeros V)
     ++ alloc tree_arrays (zeros Counter)
     ++ alloc AP_arrays (zeros Count_AP)).

(** ** LOONE_Q: the daily loop

    What LOONE_Q prepares before the loop (the configuration, the input
    tables, the helper modules) is gathered in an environment. *)
Record env : Type := mkEnv {
  config : gmap string val;
  data : gmap string DataFrame;
  df_WSMs : DataFrame;
  water_demand : DataFrame;
  tc_lonino_df : DataFrame;
  wca_stages_df : DataFrame;
  seasons : DataFrame;
  dec_tree_df : DataFrame;
  adaptive_protocol_df : DataFrame;
  targ_stg_df : DataFrame;
  vlookup1_c : list val;
  vlookup2_c : list val;
  storage_deviation : list val;
  date_range_6 : list val;
  startdate : Z * Z * Z;
  begdateCS : Z * Z * Z;
  outlet2_baseflow : val;
  s80avg_l1 : val; s80avg_l2 : val; s80avg_l3 : val;
  s77avg_l1 : val; s77avg_l2 : val; s77avg_l3 : val;
  (* the arguments of LOONE_Q that the loop passes on *)
  tp_lake_s : list val;
  s77_dv : list val;
  (* the helper modules *)
  lo_functions : pyobj;
  dec_tree_functions : pyobj;
  stg_sto_ar : pyobj;
  (* Python's [str] *)
  format : val → string;
  (* the names the module may or may not bind *)
  module_globals : globals
}.

(** The body of [for i in range(n_rows - 2)]. *)
Definition day (E : env) (n_rows : nat) (i : nat) : M unit :=
  let outlet1_baseflow := VInt 450 in
  let choose_1 := VInt 450 in
  _calculate_wsm_zone i (lo_functions E) (df_WSMs E);;
  _calculate_max_supply i (lo_functions E) (water_demand E) (config E);;
  _calculate_losa_supply i (lo_functions E) (config E);;
  _calculate_ni_supply i;;
  _calculate_cutback i;;
  _calculate_demand_not_supplied i;;
  _calculate_zone_code i (lo_functions E) (df_WSMs E);;
  _generate_zone_column i (lo_functions E);;
  _calculate_decision_tree_variables i (dec_tree_functions E) (tc_lonino_df E) (config E)
    (seasons E) (dec_tree_df E) (df_WSMs E);;
  _calculate_release_levels i (startdate E) (lo_functions E) (config E) (tc_lonino_df E);;
  _calculate_zone_codes i (lo_functions E) (df_WSMs E);;
  _calculate_release_level_codes i (lo_functions E) (config E);;
  _calculate_outlet2ds_mult i (lo_functions E) (seasons E) (config E);;
  _calculate_outlet2dsrs i (lo_functions E) (data E) (s80avg_l1 E) (s80avg_l2 E) (s80avg_l3 E)
    (config E) (format E);;
  _calculate_outlet2dsbs i (lo_functions E) (vlookup1_c E) (outlet2_baseflow E) (config E);;
  _calculate_outlet2usbk i (lo_functions E) (df_WSMs E) (data E) (config E);;
  _calculate_outlet2usrg_code i (module_globals E) (lo_functions E) (data E) (config E)
    (date_range_6 E);;
  _calculate_outlet2ds i (lo_functions E) (data E) (config E);;
  _calculate_relevel_code_3_s77 i (lo_functions E) (config E);;
  _calculate_outlet1us_mult i (lo_functions E) (seasons E) (config E);;
  _calculate_outlet1us_mult_2 i (lo_functions E) (config E);;
  _calculate_outlet1usrs i (lo_functions E) (data E) (config E) (s77avg_l1 E) (s77avg_l2 E)
    (s77avg_l3 E) (format E);;
  _calculate_sum_outlet1usrs i (lo_functions E);;
  _calculate_outlet1usbk i (lo_functions E) (data E) (config E);;
  _calculate_rowest i;;
  _calculate_outlet1dsbs i (lo_functions E) (vlookup2_c E) outlet1_baseflow (config E);;
  _calculate_outlet1usbs i (lo_functions E) (config E);;
  _define_thc_class_normal_or_above i n_rows (config E) (format E) (adaptive_protocol_df E)
    (df_WSMs E) (targ_stg_df E) (data E) choose_1;;
  _calculate_outlet1usbsap i (lo_functions E) (config E);;
  _calculate_outlet1usews i (lo_functions E) (data E) (config E);;
  _calculate_outlet1usreg i (module_globals E) (lo_functions E) (data E) (config E)
    (tp_lake_s E) (s77_dv E) (date_range_6 E);;
  _calculate_outlet1ds i (lo_functions E) (data E) (config E);;
  _calculate_tot_reg_ew i;;
  _calculate_choose_wca i (lo_functions E) (data E) (config E);;
  _calculate_choose_l8c51 i (lo_functions E) (data E) (config E);;
  _calculate_tot_reg_so i;;
  _calculate_stage2ar_and_stage2marsh i (stg_sto_ar E);;
  _calculate_rf_and_et i (lo_functions E) (data E) (config E);;
  _calculate_wsa i (lo_functions E) (df_WSMs E) (wca_stages_df E) (tc_lonino_df E) (data E)
    (config E);;
  (global (g_start_storage (module_globals E)) ≫=
     _calculate_dsto_and_storage i (lo_functions E) (storage_deviation E));;
  _calculate_lake_stage i (lo_functions E) (stg_sto_ar E) (data E) (config E);;
  _update_lo_model.

(** LOONE_Q from the initialisation of stage, release level and day flag to
    the end of the loop; [n_rows = len(lo_model.index)]. *)
Definition LOONE_Q (E : env) : M unit :=
  s ← get_state;
  let n_rows := df_len (lo_model s) in
  _initialize_model_variables_stage_levels_flags (config E) (startdate E) (begdateCS E);;
  _calculate_initial_zone_code_and_lo_zone (lo_functions E) (df_WSMs E);;
  for_range (n_rows - 2) (day E n_rows).

(** ** The day offset of every array that the loop writes

    Iteration [i] writes array [x] at index [i + lag x] only: the arrays of
    the decision tree and of the adaptive protocol and [DayFlags] at [i],
    the zone arrays and the seven-day stage change at [i + 1], the other
    arrays of the water balance at [i + 2]. *)
Definition lag_1_arrays : list string :=
  ["Zone_Code"; "LO_Zone"; "dh_7days"; "ZoneCodeminus1Code"; "ZoneCodeCode";
   "Fraction_of_Zone_height"].

Definition lag (x : string) : option nat :=
  if bool_decide (x ∈ "DayFlags" :: tree_arrays ++ AP_arrays) then Some 0%nat
  else if bool_decide (x ∈ lag_1_arrays) then Some 1%nat
  else if bool_decide (x ∈ row_arrays) then Some 2%nat
  else None.

(** The cells of day [i]: cell [i + lag x] of every array [x] with a lag. *)
Definition day_cells (i : nat) (x : string) (k : nat) : Prop :=
  ∃ d, lag x = Some d ∧ k = (i + d)%nat.

(** [m] writes no cell of the model variables outside [W]. *)
Definition writes_within {A} (W : string → nat → Prop) (m : M A) : Prop :=
  ∀ s x k, ¬ W x k → cell (m s).1 x k = cell s x k.

(** [m] leaves the model variables alone: a read, a conversion, a table
    lookup, or the update of [lo_model]. *)
Definition keeps_mvars {A} (m : M A) : Prop := ∀ s, mvars (m s).1 = mvars s.

(** The value of a numeric cell. *)
Definition num_cell (s : state) (x : string) (k : nat) : option float :=
  cell s x k ≫= num_of.

(** ** Specifications of actions

    [wp m s Q]: from [s] the action returns normally, in a state and with a
    value that satisfy [Q]. [wlp m s Q]: if it returns normally, then so. *)
Definition wp {A} (m : M A) (s : state) (Q : A → state → Prop) : Prop :=
  ∃ s' a, m s = (s', Ok a) ∧ Q a s'.
Definition wlp {A} (m : M A) (s : state) (Q : A → state → Prop) : Prop :=
  ∀ s' a, m s = (s', Ok a) → Q a s'.

(** The cell [df.at[r, c]] of a table, when the label and the column exist. *)
Definition df_cell (df : DataFrame) (r : Z) (c : string) : option val :=
  if (0 <=? r) && (r <? Z.of_nat (df_len df)) then
    df_cols df !! c ≫= λ col, col !! Z.to_nat r
  else None.

(** ** The zone classifier *)

(** Modelled from the spec: [lo_functions.Zone_Code] is not part of the
    sources at hand (only its calls in LOONE_Q.py are). The specification
    describes it as a threshold ladder over the stage that returns an ordinal
    zone code, a stage equal to a threshold falling into the zone below it.
    The arguments are those of the calls: the stage, then the thresholds from
    the highest ([A]) to the lowest ([WSM1]); the zones are numbered from 1
    (below [WSM1]) to 9 (above [A]). *)
Definition Zone_Code (Stage_LO A B C D3 D2 D1 D0 WSM1 : float) : Z :=
  if (A <? Stage_LO)%float then 9
  else if (B <? Stage_LO)%float then 8
  else if (C <? Stage_LO)%float then 7
  else if (D3 <? Stage_LO)%float then 6
  else if (D2 <? Stage_LO)%float then 5
  else if (D1 <? Stage_LO)%float then 4
  else if (D0 <? Stage_LO)%float then 3
  else if (WSM1 <? Stage_LO)%float then 2
  else 1.

(** A ladder of thresholds listed from the highest down: every threshold is
    strictly above all those after it. *)
Fixpoint descending (ths : list float) : Prop :=
  match ths with
  | [] => True
  | hi :: rest => Forall (λ lo, (lo <? hi)%float = true) rest ∧ descending rest
  end.

(** The arrays that LOONE_Q initialises before the loop (rows 0, 1 or 2). *)
Definition init_arrays : list string :=
  ["Lake_Stage"; "DecTree_Relslevel"; "DayFlags"; "Zone_Code"; "LO_Zone"].

(** The cells that LOONE_Q initialises before the loop. *)
Definition init_cells : list (string * nat) :=
  [("Lake_Stage", 0%nat); ("Lake_Stage", 1%nat); ("DecTree_Relslevel", 0%nat);
   ("DecTree_Relslevel", 1%nat); ("DayFlags", 2%nat); ("Zone_Code", 0%nat);
   ("LO_Zone", 0%nat)].

(** The columns of [lo_model] that [_update_lo_model] sets, each with the
    array it is set to. *)
Definition output_columns : list (string * string) :=
  [("Cutback", "Cut_back"); ("Stage", "Lake_Stage"); ("Storage", "Storage");
   ("S77_Q", "Outlet1USREG"); ("S308_Q", "Outlet2USRG"); ("S77EW", "Outlet1USEWS");
   ("TotRegEW", "TotRegEW"); ("TotRegSo", "TotRegSo")].

(** [m] leaves the table [lo_model] alone. *)
Definition keeps_lo_model {A} (m : M A) : Prop := ∀ s, lo_model (m s).1 = lo_model s.

(** [m] keeps the length of [lo_model] and its columns outside [C]. *)
Definition sets_columns {A} (C : string → Prop) (m : M A) : Prop :=
  ∀ s, df_len (lo_model (m s).1) = df_len (lo_model s)
       ∧ ∀ c, ¬ C c → df_cols (lo_model (m s).1) !! c = df_cols (lo_model s) !! c.

(** ** LOONE_Q.py: the dates and the tables prepared before the loop

    A date is a triple (year, month, day). A function that changes its table
    argument in place returns the changed table. *)

(** *** The calendar of Python's [calendar] and [datetime] *)

Definition isleap (year : Z) : bool :=
  (year mod 4 =? 0) && (negb (year mod 100 =? 0) || (year mod 400 =? 0)).

(** [calendar.monthrange(year, month)[1]], the number of days of the month;
    the call raises for a month outside 1..12. *)
Definition monthrange_days (year month : Z) : option Z :=
  if (1 <=? month) && (month <=? 12) then
    Some (nth (Z.to_nat (month - 1)) [31; 28; 31; 30; 31; 30; 31; 31; 30; 31; 30; 31] 0
          + (if (month =? 2) && isleap year then 1 else 0))
  else None.

(** [datetime(year, month, day)]: a ValueError outside the calendar. *)
Definition datetime (year month day : Z) : M (Z * Z * Z) :=
  if (1 <=? year) && (year <=? 9999) then
    match monthrange_days year month with
    | Some n =>
        if (1 <=? day) && (day <=? n) then mret (year, month, day) else raise ValueError
    | None => raise ValueError
    end
  else raise ValueError.

(** [date.timetuple().tm_yday]: the day of the year, from 1. *)
Definition tm_yday (year month day : Z) : Z :=
  foldr Z.add day (omap (monthrange_days year) (Z.of_nat <$> seq 1 (Z.to_nat (month - 1)))).

(** [date + timedelta(days=1)] and [date - timedelta(days=1)], for a date of
    the calendar after 0001-01-01 and before 9999-12-31. *)
Definition next_day (date : Z * Z * Z) : Z * Z * Z :=
  let '(y, m, d) := date in
  if d <? default 0 (monthrange_days y m) then (y, m, d + 1)
  else if m <? 12 then (y, m + 1, 1)
  else (y + 1, 1, 1).

Definition prev_day (date : Z * Z * Z) : Z * Z * Z :=
  let '(y, m, d) := date in
  if 1 <? d then (y, m, d - 1)
  else if 1 <? m then (y, m - 1, default 0 (monthrange_days y (m - 1)))
  else (y - 1, 12, 31).

(** [pd.date_range(start, end, freq="D")]: the consecutive days from [start];
    their number, given by [end], is [periods]. *)
Fixpoint date_range (start : Z * Z * Z) (periods : nat) : list val :=
  match periods with
  | O => []
  | S n => (let '(y, m, d) := start in VDate y m d) :: date_range (next_day start) n
  end.

(** [year, month, day = map(int, entry)] and [datetime(year, month, day).date()]
    for an entry of the configuration that is a list of ints. *)
Definition date_of_entry (entry : list Z) : M (Z * Z * Z) :=
  match entry with
  | [year; month; day] => datetime year month day
  | _ => raise ValueError
  end.

(** The entries of the configuration that are dates are kept in a map of
    their own, [config_dates]. *)
Definition _define_start_and_end_dates (config_dates : gmap string (list Z))
    : M ((Z * Z * Z) * (Z * Z * Z) * (Z * Z * Z)) :=
  startdate ← lift_opt KeyError (config_dates !! "start_date_entry") ≫= date_of_entry;
  begdateCS ← lift_opt KeyError (config_dates !! "start_date_entry") ≫= date_of_entry;
  enddate ← lift_opt KeyError (config_dates !! "end_date_entry") ≫= date_of_entry;
  mret (startdate, begdateCS, enddate).

(** *** Tables *)

(** [pd.DataFrame(rows, columns=[c])] *)
Definition DataFrame_of (c : string) (rows : list val) : DataFrame :=
  mkDataFrame (length rows) {[ c := rows ]}.

(** [df[c]], the column as a Series. *)
Definition column (df : DataFrame) (c : string) : M (list val) :=
  lift_opt KeyError (df_cols df !! c).

(** [df[c].iloc[z]]: a negative position counts from the end. *)
Definition df_ilocz (df : DataFrame) (c : string) (z : Z) : M val :=
  col ← column df c;
  lift_opt IndexError (np_index (length col) z ≫= λ k, col !! k).

(** [df[c] = values] for a list or an array, on a table with rows: pandas
    refuses values of another length than the index. (A table without rows
    takes the index of the values instead; the properties below are stated
    for tables with rows.) *)
Definition set_values (df : DataFrame) (c : string) (values : list val) : M DataFrame :=
  if decide (length values = df_len df)
  then mret (mkDataFrame (df_len df) (<[c := values]> (df_cols df)))
  else raise ValueError.

(** [df[c] = series] for a Series with the default index, on a table with
    rows: the values are aligned on the index, a row that the series does
    not have is NaN and a row that the table does not have is dropped. *)
Definition reindex (n : nat) (series : list val) : list val :=
  (λ k, default (VFloat nan) (series !! k)) <$> seq 0 n.

Definition set_series (df : DataFrame) (c : string) (series : list val) : DataFrame :=
  mkDataFrame (df_len df) (<[c := reindex (df_len df) series]> (df_cols df)).

(** *** Seasons *)

Definition season_of_month (month : Z) : Z :=
  if (2 <? month) && (month <? 6) then 2
  else if (5 <? month) && (month <? 8) then 3
  else if (7 <? month) && (month <? 11) then 4
  else 1.

Definition _determine_seasons (date_range_5 : list val) : M DataFrame :=
  let seasons := DataFrame_of "date" date_range_5 in
  let seasons_count := df_len seasons in
  for_range seasons_count (λ i,
    '(_, month, _) ← df_iloc seasons "date" i ≫= as_date;
    let S := season_of_month month in
    wrF "Daily_Seasons" i (VInt S);;
    wrF "Mon" i (VInt month));;
  s ← get_state;
  Daily_Seasons ← lift_opt AttributeError (mvars s !! "Daily_Seasons");
  seasons ← set_values seasons "Season" Daily_Seasons;
  Mon ← lift_opt AttributeError (mvars s !! "Mon");
  set_values seasons "Month" Mon.


Definition _create_dectree_df (date_range_5 : list val) (tc_lonino_df : DataFrame)
    : M DataFrame :=
  let dec_tree_df := DataFrame_of "Date" date_range_5 in
  classes ← column tc_lonino_df "LONINO_Seasonal_Classes";
  mret (set_series dec_tree_df "Zone_B_MetFcast" classes).

(** *** The table of the run *)

Definition _initialize_lo_model (date_range_6 : list val) (data : gmap string DataFrame)
    (config : gmap string val) : M DataFrame :=
  let lo_model := DataFrame_of "date" date_range_6 in
  Netflows ← data_attr data "NetInf_Input" ≫= λ df, column df "Netflows_acft";
  let lo_model := set_series lo_model "Net_Inflow" Netflows in
  LOSA_dmd ← data_attr data "SFWMM_W_dmd" ≫= λ df, column df "LOSA_dmd";
  mult_losa ← getkeyF config "mult_losa";
  scaled ← mapM (λ v, x ← as_float v; mret (VFloat (x * (mult_losa / 100))%float)) LOSA_dmd;
  let lo_model := set_series lo_model "LOSA_dmd_SFWMM" scaled in
  C44RO ← data_attr data "C44_Runoff" ≫= λ df, column df "C44RO";
  mret (set_series lo_model "C44RO" C44RO).

(** *** The daily water demand *)

(** The first loop: the number of days since the last day with the month and
    the day of the start date; the counter [n] is unbound until such a day has
    been seen. *)
Fixpoint day_counts (startdate : Z * Z * Z) (n : option Z) (dates : list val) : M (list Z) :=
  match dates with
  | [] => mret []
  | i :: rest =>
      '(_, month, day) ← as_date i;
      n ← (if (month =? startdate.1.2) && (day =? startdate.2) then mret 0
           else n ← lift_opt UnboundLocalError n; mret (n + 1));
      N ← day_counts startdate (Some n) rest;
      mret (n :: N)
  end.

(** The second loop: [52 if i > 363 else int(i / 7) + 1]. *)
Definition week_number (i : Z) : Z := if 363 <? i then 52 else Z.quot i 7 + 1.

Definition _calculate_daily_water_demand (date_range_2 : list val) (startdate : Z * Z * Z)
    (data : gmap string DataFrame) (config : gmap string val) (format : val → string)
    : M DataFrame :=
  let water_demand := DataFrame_of "date" date_range_2 in
  dates ← column water_demand "date";
  N ← day_counts startdate None dates;
  water_demand ← set_values water_demand "count" (VInt <$> N);
  let week_numbers := week_number <$> N in
  water_demand ← set_values water_demand "Week_num" (VInt <$> week_numbers);
  daily_demand ←
    mapM (λ i,
      Weekly_dmd ← data_attr data "Weekly_dmd";
      code ← getkey config "code";
      weekly ← df_ilocz Weekly_dmd ("C" +:+ format code) (i - 1) ≫= as_float;
      multiplier ← getkeyF config "multiplier";
      mret (VFloat ((weekly / 7) * (multiplier / 100))%float))
      week_numbers;
  set_values water_demand "Daily_demand" daily_demand.

(** *** The target stages *)

(** [[x for x in a if ~np.isnan(x)]] for an array of floats. *)
Definition drop_nan (a : list val) : M (list val) :=
  floats ← mapM as_float a;
  mret (VFloat <$> filter (λ x, PrimFloat.is_nan x = false) floats).

Section targ_stg.
(** [loone.utils.replicate], which is not part of these sources. *)
Variable replicate : Z → Z → Z → DataFrame → val.

Definition _calculate_targ_stg_df (config : gmap string val) (data : gmap string DataFrame)
    (date_range_5 : list val) : M DataFrame :=
  opt ← getkey config "opt_date_targ_stg";
  targ_stg ← data_attr data
                (if eq_num opt 1 then "Targ_Stg_June_1st" else "Targ_Stg_May_1st");
  let targ_stg_df := DataFrame_of "dates" date_range_5 in
  for_range (df_len targ_stg_df) (λ i,
    '(year, month, day) ← df_iloc targ_stg_df "dates" i ≫= as_date;
    let day_of_year := tm_yday year month day in
    wrF "V10per" i (replicate year day_of_year 10 targ_stg);;
    wrF "V20per" i (replicate year day_of_year 20 targ_stg);;
    wrF "V25per" i (replicate year day_of_year 25 targ_stg);;
    wrF "V30per" i (replicate year day_of_year 30 targ_stg);;
    wrF "V40per" i (replicate year day_of_year 40 targ_stg);;
    wrF "V45per" i (replicate year day_of_year 45 targ_stg);;
    wrF "V50per" i (replicate year day_of_year 50 targ_stg);;
    wrF "V60per" i (replicate year day_of_year 60 targ_stg));;
  let column_of (df : DataFrame) (c x : string) : M DataFrame :=
    s ← get_state;
    a ← lift_opt AttributeError (mvars s !! x);
    values ← drop_nan a;
    set_values df c values in
  targ_stg_df ← column_of targ_stg_df "10%" "V10per";
  targ_stg_df ← column_of targ_stg_df "20%" "V20per";
  targ_stg_df ← column_of targ_stg_df "25%" "V25per";
  targ_stg_df ← column_of targ_stg_df "30%" "V30per";
  targ_stg_df ← column_of targ_stg_df "40%" "V40per";
  targ_stg_df ← column_of targ_stg_df "45%" "V45per";
  targ_stg_df ← column_of targ_stg_df "50%" "V50per";
  column_of targ_stg_df "60%" "V60per".

End targ_stg.

(** *** The monthly basin runoff *)

(** One month of the loop of [_calculate_basin_runoff]: the number of days,
    the baseflow that the runoff of each basin leaves uncovered, and the
    runoff in excess of the baseflow. *)
Definition basin_runoff_month (basin_ro : DataFrame) (data : gmap string DataFrame)
    (outlet1_baseflow outlet2_baseflow : val) (i : nat)
    : M (float * float * float * float * float) :=
  '(year, _, _) ← df_iloc basin_ro "date" i ≫= as_date;
  '(_, month, _) ← df_iloc basin_ro "date" i ≫= as_date;
  num_days ← lift_opt ValueError (monthrange_days year month);
  let num_days := Z2f num_days in
  c43 ← data_attr data "C43RO" ≫= λ df, df_iloc df "C43RO" i;
  b1 ← as_float outlet1_baseflow;
  c43 ← as_float c43;
  let bs_c43ro := py_max 0 (b1 - c43) in
  c44 ← data_attr data "C44RO" ≫= λ df, df_iloc df "C44RO" i;
  b2 ← as_float outlet2_baseflow;
  c44 ← as_float c44;
  let bs_c44ro := py_max 0 (b2 - c44) in
  sltrib ← (data_attr data "SLTRIB" ≫= λ df, df_iloc df "SLTRIB_cfs" i) ≫= as_float;
  let c44ro_sltrib := (bs_c44ro + sltrib)%float in
  c44 ← (data_attr data "C44RO" ≫= λ df, df_iloc df "C44RO" i) ≫= as_float;
  b2 ← as_float outlet2_baseflow;
  let c44ro_bs := (py_max 0 (c44 - b2) * num_days)%float in
  mret (num_days, bs_c43ro, bs_c44ro, c44ro_sltrib, c44ro_bs).

Definition _calculate_basin_runoff (basin_ro : DataFrame) (data : gmap string DataFrame)
    (outlet1_baseflow outlet2_baseflow : val) : M DataFrame :=
  let num_B_R := df_len basin_ro in
  months ← mapM (basin_runoff_month basin_ro data outlet1_baseflow outlet2_baseflow)
              (seq 0 num_B_R);
  let array (f : float * float * float * float * float → float) : list val :=
    (λ r, VFloat (f r)) <$> months in
  basin_ro ← set_values basin_ro "Ndays" (array (λ r, r.1.1.1.1));
  C43RO ← data_attr data "C43RO" ≫= λ df, column df "C43RO";
  let basin_ro := set_series basin_ro "C43RO" C43RO in
  basin_ro ← set_values basin_ro "BS-C43RO" (array (λ r, r.1.1.1.2));
  C44RO ← data_attr data "C44RO" ≫= λ df, column df "C44RO";
  let basin_ro := set_series basin_ro "C44RO" C44RO in
  basin_ro ← set_values basin_ro "BS-C44RO" (array (λ r, r.1.1.2));
  SLTRIB ← data_attr data "SLTRIB" ≫= λ df, column df "SLTRIB_cfs";
  let basin_ro := set_series basin_ro "SLTRIB" SLTRIB in
  basin_ro ← set_values basin_ro "C44RO_SLTRIB" (array (λ r, r.1.2));
  set_values basin_ro "C44RO-BS" (array (λ r, r.2)).

(** ** A small run

    A horizon of three simulated days (four rows), with constant inputs, used
    to run the definitions above on concrete data. The helper modules answer
    with fixed values: water-shortage zone 5, schedule zone 4, pulse day 0, a
    pre-protocol baseflow of 500 cfs, and 1 for every other quantity. *)
Module Sample.

(** A table of [n] rows with constant columns. *)
Definition table (n : nat) (cols : list (string * val)) : DataFrame :=
  mkDataFrame n (list_to_map ((λ '(c, v), (c, replicate n v)) <$> cols)).

Definition set_col (c : string) (col : list val) (df : DataFrame) : DataFrame :=
  mkDataFrame (df_len df) (<[c := col]> (df_cols df)).

Definition dates : list val :=
  [VDate 2008 1 1; VDate 2008 1 2; VDate 2008 1 3; VDate 2008 1 4].

Definition str (v : val) : string :=
  match v with
  | VStr s => s
  | VInt z => pretty z
  | _ => ""
  end.

Definition zero_keys : list string :=
  ["z1_cutback"; "z2_cutback"; "z3_cutback"; "z4_cutback"; "opt_losa_ws"; "opt_new_tree";
   "opt_dec_tree"; "zone_c_met_fcast_indicator"; "cs_flag"; "pls_day_switch";
   "max_qstg_trigger"; "dstar_d1"; "dstar_d2"; "dstar_d3"; "dstar_c"; "dstar_b";
   "astar_d1"; "astar_d2"; "astar_d3"; "astar_c"; "astar_b"; "bstar_s80_d1";
   "bstar_s80_d2"; "bstar_s80_d3"; "bstar_s80_c"; "bstar_s80_b"; "bstar_s77_d1";
   "bstar_s77_d2"; "bstar_s77_d3"; "bstar_s77_c"; "bstar_s77_b"; "opt_qreg_mult";
   "option_s80_baseflow"; "opt_s308"; "s308_bk_const"; "s308_bk_thr";
   "option_reg_s77_s308"; "sim_type"; "s308_rg_const"; "s80_const"; "opt_outlet1_dsrg";
   "outlet1_usbk_switch"; "outlet1_usbk_threshold"; "option_s77_baseflow"; "opt_adap_prot";
   "outlet1_usews_switch"; "outlet1_usreg_switch"; "outlet1_ds_switch"; "option_reg_wca";
   "constant_reg_wca"; "option_reg_l8_c51"; "constant_reg_l8_c51"; "et_switch"; "opt_wsa";
   "wsa_trig2"; "wsa_off2"; "wsa_trig1"; "wsa_off1"; "wsa_thc"; "mia_cap2"; "mia_cap1";
   "nnr_cap2"; "nnr_cap1"; "option_stage";
   "Opt_LChance_line"; "Late_Dry_Season_Option"; "Opt_CEews_LOWSM"; "Opt_THCbypLateDS"].

(** The configuration; it also carries the parameters of the adaptive
    protocol, with the salinity forecast option 3 and the baseflow test
    switched to the stage band ([Opt_NoAP_above_BF_SB = 1]). *)
Definition cfg : gmap string val :=
  list_to_map
    ([("schedule", VStr "LORS20082023"); ("start_year", VInt 2008);
      ("beg_stage_cs", VFloat 12.5);
      ("max_cap_reg_wca", VFloat 1000); ("multiplier_reg_wca", VFloat 1);
      ("max_cap_reg_l8_c51", VFloat 1000); ("multiplier_reg_l8_c51", VFloat 1);
      ("THC_threshold", VFloat 2); ("LowChance", VInt 10); ("OptSalFcast", VInt 3);
      ("CE_SalThreshold", VFloat 5); ("Opt_NoAP_above_BF_SB", VInt 1);
      ("APCB1", VFloat 20); ("APCB2", VFloat 40); ("APCB3", VFloat 60); ("APCB4", VFloat 80);
      ("CalEst_ews", VFloat 300)]
     ++ ((λ k, (k, VInt 0)) <$> zero_keys)).

(** The same with the baseflow test on the combined gate. *)
Definition cfg_gate : gmap string val := <["Opt_NoAP_above_BF_SB" := VInt 0]> cfg.

Definition lo_fns : pyobj := λ name _,
  if String.eqb name "WSM_Zone" then VInt 5
  else if String.eqb name "Zone_Code" then VInt 4
  else if String.eqb name "PlsDay" then VInt 0
  else if String.eqb name "Outlet1USBS" then VFloat 500
  else VFloat 1.

(** Decision-tree codes: tributary 1, stage or forecast 2, seasonal 3 (1 in
    zone B), multi-seasonal 4, release code 0. *)
Definition tree_fns : pyobj := λ name _,
  if bool_decide (name ∈ ["Zone_D_Trib"; "Zone_C_Trib"; "Zone_B_Trib"; "Zone_B_Seas"])
  then VInt 1
  else if bool_decide (name ∈ ["Zone_D_stage"; "Zone_C_MetFcast"; "Zone_B_Stage"]) then VInt 2
  else if bool_decide (name ∈ ["Zone_D_Seas"; "Zone_C_Seas"]) then VInt 3
  else if bool_decide (name ∈ ["Zone_D_MSeas"; "Zone_C_MSeas"]) then VInt 4
  else VInt 0.

Definition sto_fns : pyobj := λ _ _, VFloat 1.

Definition sfwmm : DataFrame :=
  table 4 [("S308BK", VFloat 0); ("S308RG", VFloat 0); ("STEST", VFloat 0); ("S80", VFloat 0);
           ("S77BK", VFloat 0); ("CAEST", VFloat 0); ("S77RG", VFloat 0); ("S79", VFloat 0);
           ("RegWCA", VFloat 0); ("RegL8C51", VFloat 0); ("et_dry", VFloat 0);
           ("et_litoral", VFloat 0); ("et_open", VFloat 0); ("EOD Stg(ft,NGVD)", VFloat 12.5)].

Definition rates : DataFrame :=
  table 1 [("Zone_D0", VFloat 450); ("Zone_D1", VFloat 1); ("Zone_D2", VFloat 2);
           ("Zone_D3", VFloat 3); ("Zone_C", VFloat 4); ("Zone_B", VFloat 5);
           ("Zone_A", VFloat 6)].

(** A pulse table of three rows. *)
Definition Pulses : DataFrame :=
  mkDataFrame 3
    (list_to_map
       [("S-80_L1_LORS20082023", [VFloat 11; VFloat 12; VFloat 13]);
        ("S-80_L2_LORS20082023", [VFloat 21; VFloat 22; VFloat 23]);
        ("S-80_L3_LORS20082023", [VFloat 31; VFloat 32; VFloat 33]);
        ("S-77_L1_LORS20082023", [VFloat 41; VFloat 42; VFloat 43]);
        ("S-77_L2_LORS20082023", [VFloat 51; VFloat 52; VFloat 53]);
        ("S-77_L3_LORS20082023", [VFloat 61; VFloat 62; VFloat 63])]).

Definition tables : gmap string DataFrame :=
  list_to_map
    [("SFWMM_Daily_Outputs", sfwmm); ("S80_RegRelRates", rates); ("S77_RegRelRates", rates);
     ("Pulses", Pulses);
     ("CE_SLE_turns", table 1 [("SLEturn", VInt 0); ("CEturn", VInt 0)]);
     ("RF_Vol", table 4 [("RFVol_acft", VFloat 30)]);
     ("ET_Vol", table 4 [("ETVol_acft", VFloat 20)]);
     ("EAA_MIA_RUNOFF",
      table 4 [("MIA", VFloat 0); ("S3PMP", VFloat 0); ("NNR", VFloat 0); ("S2PMP", VFloat 0)]);
     ("Estuary_needs_water", table 4 [("Estuary Needs Water?", VBool false)])].

Definition wsms : DataFrame :=
  table 4 [("WSM4", VFloat 9); ("WSM3", VFloat 9.5); ("WSM2", VFloat 10); ("WSM1", VFloat 10.5);
           ("D0", VFloat 11); ("D1", VFloat 12); ("D2", VFloat 13); ("D3", VFloat 14);
           ("C", VFloat 15); ("B", VFloat 16); ("A", VFloat 17); ("C-b", VFloat 14.5)].

Definition lonino : DataFrame :=
  table 4 [("Tributary_Condition", VFloat 3); ("LONINO_Seasonal_Classes", VInt 3);
           ("LONINO_MultiSeasonal_Classes", VInt 2)].

Definition ap_df : DataFrame :=
  set_col "date" dates
    (table 4 [("Tributary Hydrologic Condition", VFloat 3); ("Late_Dry_Season", VBool false)]).

Definition env_with (cfg : gmap string val) (G : globals) : env :=
  mkEnv cfg tables wsms
    (table 4 [("Daily_demand", VFloat 7)])
    lonino
    (table 4 [("Are WCA stages too low?", VBool false)])
    (table 4 [("Season", VFloat 1); ("Month", VFloat 1)])
    (table 4 [("Zone_B_MetFcast", VInt 3)])
    ap_df
    (table 4 [("10%", VFloat 11.5)])
    (replicate 4 (VFloat 0)) (replicate 4 (VFloat 0))
    [VFloat 0; VFloat 0; VFloat 5; VFloat (-5)]
    dates (2008, 1, 2) (2008, 1, 2)
    (VFloat 450)
    (VFloat 12) (VFloat 22) (VFloat 32) (VFloat 42) (VFloat 52) (VFloat 62)
    [] []
    lo_fns tree_fns sto_fns str
    G.

(** The starting storage is bound; the parameters of the parametric releases
    are not (the run is an observed replay, [sim_type = 0]). *)
Definition bound : globals := mkGlobals None None None None (Some (VFloat 4000000)).

(** The module as LOONE_Q.py leaves it: none of the names is bound. *)
Definition unbound : globals := mkGlobals None None None None None.

Definition E : env := env_with cfg bound.
Definition E_gate : env := env_with cfg_gate bound.
Definition E_unbound : env := env_with cfg unbound.

(** The state when the loop starts: the arrays of a run from day 2 to day 4
    (three simulated days, four rows) and the input columns of [lo_model];
    the demand is zero on the first simulated day only. *)
Definition lo_model0 : DataFrame :=
  set_col "date" dates
    (set_col "LOSA_dmd_SFWMM" [VFloat 0; VFloat 0; VFloat 0; VFloat 8]
       (table 4 [("Net_Inflow", VFloat 100); ("C44RO", VFloat 0); ("C43RO", VFloat 0)])).

Definition s0 : state := mkState (M_var false 0 2 4 1 1 12) lo_model0.

(** The state at the end of the run. *)
Definition s_end : state := (LOONE_Q E s0).1.

End Sample.

(** * Properties *)

(** ** The definitions at work *)

Example py_min_example : py_min 500 450 = 450%float ∧ py_min 300 450 = 300%float.
Proof. split; reflexivity. Qed.

Example np_index_example :
  np_index 4 2 = Some 2%nat ∧ np_index 4 (-1) = Some 3%nat ∧ np_index 4 4 = None.
Proof. repeat split. Qed.

Example pulse_row_example :
  pulse_row 3 Sample.Pulses = 2 ∧ pulse_row 0 Sample.Pulses = 2 ∧ pulse_row 1 Sample.Pulses = 0.
Proof. repeat split. Qed.

Example Forecast_D_Sal_example :
  AP_FNs.Forecast_D_Sal 1 = Raise UnboundLocalError
  ∧ AP_FNs.Forecast_D_Sal 2 = Raise UnboundLocalError
  ∧ AP_FNs.Forecast_D_Sal 3 = Ok nan.
Proof. repeat split. Qed.

Example Post_Ap_Baseflow_example :
  AP_FNs.Post_Ap_Baseflow true 500 false 450 = 500%float
  ∧ AP_FNs.Post_Ap_Baseflow false 500 true 450 = 450%float
  ∧ AP_FNs.Post_Ap_Baseflow false 500 false 450 = 0%float.
Proof. repeat split. Qed.

(** The sample run returns normally; its first simulated day has no demand,
    its second a demand of 8 of which 7 are cut back. *)
Example sample_run_returns : (LOONE_Q Sample.E Sample.s0).2 = Ok tt.
Proof. vm_compute. reflexivity. Qed.

Example sample_run_values :
  cell Sample.s_end "Dem_N_Sup" 2 = Some (VInt 0)
  ∧ cell Sample.s_end "Dem_N_Sup" 3 = Some (VFloat 87.5)
  ∧ cell Sample.s_end "Zone_B_Branch_Code" 0 = Some (VFloat 1231)
  ∧ cell Sample.s_end "Post_Ap_Baseflow" 0 = Some (VFloat 500)
  ∧ cell Sample.s_end "Post_Ap_Baseflow" 2 = Some (VFloat 0).
Proof. vm_compute. repeat split. Qed.

(** LOONE_Q.py never binds [start_storage]: with the module as it is, the
    first iteration stops at the call of the storage step. The steps before
    it have written their cells. *)
Example sample_run_unbound_start_storage :
  (LOONE_Q Sample.E_unbound Sample.s0).2 = Raise NameError
  ∧ cell (LOONE_Q Sample.E_unbound Sample.s0).1 "TotRegSo" 2 = Some (VFloat (2 * 1.9835))
  ∧ cell (LOONE_Q Sample.E_unbound Sample.s0).1 "DSto" 2 = Some (VInt 0).
Proof. vm_compute. repeat split. Qed.

(** ** Reasoning about the monad *)

Lemma bind_unfold {A B} (m : M A) (f : A → M B) s :
  (m ≫= f) s = match m s with
               | (s', Ok a) => f a s'
               | (s', Raise e) => (s', Raise e)
               end.
Proof. reflexivity. Qed.

Lemma bind_ok {A B} (m : M A) (f : A → M B) s s' a :
  m s = (s', Ok a) → (m ≫= f) s = f a s'.
Proof. intros H. rewrite bind_unfold, H. reflexivity. Qed.

Lemma bind_raise {A B} (m : M A) (f : A → M B) s s' e :
  m s = (s', Raise e) → (m ≫= f) s = (s', Raise e).
Proof. intros H. rewrite bind_unfold, H. reflexivity. Qed.

Lemma bind_inv {A B} (m : M A) (f : A → M B) s s'' b :
  (m ≫= f) s = (s'', Ok b) → ∃ s' a, m s = (s', Ok a) ∧ f a s' = (s'', Ok b).
Proof.
  rewrite bind_unfold. destruct (m s) as [s' [a|e]]; [eauto | discriminate].
Qed.

Lemma keeps_ret {A} (a : A) : keeps_mvars (mret a : M A).
Proof. intros s. reflexivity. Qed.

Lemma keeps_bind {A B} (m : M A) (f : A → M B) :
  keeps_mvars m → (∀ a, keeps_mvars (f a)) → keeps_mvars (m ≫= f).
Proof.
  intros Hm Hf s. rewrite bind_unfold. specialize (Hm s).
  destruct (m s) as [s' [a|e]]; simpl in *; [rewrite Hf|]; exact Hm.
Qed.

Lemma keeps_raise {A} e : keeps_mvars (raise e : M A).
Proof. intros s. reflexivity. Qed.

Lemma keeps_lift {A} (r : result A) : keeps_mvars (lift r).
Proof. intros s. reflexivity. Qed.

Lemma keeps_lift_opt {A} e (o : option A) : keeps_mvars (lift_opt e o).
Proof. destruct o; [apply keeps_ret | apply keeps_raise]. Qed.

Lemma keeps_get_state : keeps_mvars get_state.
Proof. intros s. reflexivity. Qed.

Lemma keeps_put_lo_model d : keeps_mvars (put_lo_model d).
Proof. intros s. reflexivity. Qed.

Create HintDb keeps discriminated.
#[local] Hint Resolve keeps_ret keeps_raise keeps_lift keeps_lift_opt keeps_get_state
  keeps_put_lo_model : keeps.

(** Unfolds an action built from the primitives above and closes the goal. *)
Ltac keeps_step :=
  match goal with
  | |- keeps_mvars (_ ≫= _) => apply keeps_bind; [| intros ?]
  | |- keeps_mvars (if ?c then _ else _) => destruct c
  | |- keeps_mvars (match ?p with (_, _) => _ end) => destruct p
  | |- keeps_mvars (match ?v with VInt _ => _ | _ => _ end) => destruct v
  | |- keeps_mvars _ => solve [auto with keeps]
  end.
Ltac keeps := repeat keeps_step.

Lemma keeps_rdz x z : keeps_mvars (rdz x z).
Proof. unfold rdz. keeps. Qed.
Lemma keeps_rd x k : keeps_mvars (rd x k).
Proof. apply keeps_rdz. Qed.
Lemma keeps_as_float v : keeps_mvars (as_float v).
Proof. unfold as_float. keeps. Qed.
Lemma keeps_as_int v : keeps_mvars (as_int v).
Proof. unfold as_int. keeps. Qed.
Lemma keeps_as_bool v : keeps_mvars (as_bool v).
Proof. unfold as_bool. keeps. Qed.
Lemma keeps_as_date v : keeps_mvars (as_date v).
Proof. unfold as_date. keeps. Qed.
#[local] Hint Resolve keeps_rdz keeps_rd keeps_as_float keeps_as_int keeps_as_bool
  keeps_as_date : keeps.

Lemma keeps_rdF x k : keeps_mvars (rdF x k).
Proof. unfold rdF. keeps. Qed.
Lemma keeps_rdZ x k : keeps_mvars (rdZ x k).
Proof. unfold rdZ. keeps. Qed.
#[local] Hint Resolve keeps_rdF keeps_rdZ : keeps.
Lemma keeps_rdB x k : keeps_mvars (rdB x k).
Proof. unfold rdB. keeps. Qed.
Lemma keeps_rd_slice x i j : keeps_mvars (rd_slice x i j).
Proof. unfold rd_slice. keeps. Qed.
Lemma keeps_df_at df r c : keeps_mvars (df_at df r c).
Proof. unfold df_at. keeps. Qed.
Lemma keeps_df_iloc df c k : keeps_mvars (df_iloc df c k).
Proof. unfold df_iloc. keeps. Qed.
Lemma keeps_list_at e xs k : keeps_mvars (list_at e xs k).
Proof. unfold list_at. keeps. Qed.
Lemma keeps_getkey cfg k : keeps_mvars (getkey cfg k).
Proof. unfold getkey. keeps. Qed.
#[local] Hint Resolve keeps_rdB keeps_rd_slice keeps_df_at keeps_df_iloc keeps_list_at
  keeps_getkey : keeps.
Lemma keeps_getkeyF cfg k : keeps_mvars (getkeyF cfg k).
Proof. unfold getkeyF. keeps. Qed.
Lemma keeps_getkeyZ cfg k : keeps_mvars (getkeyZ cfg k).
Proof. unfold getkeyZ. keeps. Qed.
Lemma keeps_df_atn df r c : keeps_mvars (df_atn df r c).
Proof. apply keeps_df_at. Qed.
Lemma keeps_df_atz df r c : keeps_mvars (df_atz df r c).
Proof. apply keeps_df_at. Qed.
#[local] Hint Resolve keeps_getkeyF keeps_getkeyZ keeps_df_atn keeps_df_atz : keeps.
Lemma keeps_lo_at r c : keeps_mvars (lo_at r c).
Proof. unfold lo_at. keeps. Qed.
Lemma keeps_data_attr d n : keeps_mvars (data_attr d n).
Proof. unfold data_attr. keeps. Qed.
Lemma keeps_global {A} (g : option A) : keeps_mvars (global g).
Proof. unfold global. keeps. Qed.
Lemma keeps_seq_at dv z : keeps_mvars (seq_at dv z).
Proof. unfold seq_at. keeps. Qed.
#[local] Hint Resolve keeps_lo_at keeps_data_attr keeps_global keeps_seq_at : keeps.
Lemma keeps_zone_params cfg p : keeps_mvars (zone_params cfg p).
Proof. unfold zone_params. keeps. Qed.
Lemma keeps_pulse_at i d cfg fmt p : keeps_mvars (pulse_at i d cfg fmt p).
Proof. unfold pulse_at. keeps. Qed.
Lemma keeps_turn_at i d cfg c : keeps_mvars (turn_at i d cfg c).
Proof. unfold turn_at. keeps. Qed.
Lemma keeps_set_column c x : keeps_mvars (set_column c x).
Proof. unfold set_column. keeps. Qed.
#[local] Hint Resolve keeps_zone_params keeps_pulse_at keeps_turn_at keeps_set_column : keeps.
Lemma keeps_update_lo_model : keeps_mvars _update_lo_model.
Proof. unfold _update_lo_model. keeps. Qed.
Lemma keeps_parametric_release i cap tp p1 p2 dv dr :
  keeps_mvars tp → keeps_mvars p1 → keeps_mvars p2 → keeps_mvars dv →
  keeps_mvars (parametric_release i cap tp p1 p2 dv dr).
Proof. intros. unfold parametric_release. keeps. Qed.
Lemma keeps_determine_day_flags a b : keeps_mvars (_determine_day_flags a b).
Proof. unfold _determine_day_flags. destruct a as [[??]?], b as [[??]?]. keeps. Qed.
#[local] Hint Resolve keeps_update_lo_model keeps_parametric_release
  keeps_determine_day_flags : keeps.

(** ** The frame of a write *)

Lemma ww_keeps {A} W (m : M A) : keeps_mvars m → writes_within W m.
Proof. intros H s x k _. unfold cell. rewrite H. reflexivity. Qed.

Lemma ww_ret {A} W (a : A) : writes_within W (mret a : M A).
Proof. apply ww_keeps, keeps_ret. Qed.

Lemma ww_bind {A B} W (m : M A) (f : A → M B) :
  writes_within W m → (∀ a, writes_within W (f a)) → writes_within W (m ≫= f).
Proof.
  intros Hm Hf s x k HW. rewrite bind_unfold. specialize (Hm s x k HW).
  destruct (m s) as [s' [a|e]]; simpl in *; [rewrite Hf by exact HW|]; exact Hm.
Qed.

Lemma ww_mono {A} (W W' : string → nat → Prop) (m : M A) :
  (∀ x k, W x k → W' x k) → writes_within W m → writes_within W' m.
Proof. intros HWW Hm s x k HW. apply Hm. intros H. apply HW, HWW, H. Qed.

Lemma wr_unfold x k v s :
  wr x k v s =
  match mvars s !! x with
  | None => (s, Raise AttributeError)
  | Some a =>
      if decide (k < length a)%nat
      then (mkState (<[x := <[k := v]> a]> (mvars s)) (lo_model s), Ok tt)
      else (s, Raise IndexError)
  end.
Proof.
  unfold wr. rewrite bind_unfold. simpl.
  destruct (mvars s !! x) as [a|]; simpl; [|reflexivity].
  rewrite bind_unfold. simpl. destruct (decide (k < length a)%nat); reflexivity.
Qed.

(** A write changes the written cell only. *)
Lemma wr_cell_other x k v s y j :
  (y, j) ≠ (x, k) → cell (wr x k v s).1 y j = cell s y j.
Proof.
  intros Hne. rewrite wr_unfold.
  destruct (mvars s !! x) as [a|] eqn:Ha; simpl; [|reflexivity].
  destruct (decide (k < length a)%nat); simpl; [|reflexivity].
  unfold cell. simpl. destruct (decide (x = y)) as [->|Hxy].
  - rewrite lookup_insert_eq, Ha. simpl.
    apply list_lookup_insert_ne. congruence.
  - rewrite lookup_insert_ne by exact Hxy. reflexivity.
Qed.

Lemma ww_wr (W : string → nat → Prop) x k v : W x k → writes_within W (wr x k v).
Proof.
  intros HW s y j Hn. apply wr_cell_other. intros [= -> ->]. exact (Hn HW).
Qed.

Lemma ww_wrF (W : string → nat → Prop) x k v : W x k → writes_within W (wrF x k v).
Proof.
  intros HW. unfold wrF. apply ww_bind; [apply ww_keeps, keeps_as_float|].
  intros f. apply ww_wr, HW.
Qed.

Lemma ww_wrB (W : string → nat → Prop) x k b : W x k → writes_within W (wrB x k b).
Proof. apply ww_wr. Qed.

(** One cell of day [i], by the lag of its array. *)
Lemma day_cell_lag i x d : lag x = Some d → day_cells i x (i + d).
Proof. intros H. exists d. split; [exact H | reflexivity]. Qed.

Lemma day_cell_lag_0 i x : lag x = Some 0%nat → day_cells i x i.
Proof. intros H. exists 0%nat. split; [exact H | lia]. Qed.

Ltac day_cell :=
  first [ apply day_cell_lag_0; reflexivity | apply day_cell_lag; reflexivity ].

(** Splits a step into its reads and writes; every write must hit a cell of
    the day. *)
Ltac ww_step :=
  match goal with
  | |- writes_within _ (mret _) => apply ww_ret
  | |- writes_within _ (wr _ _ _) => apply ww_wr; day_cell
  | |- writes_within _ (wrF _ _ _) => apply ww_wrF; day_cell
  | |- writes_within _ (wrB _ _ _) => apply ww_wrB; day_cell
  | |- writes_within _ (_ ≫= _) => apply ww_bind; [| intros ?]
  | |- writes_within _ (if ?c then _ else _) => destruct c
  | |- writes_within _ (match ?p with (_, _) => _ end) => destruct p
  | |- writes_within _ _ => apply ww_keeps; solve [auto with keeps]
  end.
Ltac ww := repeat ww_step.

Section Day_frame.
Variable i : nat.
#[local] Abbreviation W := (day_cells i).

Lemma ww_calculate_wsm_zone lf df : writes_within W (_calculate_wsm_zone i lf df).
Proof. unfold _calculate_wsm_zone. ww. Qed.
Lemma ww_calculate_max_supply lf wd cfg : writes_within W (_calculate_max_supply i lf wd cfg).
Proof. unfold _calculate_max_supply. ww. Qed.
Lemma ww_calculate_losa_supply lf cfg : writes_within W (_calculate_losa_supply i lf cfg).
Proof. unfold _calculate_losa_supply. ww. Qed.
Lemma ww_calculate_ni_supply : writes_within W (_calculate_ni_supply i).
Proof. unfold _calculate_ni_supply. ww. Qed.
Lemma ww_calculate_cutback : writes_within W (_calculate_cutback i).
Proof. unfold _calculate_cutback. ww. Qed.
Lemma ww_calculate_demand_not_supplied : writes_within W (_calculate_demand_not_supplied i).
Proof. unfold _calculate_demand_not_supplied. ww. Qed.
Lemma ww_calculate_zone_code lf df : writes_within W (_calculate_zone_code i lf df).
Proof. unfold _calculate_zone_code. ww. Qed.
Lemma ww_generate_zone_column lf : writes_within W (_generate_zone_column i lf).
Proof. unfold _generate_zone_column. ww. Qed.
Lemma ww_calculate_decision_tree_variables dtf tc cfg se dt df :
  writes_within W (_calculate_decision_tree_variables i dtf tc cfg se dt df).
Proof. unfold _calculate_decision_tree_variables. ww. Qed.
Lemma ww_calculate_release_levels sd lf cfg tc :
  writes_within W (_calculate_release_levels i sd lf cfg tc).
Proof. unfold _calculate_release_levels. destruct sd as [[??]?]. ww. Qed.
Lemma ww_calculate_zone_codes lf df : writes_within W (_calculate_zone_codes i lf df).
Proof. unfold _calculate_zone_codes. ww. Qed.
Lemma ww_calculate_release_level_codes lf cfg :
  writes_within W (_calculate_release_level_codes i lf cfg).
Proof. unfold _calculate_release_level_codes. ww. Qed.
Lemma ww_calculate_relevel_code_3_s77 lf cfg :
  writes_within W (_calculate_relevel_code_3_s77 i lf cfg).
Proof. unfold _calculate_relevel_code_3_s77. ww. Qed.
Lemma ww_calculate_outlet2ds_mult lf se cfg :
  writes_within W (_calculate_outlet2ds_mult i lf se cfg).
Proof. unfold _calculate_outlet2ds_mult. ww. Qed.
Lemma ww_calculate_outlet2dsrs lf d a1 a2 a3 cfg fmt :
  writes_within W (_calculate_outlet2dsrs i lf d a1 a2 a3 cfg fmt).
Proof. unfold _calculate_outlet2dsrs. ww. Qed.
Lemma ww_calculate_outlet2dsbs lf v b cfg : writes_within W (_calculate_outlet2dsbs i lf v b cfg).
Proof. unfold _calculate_outlet2dsbs. ww. Qed.
Lemma ww_calculate_outlet2usbk lf df d cfg : writes_within W (_calculate_outlet2usbk i lf df d cfg).
Proof. unfold _calculate_outlet2usbk. ww. Qed.
Lemma ww_calculate_outlet2usrg_code G lf d cfg dr :
  writes_within W (_calculate_outlet2usrg_code i G lf d cfg dr).
Proof. unfold _calculate_outlet2usrg_code. ww. Qed.
Lemma ww_calculate_outlet2ds lf d cfg : writes_within W (_calculate_outlet2ds i lf d cfg).
Proof. unfold _calculate_outlet2ds. ww. Qed.
Lemma ww_calculate_outlet1us_mult lf se cfg : writes_within W (_calculate_outlet1us_mult i lf se cfg).
Proof. unfold _calculate_outlet1us_mult. ww. Qed.
Lemma ww_calculate_outlet1us_mult_2 lf cfg : writes_within W (_calculate_outlet1us_mult_2 i lf cfg).
Proof. unfold _calculate_outlet1us_mult_2. ww. Qed.
Lemma ww_calculate_outlet1usrs lf d cfg a1 a2 a3 fmt :
  writes_within W (_calculate_outlet1usrs i lf d cfg a1 a2 a3 fmt).
Proof. unfold _calculate_outlet1usrs. ww. Qed.
Lemma ww_calculate_sum_outlet1usrs lf : writes_within W (_calculate_sum_outlet1usrs i lf).
Proof. unfold _calculate_sum_outlet1usrs. ww. Qed.
Lemma ww_calculate_outlet1usbk lf d cfg : writes_within W (_calculate_outlet1usbk i lf d cfg).
Proof. unfold _calculate_outlet1usbk. ww. Qed.
Lemma ww_calculate_rowest : writes_within W (_calculate_rowest i).
Proof. unfold _calculate_rowest. ww. Qed.
Lemma ww_calculate_outlet1dsbs lf v b cfg : writes_within W (_calculate_outlet1dsbs i lf v b cfg).
Proof. unfold _calculate_outlet1dsbs. ww. Qed.
Lemma ww_calculate_outlet1usbs lf cfg : writes_within W (_calculate_outlet1usbs i lf cfg).
Proof. unfold _calculate_outlet1usbs. ww. Qed.
Lemma ww_calculate_outlet1usbsap lf cfg : writes_within W (_calculate_outlet1usbsap i lf cfg).
Proof. unfold _calculate_outlet1usbsap. ww. Qed.
Lemma ww_calculate_outlet1usews lf d cfg : writes_within W (_calculate_outlet1usews i lf d cfg).
Proof. unfold _calculate_outlet1usews. ww. Qed.
Lemma ww_define_thc_class_normal_or_above n cfg fmt ap df tg d ch :
  writes_within W (_define_thc_class_normal_or_above i n cfg fmt ap df tg d ch).
Proof. unfold _define_thc_class_normal_or_above, THC_Class. ww. Qed.
Lemma ww_calculate_outlet1usreg G lf d cfg tp dv dr :
  writes_within W (_calculate_outlet1usreg i G lf d cfg tp dv dr).
Proof. unfold _calculate_outlet1usreg. ww. Qed.
Lemma ww_calculate_outlet1ds lf d cfg : writes_within W (_calculate_outlet1ds i lf d cfg).
Proof. unfold _calculate_outlet1ds. ww. Qed.
Lemma ww_calculate_tot_reg_ew : writes_within W (_calculate_tot_reg_ew i).
Proof. unfold _calculate_tot_reg_ew. ww. Qed.
Lemma ww_calculate_choose_wca lf d cfg : writes_within W (_calculate_choose_wca i lf d cfg).
Proof. unfold _calculate_choose_wca. ww. Qed.
Lemma ww_calculate_choose_l8c51 lf d cfg : writes_within W (_calculate_choose_l8c51 i lf d cfg).
Proof. unfold _calculate_choose_l8c51. ww. Qed.
Lemma ww_calculate_tot_reg_so : writes_within W (_calculate_tot_reg_so i).
Proof. unfold _calculate_tot_reg_so. ww. Qed.
Lemma ww_calculate_stage2ar_and_stage2marsh ssa :
  writes_within W (_calculate_stage2ar_and_stage2marsh i ssa).
Proof. unfold _calculate_stage2ar_and_stage2marsh. ww. Qed.
Lemma ww_calculate_rf_and_et lf d cfg : writes_within W (_calculate_rf_and_et i lf d cfg).
Proof. unfold _calculate_rf_and_et. ww. Qed.
Lemma ww_calculate_wsa lf df wca tc d cfg : writes_within W (_calculate_wsa i lf df wca tc d cfg).
Proof. unfold _calculate_wsa. ww. Qed.
Lemma ww_calculate_dsto_and_storage lf sd ss :
  writes_within W (_calculate_dsto_and_storage i lf sd ss).
Proof. unfold _calculate_dsto_and_storage. ww. Qed.
Lemma ww_calculate_lake_stage lf ssa d cfg : writes_within W (_calculate_lake_stage i lf ssa d cfg).
Proof. unfold _calculate_lake_stage. ww. Qed.

End Day_frame.

(** ** Inversion of the primitive actions *)

Lemma lift_opt_inv {A} e (o : option A) s s' a :
  lift_opt e o s = (s', Ok a) → s' = s ∧ o = Some a.
Proof. destruct o; intros [= <- <-] || intros [=]; auto. Qed.

Lemma lift_inv {A} (r : result A) s s' a : lift r s = (s', Ok a) → s' = s ∧ r = Ok a.
Proof. intros [= <- <-]. auto. Qed.

Lemma np_index_nat n (k : nat) : (k < n)%nat → np_index n (Z.of_nat k) = Some k.
Proof.
  intros H. unfold np_index.
  destruct (Z.leb_spec 0 (Z.of_nat k)); [|lia].
  destruct (Z.ltb_spec (Z.of_nat k) (Z.of_nat n)); [|lia].
  by rewrite Nat2Z.id.
Qed.

Lemma np_index_nat_ge n (k : nat) : (n ≤ k)%nat → np_index n (Z.of_nat k) = None.
Proof.
  intros H. unfold np_index.
  destruct (Z.leb_spec 0 (Z.of_nat k)); [|lia].
  destruct (Z.ltb_spec (Z.of_nat k) (Z.of_nat n)); [lia|done].
Qed.

(** A read returns the content of the cell, and fails without one. *)
Lemma rd_unfold x k s :
  rd x k s = (s, match mvars s !! x with
                 | None => Raise AttributeError
                 | Some a => match a !! k with Some v => Ok v | None => Raise IndexError end
                 end).
Proof.
  unfold rd, rdz. rewrite bind_unfold. simpl.
  destruct (mvars s !! x) as [a|]; simpl; [|reflexivity].
  rewrite bind_unfold. simpl. rewrite bind_unfold.
  destruct (decide (k < length a)%nat) as [Hk|Hk].
  - rewrite np_index_nat by exact Hk. simpl.
    destruct (a !! k); reflexivity.
  - rewrite np_index_nat_ge by lia. simpl.
    rewrite (proj2 (lookup_ge_None a k)) by lia. reflexivity.
Qed.

Lemma rd_ok x k s v : cell s x k = Some v → rd x k s = (s, Ok v).
Proof.
  unfold cell. intros H. rewrite rd_unfold.
  destruct (mvars s !! x) as [a|]; simpl in H; [|discriminate]. by rewrite H.
Qed.

Lemma rd_inv x k s s' v : rd x k s = (s', Ok v) → s' = s ∧ cell s x k = Some v.
Proof.
  rewrite rd_unfold. unfold cell. intros [= <- H]. split; [done|].
  destruct (mvars s !! x) as [a|]; simpl; [|discriminate].
  destruct (a !! k); congruence.
Qed.

Lemma as_float_inv v s s' f : as_float v s = (s', Ok f) → s' = s ∧ num_of v = Some f.
Proof. apply lift_opt_inv. Qed.
Lemma as_int_inv v s s' z : as_int v s = (s', Ok z) → s' = s ∧ int_of v = Some z.
Proof. apply lift_opt_inv. Qed.
Lemma as_bool_inv v s s' b : as_bool v s = (s', Ok b) → s' = s ∧ bool_of v = Some b.
Proof. apply lift_opt_inv. Qed.
Lemma as_date_inv v s s' y m d : as_date v s = (s', Ok (y, m, d)) → s' = s ∧ v = VDate y m d.
Proof. destruct v; intros [=]; subst; auto. Qed.

Lemma rdF_inv x k s s' f : rdF x k s = (s', Ok f) → s' = s ∧ num_cell s x k = Some f.
Proof.
  unfold rdF, num_cell. intros (s1 & v & Hr & Hf)%bind_inv.
  apply rd_inv in Hr as [-> Hr]. apply as_float_inv in Hf as [-> Hf].
  by rewrite Hr.
Qed.

Lemma rdF_ok x k s f : num_cell s x k = Some f → rdF x k s = (s, Ok f).
Proof.
  unfold num_cell, rdF. destruct (cell s x k) as [v|] eqn:Hv; simpl; [|discriminate].
  intros Hf. erewrite bind_ok by (apply rd_ok, Hv). unfold as_float. by rewrite Hf.
Qed.

Lemma rdZ_inv x k s s' z :
  rdZ x k s = (s', Ok z) → s' = s ∧ cell s x k ≫= int_of = Some z.
Proof.
  unfold rdZ. intros (s1 & v & Hr & Hf)%bind_inv.
  apply rd_inv in Hr as [-> Hr]. apply as_int_inv in Hf as [-> Hf].
  by rewrite Hr.
Qed.

Lemma rdZ_ok x k s z : cell s x k ≫= int_of = Some z → rdZ x k s = (s, Ok z).
Proof.
  unfold rdZ. destruct (cell s x k) as [v|] eqn:Hv; simpl; [|discriminate].
  intros Hf. erewrite bind_ok by (apply rd_ok, Hv). unfold as_int. by rewrite Hf.
Qed.

Lemma rdB_inv x k s s' b :
  rdB x k s = (s', Ok b) → s' = s ∧ ∃ f, num_cell s x k = Some f ∧ b = is_True f.
Proof.
  unfold rdB. intros (s1 & f & Hr & [= <- <-])%bind_inv.
  apply rdF_inv in Hr as [-> Hr]. eauto.
Qed.

Lemma getkey_inv cfg k s s' v : getkey cfg k s = (s', Ok v) → s' = s ∧ cfg !! k = Some v.
Proof. apply lift_opt_inv. Qed.
Lemma getkeyF_inv cfg k s s' f :
  getkeyF cfg k s = (s', Ok f) → s' = s ∧ cfg !! k ≫= num_of = Some f.
Proof.
  unfold getkeyF. intros (s1 & v & [-> Hr]%getkey_inv & [-> Hf]%as_float_inv)%bind_inv.
  by rewrite Hr.
Qed.
Lemma getkeyZ_inv cfg k s s' z :
  getkeyZ cfg k s = (s', Ok z) → s' = s ∧ cfg !! k ≫= int_of = Some z.
Proof.
  unfold getkeyZ. intros (s1 & v & [-> Hr]%getkey_inv & [-> Hf]%as_int_inv)%bind_inv.
  by rewrite Hr.
Qed.

Lemma df_at_unfold df r c s :
  df_at df r c s = lift_opt KeyError (df_cell df r c) s.
Proof.
  unfold df_at, df_cell. destruct ((0 <=? r) && (r <? Z.of_nat (df_len df))); [|done].
  rewrite bind_unfold. destruct (df_cols df !! c) as [col|]; simpl; [|done].
  reflexivity.
Qed.

Lemma df_atn_inv df r c s s' v :
  df_atn df r c s = (s', Ok v) → s' = s ∧ df_cell df (Z.of_nat r) c = Some v.
Proof. unfold df_atn. rewrite df_at_unfold. apply lift_opt_inv. Qed.
Lemma df_atz_inv df r c s s' v :
  df_atz df r c s = (s', Ok v) → s' = s ∧ df_cell df r c = Some v.
Proof. unfold df_atz. rewrite df_at_unfold. apply lift_opt_inv. Qed.
Lemma df_atn_ok df r c s v : df_cell df (Z.of_nat r) c = Some v → df_atn df r c s = (s, Ok v).
Proof. intros H. unfold df_atn. rewrite df_at_unfold, H. reflexivity. Qed.

Lemma df_iloc_inv df c k s s' v :
  df_iloc df c k s = (s', Ok v) → s' = s ∧ df_cols df !! c ≫= (λ col, col !! k) = Some v.
Proof.
  unfold df_iloc. rewrite bind_unfold.
  destruct (df_cols df !! c) as [col|]; simpl; [|discriminate]. apply lift_opt_inv.
Qed.

Lemma lo_at_inv r c s s' v :
  lo_at r c s = (s', Ok v) → s' = s ∧ df_cell (lo_model s) (Z.of_nat r) c = Some v.
Proof. unfold lo_at. rewrite bind_unfold. simpl. apply df_atn_inv. Qed.
Lemma lo_at_ok r c s v :
  df_cell (lo_model s) (Z.of_nat r) c = Some v → lo_at r c s = (s, Ok v).
Proof. intros H. unfold lo_at. rewrite bind_unfold. simpl. by apply df_atn_ok. Qed.

Lemma list_at_inv e xs k s s' v : list_at e xs k s = (s', Ok v) → s' = s ∧ xs !! k = Some v.
Proof. apply lift_opt_inv. Qed.

Lemma data_attr_inv d n s s' df : data_attr d n s = (s', Ok df) → s' = s ∧ d !! n = Some df.
Proof. apply lift_opt_inv. Qed.

(** A successful write: the cell holds the value, the other cells and the
    table are as before. *)
Lemma wr_inv x k v s s' :
  wr x k v s = (s', Ok tt) →
  cell s' x k = Some v
  ∧ (∀ y j, (y, j) ≠ (x, k) → cell s' y j = cell s y j)
  ∧ lo_model s' = lo_model s.
Proof.
  intros H. split; [|split].
  - revert H. rewrite wr_unfold.
    destruct (mvars s !! x) as [a|] eqn:Ha; [|discriminate].
    destruct (decide (k < length a)%nat); [|discriminate].
    intros [= <-]. unfold cell. simpl. rewrite lookup_insert_eq. simpl.
    by apply list_lookup_insert_eq.
  - intros y j Hne. rewrite <- (wr_cell_other x k v s y j Hne). by rewrite H.
  - revert H. rewrite wr_unfold.
    destruct (mvars s !! x) as [a|]; [|discriminate].
    destruct (decide (k < length a)%nat); [|discriminate].
    by intros [= <-].
Qed.

Lemma wr_ok x k v s :
  is_Some (cell s x k) → ∃ s', wr x k v s = (s', Ok tt).
Proof.
  unfold cell. intros [w Hw]. rewrite wr_unfold.
  destruct (mvars s !! x) as [a|]; simpl in Hw; [|discriminate].
  apply lookup_lt_Some in Hw. destruct (decide (k < length a)%nat); [eauto|lia].
Qed.

Lemma wrF_inv x k v s s' :
  wrF x k v s = (s', Ok tt) →
  ∃ f, num_of v = Some f ∧ cell s' x k = Some (VFloat f)
  ∧ (∀ y j, (y, j) ≠ (x, k) → cell s' y j = cell s y j)
  ∧ lo_model s' = lo_model s.
Proof.
  unfold wrF. intros (s1 & f & [-> Hf]%as_float_inv & Hw)%bind_inv.
  exists f. split; [done|]. by apply wr_inv.
Qed.

(** ** The storage increment *)

Lemma list_at_ok e xs k s v : xs !! k = Some v → list_at e xs k s = (s, Ok v).
Proof. intros Hv. unfold list_at. by rewrite Hv. Qed.

Lemma lift_ok {A} (a : A) s : lift (Ok a) s = (s, Ok a).
Proof. reflexivity. Qed.

(** C1. The storage increment of day [i]: with the operands of the water
    balance, floats, in their cells [i + 2], the step returns normally and
    leaves in [DSto[i + 2]] the net inflow plus rainfall minus
    evapotranspiration, plus 1.9835 times (the two backpumped inflows plus
    the two water-supply releases minus the environmental release), minus
    the east and the south regulatory releases, plus the storage deviation
    of the day, in the arithmetic of doubles and in the order of the
    source. *)
Theorem dsto_is_the_water_balance (i : nat) (lo_functions : pyobj)
    (storage_deviation : list val) (start_storage : val) (s : state)
    (ni rf et o2bk o1bk mia nnr ews ew so dev : float) :
  cell s "NI_Supply" (i + 2) = Some (VFloat ni) →
  cell s "RF" (i + 2) = Some (VFloat rf) →
  cell s "ET" (i + 2) = Some (VFloat et) →
  cell s "Outlet2USBK" (i + 2) = Some (VFloat o2bk) →
  cell s "Outlet1USBK" (i + 2) = Some (VFloat o1bk) →
  cell s "WSA_MIA" (i + 2) = Some (VFloat mia) →
  cell s "WSA_NNR" (i + 2) = Some (VFloat nnr) →
  cell s "Outlet1USEWS" (i + 2) = Some (VFloat ews) →
  cell s "TotRegEW" (i + 2) = Some (VFloat ew) →
  cell s "TotRegSo" (i + 2) = Some (VFloat so) →
  storage_deviation !! (i + 2)%nat = Some (VFloat dev) →
  is_Some (cell s "DSto" (i + 2)) →
  is_Some (cell s "DayFlags" (i + 2)) →
  is_Some (cell s "Storage" i) →
  is_Some (cell s "Storage" (i + 1)) →
  is_Some (cell s "Storage" (i + 2)) →
  ∃ s',
    _calculate_dsto_and_storage i lo_functions storage_deviation start_storage s = (s', Ok tt)
    ∧ cell s' "DSto" (i + 2)
      = Some (VFloat (ni + rf - et + 1.9835 * (o2bk + o1bk + mia + nnr - ews)
                      - ew - so + dev)%float).
Proof.
  intros Hni Hrf Het Ho2 Ho1 Hmia Hnnr Hews Hew Hso Hdev HD [fl Hfl] [s0 Hs0] [s1 Hs1] HS2.
  unfold _calculate_dsto_and_storage.
  repeat first
    [ erewrite bind_ok by (apply rd_ok; eassumption)
    | erewrite bind_ok by (apply list_at_ok; eassumption)
    | erewrite bind_ok by (apply lift_ok) ].
  destruct (wr_ok "DSto" (i + 2)
    (VFloat (ni + rf - et + 1.9835 * (o2bk + o1bk + mia + nnr - ews) - ew - so + dev)%float)
    s HD) as [sa Hwa].
  erewrite bind_ok by exact Hwa.
  apply wr_inv in Hwa as (Hda & Hfa & _).
  erewrite bind_ok by (apply rd_ok; rewrite Hfa by (intros [=]); exact Hfl).
  erewrite bind_ok by (apply rd_ok; rewrite Hfa by (intros [=]); exact Hs0).
  erewrite bind_ok by (apply rd_ok; rewrite Hfa by (intros [=]); exact Hs1).
  erewrite bind_ok by (apply rd_ok; exact Hda).
  destruct (wr_ok "Storage" (i + 2)
    (lo_functions "Storage"
       [fl; s0; start_storage; s1;
        VFloat (ni + rf - et + 1.9835 * (o2bk + o1bk + mia + nnr - ews) - ew - so + dev)%float])
    sa) as [sb Hwb].
  { rewrite Hfa by (intros [=]). exact HS2. }
  exists sb. split; [exact Hwb|].
  apply wr_inv in Hwb as (_ & Hfb & _).
  rewrite Hfb by (intros [=]). exact Hda.
Qed.

(** ** Floats as flags *)

Lemma is_True_b2f b : is_True (b2f b) = b.
Proof. destruct b; reflexivity. Qed.

Lemma b2f_false b : b2f b = 0%float → b = false.
Proof.
  destruct b; [|reflexivity]. intros H.
  apply (f_equal is_True) in H. vm_compute in H. discriminate.
Qed.

Lemma ltb_irrefl x : (x <? x)%float = false.
Proof.
  rewrite ltb_spec. unfold SFltb, SFcompare.
  destruct (Prim2SF x) as [[]|[]| |[] m e]; try reflexivity;
    rewrite Z.compare_refl, ?Pos.compare_cont_refl; reflexivity.
Qed.

(** ** Stepping through a run that returns normally *)

Lemma wlp_ret {A} (a : A) s (Q : A → state → Prop) : Q a s → wlp (mret a) s Q.
Proof. intros H s' a' [= <- <-]. exact H. Qed.

Lemma wlp_bind {A B} (m : M A) (f : A → M B) s (Q : B → state → Prop) :
  wlp m s (λ a s', wlp (f a) s' Q) → wlp (m ≫= f) s Q.
Proof.
  intros H s'' b (s' & a & Hm & Hf)%bind_inv. exact (H s' a Hm s'' b Hf).
Qed.

Lemma wlp_unit (m : M unit) s (P : state → Prop) :
  wlp m s (λ _ s', P s') → ∀ s', m s = (s', Ok tt) → P s'.
Proof. intros H s' Hrun. exact (H s' tt Hrun). Qed.

(** From "the run returns" to a goal about every final state. *)
Ltac wlp_start Hrun :=
  match type of Hrun with
  | (?m ?s).2 = Ok tt =>
      let s' := fresh "s'" in let r := fresh "r" in let E := fresh "E" in
      destruct (m s) as [s' r] eqn:E; simpl in Hrun |- *; subst r; revert s' E
  end.

Lemma wlp_rd x k s (Q : val → state → Prop) :
  (∀ v, cell s x k = Some v → Q v s) → wlp (rd x k) s Q.
Proof. intros H s' v [-> Hv]%rd_inv. auto. Qed.

Lemma wlp_rdF x k s (Q : float → state → Prop) :
  (∀ f, num_cell s x k = Some f → Q f s) → wlp (rdF x k) s Q.
Proof. intros H s' v [-> Hv]%rdF_inv. auto. Qed.

Lemma wlp_rdZ x k s (Q : Z → state → Prop) :
  (∀ z, cell s x k ≫= int_of = Some z → Q z s) → wlp (rdZ x k) s Q.
Proof. intros H s' v [-> Hv]%rdZ_inv. auto. Qed.

Lemma wlp_rdB x k s (Q : bool → state → Prop) :
  (∀ f, num_cell s x k = Some f → Q (is_True f) s) → wlp (rdB x k) s Q.
Proof. intros H s' v [-> (f & Hf & ->)]%rdB_inv. auto. Qed.

Lemma wlp_wr x k v s (Q : unit → state → Prop) :
  (∀ s', cell s' x k = Some v →
         (∀ y j, (y, j) ≠ (x, k) → cell s' y j = cell s y j) →
         lo_model s' = lo_model s → Q tt s') →
  wlp (wr x k v) s Q.
Proof. intros H s' [] (? & ? & ?)%wr_inv. auto. Qed.

Lemma wlp_wrF x k v s (Q : unit → state → Prop) :
  (∀ s' f, num_of v = Some f → cell s' x k = Some (VFloat f) →
           (∀ y j, (y, j) ≠ (x, k) → cell s' y j = cell s y j) →
           lo_model s' = lo_model s → Q tt s') →
  wlp (wrF x k v) s Q.
Proof. intros H s' [] (f & ? & ? & ? & ?)%wrF_inv. eauto. Qed.

Lemma wlp_wrB x k b s (Q : unit → state → Prop) :
  (∀ s', cell s' x k = Some (VFloat (b2f b)) →
         (∀ y j, (y, j) ≠ (x, k) → cell s' y j = cell s y j) →
         lo_model s' = lo_model s → Q tt s') →
  wlp (wrB x k b) s Q.
Proof. apply wlp_wr. Qed.

Lemma wlp_lift_opt {A} e (o : option A) s (Q : A → state → Prop) :
  (∀ a, o = Some a → Q a s) → wlp (lift_opt e o) s Q.
Proof. intros H s' a [-> Ha]%lift_opt_inv. auto. Qed.

Lemma wlp_lift {A} (r : result A) s (Q : A → state → Prop) :
  (∀ a, r = Ok a → Q a s) → wlp (lift r) s Q.
Proof. intros H s' a [-> Ha]%lift_inv. auto. Qed.

Lemma wlp_as_float v s (Q : float → state → Prop) :
  (∀ f, num_of v = Some f → Q f s) → wlp (as_float v) s Q.
Proof. apply wlp_lift_opt. Qed.
Lemma wlp_as_int v s (Q : Z → state → Prop) :
  (∀ z, int_of v = Some z → Q z s) → wlp (as_int v) s Q.
Proof. apply wlp_lift_opt. Qed.
Lemma wlp_as_bool v s (Q : bool → state → Prop) :
  (∀ b, bool_of v = Some b → Q b s) → wlp (as_bool v) s Q.
Proof. apply wlp_lift_opt. Qed.
Lemma wlp_as_date v s (Q : Z * Z * Z → state → Prop) :
  (∀ y m d, v = VDate y m d → Q (y, m, d) s) → wlp (as_date v) s Q.
Proof. intros H s' [[y m] d] [-> ->]%as_date_inv. auto. Qed.

Lemma wlp_getkey cfg k s (Q : val → state → Prop) :
  (∀ v, cfg !! k = Some v → Q v s) → wlp (getkey cfg k) s Q.
Proof. apply wlp_lift_opt. Qed.
Lemma wlp_getkeyF cfg k s (Q : float → state → Prop) :
  (∀ f, cfg !! k ≫= num_of = Some f → Q f s) → wlp (getkeyF cfg k) s Q.
Proof. intros H s' v [-> Hv]%getkeyF_inv. auto. Qed.
Lemma wlp_getkeyZ cfg k s (Q : Z → state → Prop) :
  (∀ z, cfg !! k ≫= int_of = Some z → Q z s) → wlp (getkeyZ cfg k) s Q.
Proof. intros H s' v [-> Hv]%getkeyZ_inv. auto. Qed.

Lemma wlp_df_atn df r c s (Q : val → state → Prop) :
  (∀ v, df_cell df (Z.of_nat r) c = Some v → Q v s) → wlp (df_atn df r c) s Q.
Proof. intros H s' v [-> Hv]%df_atn_inv. auto. Qed.
Lemma wlp_df_iloc df c k s (Q : val → state → Prop) :
  (∀ v, df_cols df !! c ≫= (λ col, col !! k) = Some v → Q v s) → wlp (df_iloc df c k) s Q.
Proof. intros H s' v [-> Hv]%df_iloc_inv. auto. Qed.
Lemma wlp_lo_at r c s (Q : val → state → Prop) :
  (∀ v, df_cell (lo_model s) (Z.of_nat r) c = Some v → Q v s) → wlp (lo_at r c) s Q.
Proof. intros H s' v [-> Hv]%lo_at_inv. auto. Qed.
Lemma wlp_data_attr d n s (Q : DataFrame → state → Prop) :
  (∀ df, d !! n = Some df → Q df s) → wlp (data_attr d n) s Q.
Proof. apply wlp_lift_opt. Qed.
Lemma wlp_list_at e xs k s (Q : val → state → Prop) :
  (∀ v, xs !! k = Some v → Q v s) → wlp (list_at e xs k) s Q.
Proof. apply wlp_lift_opt. Qed.
Lemma wlp_rd_slice x i j s (Q : list float → state → Prop) :
  (∀ w, Q w s) → wlp (rd_slice x i j) s Q.
Proof.
  intros H s' w. unfold rd_slice. rewrite bind_unfold. simpl.
  destruct (mvars s !! x); simpl; [|discriminate]. intros [= <- <-]. apply H.
Qed.

(** The side condition of a frame: two cells differ by name or by index. *)
Ltac cell_ne :=
  let H := fresh in
  intros H; injection H; intros; first [discriminate | lia].

(** Rewrites a fact about a cell down to the last write of the cell. *)
Ltac norm_cell H :=
  unfold num_cell in H;
  repeat match type of H with
  | context [cell ?s ?x ?k] =>
      first
        [ match goal with
          | Hc : cell s x k = Some _ |- _ =>
              tryif constr_eq Hc H then fail else rewrite Hc in H
          end
        | match goal with
          | Hf : ∀ y j, (y, j) ≠ _ → cell s y j = cell _ y j |- _ =>
              rewrite (Hf x k) in H by cell_ne
          end ]
  end;
  simpl in H.

Ltac norm_goal :=
  unfold num_cell;
  repeat match goal with
  | |- context [cell ?s ?x ?k] =>
      first
        [ match goal with Hc : cell s x k = Some _ |- _ => rewrite Hc end
        | match goal with
          | Hf : ∀ y j, (y, j) ≠ _ → cell s y j = cell _ y j |- _ =>
              rewrite (Hf x k) by cell_ne
          end ]
  end;
  simpl.

(** One step of a run; a fact read from a cell is normalised at once. *)
Ltac wlp_read lem :=
  let v := fresh "v" in let H := fresh "Hr" in
  apply lem; intros v H; norm_cell H; simplify_eq.
Ltac wlp_step :=
  lazymatch goal with
  | |- wlp (_ ≫= _) _ _ => apply wlp_bind
  | |- wlp (mret _) _ _ => apply wlp_ret
  | |- wlp (rd _ _) _ _ => wlp_read wlp_rd
  | |- wlp (rdF _ _) _ _ => wlp_read wlp_rdF
  | |- wlp (rdZ _ _) _ _ => wlp_read wlp_rdZ
  | |- wlp (rdB _ _) _ _ => wlp_read wlp_rdB
  | |- wlp (wr _ _ _) _ _ =>
      let s := fresh "s" in let Hc := fresh "Hc" in let Hf := fresh "Hf" in
      apply wlp_wr; intros s Hc Hf ?
  | |- wlp (wrF _ _ _) _ _ =>
      let s := fresh "s" in let Hc := fresh "Hc" in let Hf := fresh "Hf" in
      apply wlp_wrF; intros s ? ? Hc Hf ?
  | |- wlp (wrB _ _ _) _ _ =>
      let s := fresh "s" in let Hc := fresh "Hc" in let Hf := fresh "Hf" in
      apply wlp_wrB; intros s Hc Hf ?
  | |- wlp (as_float _) _ _ => apply wlp_as_float; intros ? ?
  | |- wlp (as_int _) _ _ => apply wlp_as_int; intros ? ?
  | |- wlp (as_bool _) _ _ => apply wlp_as_bool; intros ? ?
  | |- wlp (as_date _) _ _ => apply wlp_as_date; intros ? ? ? ?
  | |- wlp (getkey _ _) _ _ => apply wlp_getkey; intros ? ?
  | |- wlp (getkeyF _ _) _ _ => apply wlp_getkeyF; intros ? ?
  | |- wlp (getkeyZ _ _) _ _ => apply wlp_getkeyZ; intros ? ?
  | |- wlp (df_atn _ _ _) _ _ => apply wlp_df_atn; intros ? ?
  | |- wlp (df_iloc _ _ _) _ _ => apply wlp_df_iloc; intros ? ?
  | |- wlp (lo_at _ _) _ _ => apply wlp_lo_at; intros ? ?
  | |- wlp (data_attr _ _) _ _ => apply wlp_data_attr; intros ? ?
  | |- wlp (list_at _ _ _) _ _ => apply wlp_list_at; intros ? ?
  | |- wlp (rd_slice _ _ _) _ _ => apply wlp_rd_slice; intros ?
  | |- wlp (lift _) _ _ => apply wlp_lift; intros ? ?
  | |- wlp (lift_opt _ _) _ _ => apply wlp_lift_opt; intros ? ?
  | |- wlp (match ?p with (_, _) => _ end) _ _ => destruct p
  end.
Ltac wlp_run := repeat wlp_step; simplify_eq.

(** ** The branch codes of the decision tree *)

(** C3. When the decision-tree step of day [i] returns, the
    branch code of every zone is the positional combination of the four
    sub-indicators of the zone, with the weights 1000, 100, 10 and 1: for
    zone D tributary, stage, seasonal and multi-seasonal code; for zone C
    tributary, meteorological forecast, seasonal and multi-seasonal code; for
    zone B tributary, stage, the meteorological forecast of the table and the
    seasonal code. *)
Theorem branch_codes_are_positional (i : nat) (dec_tree_functions : pyobj)
    (tc_lonino_df : DataFrame) (config : gmap string val)
    (seasons dec_tree_df df_WSMs : DataFrame) (s : state) :
  let run := _calculate_decision_tree_variables i dec_tree_functions tc_lonino_df config
               seasons dec_tree_df df_WSMs s in
  let s' := run.1 in
  run.2 = Ok tt →
  ∃ d_trib d_stage d_seas d_mseas c_trib c_met c_seas c_mseas b_trib b_stage b_met b_seas,
    num_cell s' "Zone_D_Trib" i = Some d_trib
    ∧ num_cell s' "Zone_D_stage" i = Some d_stage
    ∧ num_cell s' "Zone_D_Seas" i = Some d_seas
    ∧ num_cell s' "Zone_D_MSeas" i = Some d_mseas
    ∧ cell s' "Zone_D_Branch_Code" i
      = Some (VFloat (d_trib * 1000 + d_stage * 100 + d_seas * 10 + d_mseas * 1)%float)
    ∧ num_cell s' "Zone_C_Trib" i = Some c_trib
    ∧ num_cell s' "Zone_C_MetFcast" i = Some c_met
    ∧ num_cell s' "Zone_C_Seas" i = Some c_seas
    ∧ num_cell s' "Zone_C_MSeas" i = Some c_mseas
    ∧ cell s' "Zone_C_Branch_Code" i
      = Some (VFloat (c_trib * 1000 + c_met * 100 + c_seas * 10 + c_mseas * 1)%float)
    ∧ num_cell s' "Zone_B_Trib" i = Some b_trib
    ∧ num_cell s' "Zone_B_Stage" i = Some b_stage
    ∧ df_cell dec_tree_df (Z.of_nat i) "Zone_B_MetFcast" ≫= num_of = Some b_met
    ∧ num_cell s' "Zone_B_Seas" i = Some b_seas
    ∧ cell s' "Zone_B_Branch_Code" i
      = Some (VFloat (b_trib * 1000 + b_stage * 100 + b_met * 10 + b_seas * 1)%float).
Proof.
  cbv zeta. intros Hrun. wlp_start Hrun. apply wlp_unit.
  unfold _calculate_decision_tree_variables.
  wlp_run.
  do 12 eexists.
  repeat split; norm_goal;
    first [ reflexivity
          | match goal with
            | H : df_cell _ _ "Zone_B_MetFcast" = Some _ |- _ => rewrite H; simpl; eassumption
            end ].
Qed.

(** ** The baseflow of the adaptive protocol *)

(** C2. When the adaptive protocol of day [i] has run: if the
    LORS baseflow-release gate [LORS08_bf_rel[i]] is false, then the combined
    gate [All_4[i]] is false; and [Post_Ap_Baseflow[i]] is zero when
    [Opt_NoAP_above_BF_SB] is 0, while for another value of the option it is
    the pre-protocol baseflow [S77BS_AP] whenever the stage-band test
    [P_AP_BF_Stg] passes, and zero otherwise. *)
Theorem lors_gate_false_baseflow (i n_rows : nat) (config : gmap string val)
    (format : val → string) (adaptive_protocol_df df_WSMs targ_stg_df : DataFrame)
    (data : gmap string DataFrame) (choose_1 : val) (opt : Z) (s : state) :
  let run := _define_thc_class_normal_or_above i n_rows config format adaptive_protocol_df
               df_WSMs targ_stg_df data choose_1 s in
  let s' := run.1 in
  (i < n_rows - 2)%nat →
  config !! "Opt_NoAP_above_BF_SB" ≫= int_of = Some opt →
  run.2 = Ok tt →
  cell s' "LORS08_bf_rel" i = Some (VFloat 0) →
  cell s' "All_4" i = Some (VFloat 0)
  ∧ ∃ zone S77BS_AP,
      num_cell s' "Lake_O_Schedule_Zone" i = Some zone
      ∧ num_cell s' "Outlet1USBS_AP" i = Some S77BS_AP
      ∧ cell s' "Post_Ap_Baseflow" i
        = Some (VFloat (if (opt =? 0)%Z then 0%float
                        else if AP_FNs.P_AP_BF_Stg zone S77BS_AP then S77BS_AP
                        else 0%float)).
Proof.
  cbv zeta. intros Hi Hopt Hrun. wlp_start Hrun. refine (wlp_unit _ _ (λ s', _ → _) _).
  unfold _define_thc_class_normal_or_above, THC_Class.
  destruct (decide (i < n_rows - 2)%nat); [|lia].
  wlp_run.
  intros HL. norm_cell HL. rewrite ?is_True_b2f in HL.
  injection HL as HL. apply b2f_false in HL.
  split; [norm_goal; rewrite ?is_True_b2f, HL; reflexivity|].
  do 2 eexists. split; [norm_goal; reflexivity|]. split; [norm_goal; reflexivity|].
  norm_goal. rewrite ?is_True_b2f, HL. do 2 f_equal.
  unfold AP_FNs.Post_Ap_Baseflow, AP_FNs.Logic_test_1, AP_FNs.All_4andStage,
    AP_FNs.All_4andStagein, AP_FNs.All_4. simpl.
  destruct (opt =? 0)%Z; simpl; [reflexivity|].
  match goal with |- context [AP_FNs.P_AP_BF_Stg ?z ?b] =>
    destruct (AP_FNs.P_AP_BF_Stg z b); reflexivity end.
Qed.

(** In the sample run the gate is false on day 0 and the baseflow of 500 cfs
    passes unchanged: it is neither min(500, 450) nor zero. *)
Lemma lors_gate_false_baseflow_unrestricted :
  ¬ (cell Sample.s_end "LORS08_bf_rel" 0 = Some (VFloat 0) →
     num_cell Sample.s_end "Outlet1USBS_AP" 0 = Some 500%float →
     cell Sample.s_end "Post_Ap_Baseflow" 0 = Some (VFloat (py_min 500 450))
     ∨ cell Sample.s_end "Post_Ap_Baseflow" 0 = Some (VFloat 0)).
Proof.
  intros H.
  assert (Hpb : cell Sample.s_end "Post_Ap_Baseflow" 0 = Some (VFloat 500))
    by (vm_compute; reflexivity).
  rewrite Hpb in H.
  destruct H as [H|H]; [vm_compute; reflexivity | vm_compute; reflexivity | |];
    apply (f_equal (λ o, match o with
                         | Some (VFloat x) => (475 <? x)%float
                         | _ => false
                         end)) in H;
    vm_compute in H; discriminate.
Qed.

Lemma lors_gate_false_baseflow_witness :
  let s := (day Sample.E_gate 4 0 Sample.s0).1 in
  let s' := (_define_thc_class_normal_or_above 0 4 Sample.cfg_gate Sample.str Sample.ap_df
               Sample.wsms (targ_stg_df Sample.E_gate) Sample.tables (VInt 450) s).1 in
  num_cell s' "Outlet1USBS_AP" 0 = Some 500%float
  ∧ cell s' "All_4" 0 = Some (VFloat 0)
  ∧ ∃ zone S77BS_AP,
      num_cell s' "Lake_O_Schedule_Zone" 0 = Some zone
      ∧ num_cell s' "Outlet1USBS_AP" 0 = Some S77BS_AP
      ∧ cell s' "Post_Ap_Baseflow" 0
        = Some (VFloat (if (0 =? 0)%Z then 0%float
                        else if AP_FNs.P_AP_BF_Stg zone S77BS_AP then S77BS_AP
                        else 0%float)).
Proof.
  cbv zeta. split; [vm_compute; reflexivity|].
  apply (lors_gate_false_baseflow 0 4 Sample.cfg_gate Sample.str Sample.ap_df Sample.wsms
           (targ_stg_df Sample.E_gate) Sample.tables (VInt 450) 0
           (day Sample.E_gate 4 0 Sample.s0).1).
  - vm_compute. lia.
  - vm_compute. reflexivity.
  - vm_compute. reflexivity.
  - vm_compute. reflexivity.
Defined.

(** ** The salinity forecast stubs *)

(** The third option is the one with an assigned value, and that value is
    the not-a-number placeholder: no real value is returned. *)
Lemma forecast_option_3_is_nan :
  ¬ (∃ v, AP_FNs.Forecast_D_Sal 3 = Ok v ∧ PrimFloat.is_nan v = false).
Proof.
  intros (v & Hv & Hnan). vm_compute in Hv.
  assert (PrimFloat.is_nan v = true) as Ht.
  { change (match Ok v with Ok x => PrimFloat.is_nan x | Raise _ => true end = true).
    rewrite <- Hv. reflexivity. }
  congruence.
Qed.

(** C4. For every option other than 3, and so for the two
    unimplemented options 1 and 2, [Forecast_D_Sal] and [n30d_mavg] raise an
    error (the local is unbound) and return nothing. For option 3 both return
    the not-a-number placeholder, which the 30-day test does not read under
    that option: it answers with the estuary-needs-water flag. *)
Theorem forecast_stubs_raise (opt : Z) (est : bool) (window : list float) (thr : float) :
  AP_FNs.Forecast_D_Sal opt = (if opt =? 3 then Ok nan else Raise UnboundLocalError)
  ∧ AP_FNs.n30d_mavg opt = (if opt =? 3 then Ok nan else Raise UnboundLocalError)
  ∧ PrimFloat.is_nan nan = true
  ∧ AP_FNs.n30davgForecast est window 3 thr = Ok est.
Proof.
  unfold AP_FNs.Forecast_D_Sal, AP_FNs.n30d_mavg.
  destruct (Z.eqb_spec opt 1) as [->|?]; [by repeat split|].
  destruct (Z.eqb_spec opt 2) as [->|?]; [by repeat split|].
  destruct (opt =? 3); by repeat split.
Qed.

(** ** The cutback sentinel *)

(** C10. Outside the zones 1 to 4 [Choose_PAPEWS_1] returns the sentinel
    -9999, and with the gate [ATHCnora] true [Post_AP_EWS] then evaluates to
    (1 - (-9999)) * Choose_PAPEWS_2 = 10000 * Choose_PAPEWS_2, unless the
    zone is 0, where it is the estuary supply [CalEst_ews]. *)
Theorem sentinel_reaches_post_ap_ews (WSM_Zone : Z) (APCB1 APCB2 APCB3 APCB4 : float)
    (Choose_PAPEWS_2 CalEst_ews : float) :
  WSM_Zone ≠ 1 → WSM_Zone ≠ 2 → WSM_Zone ≠ 3 → WSM_Zone ≠ 4 →
  AP_FNs.Choose_PAPEWS_1 WSM_Zone APCB1 APCB2 APCB3 APCB4 = (-9999)%float
  ∧ AP_FNs.Post_AP_EWS true WSM_Zone
      (AP_FNs.Choose_PAPEWS_1 WSM_Zone APCB1 APCB2 APCB3 APCB4) Choose_PAPEWS_2 CalEst_ews
    = (if (WSM_Zone =? 0)%Z then CalEst_ews else (10000 * Choose_PAPEWS_2)%float).
Proof.
  intros H1 H2 H3 H4.
  assert (AP_FNs.Choose_PAPEWS_1 WSM_Zone APCB1 APCB2 APCB3 APCB4 = (-9999)%float) as ->.
  { unfold AP_FNs.Choose_PAPEWS_1.
    rewrite (proj2 (Z.eqb_neq _ _) H1), (proj2 (Z.eqb_neq _ _) H2),
      (proj2 (Z.eqb_neq _ _) H3), (proj2 (Z.eqb_neq _ _) H4). reflexivity. }
  split; [reflexivity|].
  unfold AP_FNs.Post_AP_EWS. simpl. destruct (WSM_Zone =? 0); reflexivity.
Qed.

Lemma sentinel_reaches_post_ap_ews_witness :
  AP_FNs.Choose_PAPEWS_1 5 20 40 60 80 = (-9999)%float
  ∧ AP_FNs.Post_AP_EWS true 5 (AP_FNs.Choose_PAPEWS_1 5 20 40 60 80) 300 300
    = (if (5 =? 0)%Z then 300%float else (10000 * 300)%float).
Proof. apply sentinel_reaches_post_ap_ews; lia. Defined.

(** ** The pulse table *)



(** ** The demand not supplied *)

(** C7. On a day whose demand [LOSA_dmd_SFWMM] is zero the step stores 0 in
    [Dem_N_Sup[i + 2]] without reading the cutback and without dividing; on a
    day with another demand it stores the cutback divided by the demand,
    times 100. In both cases the step returns normally. *)
Theorem demand_not_supplied_policy (i : nat) (s : state) (dmd : val) (cut_back demand : float) :
  df_cell (lo_model s) (Z.of_nat (i + 2)) "LOSA_dmd_SFWMM" = Some dmd →
  is_Some (cell s "Dem_N_Sup" (i + 2)) →
  (if eq_num dmd 0 then True
   else num_cell s "Cut_back" (i + 2) = Some cut_back ∧ num_of dmd = Some demand) →
  ∃ s',
    _calculate_demand_not_supplied i s = (s', Ok tt)
    ∧ cell s' "Dem_N_Sup" (i + 2)
      = Some (if eq_num dmd 0 then VInt 0 else VFloat (cut_back / demand * 100)%float).
Proof.
  intros Hd HD Hcase. unfold _calculate_demand_not_supplied.
  erewrite bind_ok by (apply lo_at_ok; exact Hd).
  destruct (eq_num dmd 0).
  - rewrite bind_unfold. simpl.
    destruct (wr_ok "Dem_N_Sup" (i + 2) (VInt 0) s HD) as [s' Hw].
    exists s'. split; [exact Hw|]. by apply wr_inv in Hw as (? & _).
  - destruct Hcase as [Hcb Hdem].
    rewrite bind_unfold.
    erewrite bind_ok by (apply rdF_ok; exact Hcb).
    rewrite bind_unfold.
    erewrite (bind_ok (lo_at _ _)) by (apply lo_at_ok; exact Hd).
    unfold as_float. rewrite Hdem. simpl.
    destruct (wr_ok "Dem_N_Sup" (i + 2) (VFloat (cut_back / demand * 100)%float) s HD)
      as [s' Hw].
    exists s'. split; [exact Hw|]. by apply wr_inv in Hw as (? & _).
Qed.

(** Day 0 of the sample run has no demand, day 1 a demand of 8 and a cutback
    of 7. *)
Lemma demand_not_supplied_policy_witness :
  let s := Sample.s_end in
  (∃ s', _calculate_demand_not_supplied 0 s = (s', Ok tt)
         ∧ cell s' "Dem_N_Sup" 2 = Some (VInt 0))
  ∧ (∃ s', _calculate_demand_not_supplied 1 s = (s', Ok tt)
           ∧ cell s' "Dem_N_Sup" 3 = Some (VFloat (7 / 8 * 100)%float)).
Proof.
  cbv zeta. split.
  - apply (demand_not_supplied_policy 0 Sample.s_end (VFloat 0) 0 0).
    + vm_compute. reflexivity.
    + vm_compute. eauto.
    + vm_compute. exact I.
  - apply (demand_not_supplied_policy 1 Sample.s_end (VFloat 8) 7 8).
    + vm_compute. reflexivity.
    + vm_compute. eauto.
    + vm_compute. split; reflexivity.
Defined.

(** ** The zone ladder *)

Lemma ltb_asym x y : (x <? y)%float = true → (y <? x)%float = false.
Proof.
  rewrite !ltb_spec. unfold SFltb, SFcompare.
  destruct (Prim2SF x) as [[]|[]| |[] m e], (Prim2SF y) as [[]|[]| |[] m' e'];
    try reflexivity; try discriminate;
    change (Pos.compare_cont Eq m m') with (Pos.compare m m');
    change (Pos.compare_cont Eq m' m) with (Pos.compare m' m);
    rewrite (Z.compare_antisym e e'), (Pos.compare_antisym m m');
    destruct (e ?= e')%Z; simpl; try reflexivity; try discriminate;
    destruct (m ?= m')%positive; simpl; try reflexivity; discriminate.
Qed.

(** C9. With the thresholds in strict order, a stage equal to a threshold is
    classified in the zone below the threshold: for instance a stage equal to
    [A] is in zone 8, not 9, and a stage equal to [WSM1] in zone 1, not 2. *)
Theorem stage_on_threshold_is_lower_zone (A B C D3 D2 D1 D0 WSM1 : float) :
  descending [A; B; C; D3; D2; D1; D0; WSM1] →
  Zone_Code A A B C D3 D2 D1 D0 WSM1 = 8
  ∧ Zone_Code B A B C D3 D2 D1 D0 WSM1 = 7
  ∧ Zone_Code C A B C D3 D2 D1 D0 WSM1 = 6
  ∧ Zone_Code D3 A B C D3 D2 D1 D0 WSM1 = 5
  ∧ Zone_Code D2 A B C D3 D2 D1 D0 WSM1 = 4
  ∧ Zone_Code D1 A B C D3 D2 D1 D0 WSM1 = 3
  ∧ Zone_Code D0 A B C D3 D2 D1 D0 WSM1 = 2
  ∧ Zone_Code WSM1 A B C D3 D2 D1 D0 WSM1 = 1.
Proof.
  simpl. rewrite !Forall_cons.
  intros H. repeat match goal with H : _ ∧ _ |- _ => destruct H end.
  unfold Zone_Code. rewrite !ltb_irrefl.
  repeat match goal with
         | H : (_ <? _)%float = true |- _ =>
             pose proof (ltb_asym _ _ H); rewrite ?H; revert H
         end.
  intros.
  repeat match goal with H : (_ <? _)%float = false |- _ => rewrite ?H; clear H end.
  repeat split.
Qed.

Lemma stage_on_threshold_is_lower_zone_witness :
  Zone_Code 17 17 16 15 14 13 12 11 10.5 = 8
  ∧ Zone_Code 16 17 16 15 14 13 12 11 10.5 = 7
  ∧ Zone_Code 15 17 16 15 14 13 12 11 10.5 = 6
  ∧ Zone_Code 14 17 16 15 14 13 12 11 10.5 = 5
  ∧ Zone_Code 13 17 16 15 14 13 12 11 10.5 = 4
  ∧ Zone_Code 12 17 16 15 14 13 12 11 10.5 = 3
  ∧ Zone_Code 11 17 16 15 14 13 12 11 10.5 = 2
  ∧ Zone_Code 10.5 17 16 15 14 13 12 11 10.5 = 1.
Proof.
  apply stage_on_threshold_is_lower_zone. simpl. rewrite !Forall_cons.
  repeat split; first [ reflexivity | apply Forall_nil_2 ].
Defined.

(** ** The cells of a day *)

Create HintDb frames discriminated.
#[local] Hint Resolve ww_calculate_wsm_zone ww_calculate_max_supply ww_calculate_losa_supply
  ww_calculate_ni_supply ww_calculate_cutback ww_calculate_demand_not_supplied
  ww_calculate_zone_code ww_generate_zone_column ww_calculate_decision_tree_variables
  ww_calculate_release_levels ww_calculate_zone_codes ww_calculate_release_level_codes
  ww_calculate_relevel_code_3_s77 ww_calculate_outlet2ds_mult ww_calculate_outlet2dsrs
  ww_calculate_outlet2dsbs ww_calculate_outlet2usbk ww_calculate_outlet2usrg_code
  ww_calculate_outlet2ds ww_calculate_outlet1us_mult ww_calculate_outlet1us_mult_2
  ww_calculate_outlet1usrs ww_calculate_sum_outlet1usrs ww_calculate_outlet1usbk
  ww_calculate_rowest ww_calculate_outlet1dsbs ww_calculate_outlet1usbs
  ww_calculate_outlet1usbsap ww_calculate_outlet1usews ww_define_thc_class_normal_or_above
  ww_calculate_outlet1usreg ww_calculate_outlet1ds ww_calculate_tot_reg_ew
  ww_calculate_choose_wca ww_calculate_choose_l8c51 ww_calculate_tot_reg_so
  ww_calculate_stage2ar_and_stage2marsh ww_calculate_rf_and_et ww_calculate_wsa
  ww_calculate_dsto_and_storage ww_calculate_lake_stage : frames.

(** Iteration [i] of the loop writes cells of day [i] only. *)
Lemma day_writes_its_cells (E : env) (n_rows i : nat) :
  writes_within (day_cells i) (day E n_rows i).
Proof.
  unfold day. cbv zeta.
  repeat first
    [ solve [auto with frames]
    | apply ww_keeps; solve [auto with keeps]
    | apply ww_bind; [| intros ?] ].
Qed.

(** The cells of two different days are different cells. *)
Lemma day_cells_disjoint (i j : nat) (x : string) (k : nat) :
  i ≠ j → day_cells i x k → ¬ day_cells j x k.
Proof.
  intros Hij (d & Hd & ->) (d' & Hd' & Heq).
  rewrite Hd in Hd'. injection Hd' as <-. lia.
Qed.

(** The loop over the days [start, start + n) writes cells of those days. *)
Lemma for_range_from_frame (W : nat → string → nat → Prop) (body : nat → M unit) n :
  (∀ j, writes_within (W j) (body j)) →
  ∀ start,
    writes_within (λ x k, ∃ j, (start ≤ j < start + n)%nat ∧ W j x k)
      (for_range_from start n body).
Proof.
  intros Hbody. induction n as [|n IH]; intros start; simpl.
  - apply ww_ret.
  - apply ww_bind.
    + eapply ww_mono; [|apply Hbody]. intros x k HW. exists start. split; [lia | exact HW].
    + intros _. eapply ww_mono; [|apply (IH (S start))].
      intros x k (j & Hj & HW). exists j. split; [lia | exact HW].
Qed.

(** C8. Two iterations [i < j] of the daily loop never write the same cell:
    iteration [i] writes cells of day [i] only (every array at its fixed day
    offset), and every such cell, in whatever state iteration [j] starts and
    whether or not it runs to its end, holds after iteration [j] what it held
    before. *)
Theorem later_iterations_keep_the_cells_of_a_day (E : env) (n_rows i j : nat)
    (x : string) (k : nat) (s : state) :
  (i < j)%nat →
  day_cells i x k →
  cell (day E n_rows j s).1 x k = cell s x k
  ∧ ∀ s0 y l, cell (day E n_rows i s0).1 y l ≠ cell s0 y l → day_cells i y l.
Proof.
  intros Hij Hcell. split.
  - apply day_writes_its_cells. apply (day_cells_disjoint i j); [lia | exact Hcell].
  - intros s0 y l Hne.
    destruct (lag y) as [d|] eqn:Hd.
    + destruct (decide (l = i + d)%nat) as [->|Hl]; [by exists d|].
      exfalso. apply Hne. apply day_writes_its_cells.
      intros (d' & Hd' & ->). rewrite Hd in Hd'. injection Hd' as <-. lia.
    + exfalso. apply Hne. apply day_writes_its_cells.
      intros (d' & Hd' & _). congruence.
Qed.

Lemma later_iterations_keep_the_cells_of_a_day_witness :
  cell (day Sample.E 4 0 Sample.s0).1 "DSto" 2 = Some (VFloat 131.01650000000001)
  ∧ cell (day Sample.E 4 1 (day Sample.E 4 0 Sample.s0).1).1 "DSto" 2
    = cell (day Sample.E 4 0 Sample.s0).1 "DSto" 2.
Proof.
  split; [vm_compute; reflexivity|].
  apply (later_iterations_keep_the_cells_of_a_day Sample.E 4 0 1 "DSto" 2).
  - lia.
  - exists 2%nat. split; reflexivity.
Defined.

(** ** The tail of the adaptive protocol *)

Lemma elem_of_AP_arrays_lag x : x ∈ AP_arrays → lag x = Some 0%nat.
Proof.
  intros Hx. unfold lag. rewrite bool_decide_eq_true_2; [reflexivity|].
  apply elem_of_cons. right. apply elem_of_app. by right.
Qed.

(** The arrays of the adaptive protocol are created with [Count_AP] zeros. *)
Lemma M_var_AP_cell forecast today sd ed tc lc mn x k :
  let startdate := if forecast : bool then today else sd in
  let enddate := if forecast then today + 15 else ed in
  x ∈ AP_arrays → (k < date_range_len startdate enddate)%nat →
  M_var forecast today sd ed tc lc mn !! x ≫= (λ a, a !! k) = Some (VFloat 0).
Proof.
  cbv zeta. intros Hx Hk. unfold M_var.
  set (n := date_range_len _ _) in *.
  set (m := date_range_len _ _).
  assert (∀ a, zeros n = a → (list_to_map
    (alloc weekly_arrays (zeros tc) ++ alloc monthly_arrays (zeros lc)
     ++ alloc lonino_arrays (zeros mn) ++ alloc season_arrays a
     ++ alloc row_arrays (zeros_object m) ++ alloc percentile_arrays a
     ++ alloc tree_arrays a ++ alloc AP_arrays a) : gmap string (list val)) !! x = Some a)
    as Hlook.
  { intros a _. generalize (zeros tc) (zeros lc) (zeros mn) (zeros_object m).
    intros a1 a2 a3 a4.
    unfold AP_arrays in Hx. rewrite !elem_of_cons in Hx. rewrite elem_of_nil in Hx.
    repeat (destruct Hx as [->|Hx]; [vm_compute; reflexivity|]). destruct Hx. }
  rewrite (Hlook _ eq_refl). simpl. unfold zeros. by apply lookup_replicate_2.
Qed.

Lemma AP_arrays_not_initialised : Forall (λ x, x ∉ init_arrays) AP_arrays.
Proof. apply (bool_decide_unpack _). vm_compute. exact I. Qed.

(** Decides a closed statement, such as the membership of a name in a list. *)
Ltac decide_closed := apply (bool_decide_unpack _); vm_compute; exact I.

Ltac ww_init_step :=
  match goal with
  | |- writes_within _ (wr _ _ _) => apply ww_wr; decide_closed
  | |- writes_within _ (_ ≫= _) => apply ww_bind; [| intros ?]
  | |- writes_within _ _ => apply ww_keeps; solve [auto with keeps]
  end.

Lemma ww_initialize cfg sd bd :
  writes_within (λ x _, x ∈ init_arrays)
    (_initialize_model_variables_stage_levels_flags cfg sd bd).
Proof.
  unfold _initialize_model_variables_stage_levels_flags. repeat ww_init_step.
Qed.

Lemma ww_initial_zone lf df :
  writes_within (λ x _, x ∈ init_arrays) (_calculate_initial_zone_code_and_lo_zone lf df).
Proof. unfold _calculate_initial_zone_code_and_lo_zone. repeat ww_init_step. Qed.

(** What a run can write: the initialised arrays and the cells of the days
    of the loop. *)
Lemma LOONE_Q_frame (E : env) (s : state) (x : string) (k : nat) :
  x ∉ init_arrays →
  (∀ j, (j < df_len (lo_model s) - 2)%nat → ¬ day_cells j x k) →
  cell (LOONE_Q E s).1 x k = cell s x k.
Proof.
  intros Hx Hk. unfold LOONE_Q. rewrite bind_unfold. simpl.
  set (n := df_len (lo_model s)) in *.
  assert (writes_within
            (λ x k, x ∈ init_arrays ∨ ∃ j, (0 ≤ j < 0 + (n - 2))%nat ∧ day_cells j x k)
            (_initialize_model_variables_stage_levels_flags (config E) (startdate E)
               (begdateCS E);;
             _calculate_initial_zone_code_and_lo_zone (lo_functions E) (df_WSMs E);;
             for_range (n - 2) (day E n))) as Hww.
  { apply ww_bind; [eapply ww_mono; [|apply ww_initialize]; simpl; auto|]. intros _.
    apply ww_bind; [eapply ww_mono; [|apply ww_initial_zone]; simpl; auto|]. intros _.
    eapply ww_mono; [|apply (for_range_from_frame day_cells (day E n) (n - 2))].
    - simpl. auto.
    - intros j. apply day_writes_its_cells. }
  apply Hww. intros [H|(j & Hj & H)]; [exact (Hx H)|]. apply (Hk j); [lia | exact H].
Qed.

(** C5. The adaptive protocol runs only for a loop index [i < n_rows - 2]:
    for any other index the step does nothing. And the cells of its arrays
    that no iteration reaches, those from index [n_rows - 2] on, hold at the
    end of the run the zero (false) they were created with, whether the run
    ends normally or not. [Count_AP] is the length of the arrays: with
    [n_rows = Count_AP + 1] the cell concerned is the last one. *)
Theorem adaptive_protocol_tail_keeps_defaults (E : env)
    (forecast : bool) (today start_date_entry end_date_entry : Z)
    (TC_Count LONINO_Count month_n : nat) (lo : DataFrame) (x : string) (k : nat) :
  let startdate := if forecast then today else start_date_entry in
  let enddate := if forecast then today + 15 else end_date_entry in
  let Count_AP := date_range_len startdate enddate in
  let n_rows := df_len lo in
  let s0 :=
    mkState (M_var forecast today start_date_entry end_date_entry TC_Count LONINO_Count month_n)
      lo in
  x ∈ AP_arrays →
  (n_rows - 2 ≤ k)%nat →
  (k < Count_AP)%nat →
  (∀ i s cfg fmt ap wsms targ d ch,
      (n_rows - 2 ≤ i)%nat →
      _define_thc_class_normal_or_above i n_rows cfg fmt ap wsms targ d ch s = (s, Ok tt))
  ∧ cell (LOONE_Q E s0).1 x k = Some (VFloat 0).
Proof.
  cbv zeta. intros Hx Hlo Hhi. split.
  - intros i s cfg fmt ap wsms targ d ch Hi. unfold _define_thc_class_normal_or_above.
    destruct (decide (i < df_len lo - 2)%nat); [lia | reflexivity].
  - rewrite LOONE_Q_frame.
    + unfold cell. cbn [mvars]. apply M_var_AP_cell; assumption.
    + exact (proj1 (Forall_forall _ _) AP_arrays_not_initialised x Hx).
    + cbn [lo_model]. intros j Hj (d & Hd & ->).
      rewrite (elem_of_AP_arrays_lag x Hx) in Hd. injection Hd as <-. lia.
Qed.

Lemma adaptive_protocol_tail_keeps_defaults_witness :
  (∀ i s cfg fmt ap wsms targ d ch,
      (4 - 2 ≤ i)%nat →
      _define_thc_class_normal_or_above i 4 cfg fmt ap wsms targ d ch s = (s, Ok tt))
  ∧ cell (LOONE_Q Sample.E Sample.s0).1 "Post_Ap_Baseflow" 2 = Some (VFloat 0).
Proof.
  apply (adaptive_protocol_tail_keeps_defaults Sample.E false 0 2 4 1 1 12 Sample.lo_model0
           "Post_Ap_Baseflow" 2).
  - apply (bool_decide_unpack _). vm_compute. exact I.
  - vm_compute. lia.
  - vm_compute. lia.
Defined.

(** The operands are those of day 0 of the sample run. *)
Lemma dsto_is_the_water_balance_witness :
  ∃ s',
    _calculate_dsto_and_storage 0 Sample.lo_fns (storage_deviation Sample.E) (VFloat 4000000)
      Sample.s_end = (s', Ok tt)
    ∧ cell s' "DSto" 2
      = Some (VFloat (99 + 30 - 1 + 1.9835 * (1 + 1 + 1 + 1 - 1)
                      - (1 + 1) * 1.9835 - (1 + 1) * 1.9835 + 5)%float).
Proof.
  apply (dsto_is_the_water_balance 0 Sample.lo_fns (storage_deviation Sample.E)
           (VFloat 4000000) Sample.s_end 99 30 1 1 1 1 1 1
           ((1 + 1) * 1.9835)%float ((1 + 1) * 1.9835)%float 5);
    vm_compute; first [ reflexivity | eauto ].
Defined.

(** In the sample run the sub-indicators of zone B on day 0 are tributary 1,
    stage 2, seasonal 1, and the forecast of the table is 3: the branch code
    is 1231, which is not 1000 * 1 + 100 * 2 + 10 * 1 plus a multi-seasonal
    code between 0 and 9. *)
Lemma zone_B_code_is_not_seasonal_then_multiseasonal :
  let s := (_calculate_decision_tree_variables 0 Sample.tree_fns Sample.lonino Sample.cfg
              (seasons Sample.E) (dec_tree_df Sample.E) Sample.wsms Sample.s0).1 in
  ¬ (∃ (trib stage seasonal : float) (multiseasonal : Z),
       num_cell s "Zone_B_Trib" 0 = Some trib
       ∧ num_cell s "Zone_B_Stage" 0 = Some stage
       ∧ num_cell s "Zone_B_Seas" 0 = Some seasonal
       ∧ 0 ≤ multiseasonal ≤ 9
       ∧ cell s "Zone_B_Branch_Code" 0
         = Some (VFloat (trib * 1000 + stage * 100 + seasonal * 10
                         + Z2f multiseasonal * 1)%float)).
Proof.
  cbv zeta. intros (trib & stage & seasonal & m & Ht & Hs & Hse & Hm & Hcode).
  vm_compute in Ht. vm_compute in Hs. vm_compute in Hse.
  apply (inj Some) in Ht, Hs, Hse. subst trib stage seasonal.
  assert (cell (_calculate_decision_tree_variables 0 Sample.tree_fns Sample.lonino Sample.cfg
              (seasons Sample.E) (dec_tree_df Sample.E) Sample.wsms Sample.s0).1
            "Zone_B_Branch_Code" 0 = Some (VFloat 1231)) as Hrun
    by (vm_compute; reflexivity).
  rewrite Hrun in Hcode. clear Hrun.
  apply (f_equal (λ o, match o with
                       | Some (VFloat x) => (1225 <? x)%float
                       | _ => false
                       end)) in Hcode.
  assert (m = 0 ∨ m = 1 ∨ m = 2 ∨ m = 3 ∨ m = 4 ∨ m = 5 ∨ m = 6 ∨ m = 7 ∨ m = 8 ∨ m = 9)
    as Hcases by lia.
  repeat (destruct Hcases as [->|Hcases]; [vm_compute in Hcode; discriminate|]).
  subst m. vm_compute in Hcode. discriminate.
Qed.

Lemma branch_codes_are_positional_witness :
  let run := _calculate_decision_tree_variables 0 Sample.tree_fns Sample.lonino Sample.cfg
               (seasons Sample.E) (dec_tree_df Sample.E) Sample.wsms Sample.s0 in
  run.2 = Ok tt
  ∧ cell run.1 "Zone_D_Branch_Code" 0 = Some (VFloat (1 * 1000 + 2 * 100 + 3 * 10 + 4 * 1))
  ∧ cell run.1 "Zone_C_Branch_Code" 0 = Some (VFloat (1 * 1000 + 2 * 100 + 3 * 10 + 4 * 1))
  ∧ cell run.1 "Zone_B_Branch_Code" 0 = Some (VFloat (1 * 1000 + 2 * 100 + 3 * 10 + 1 * 1)).
Proof.
  cbv zeta.
  assert ((_calculate_decision_tree_variables 0 Sample.tree_fns Sample.lonino Sample.cfg
             (seasons Sample.E) (dec_tree_df Sample.E) Sample.wsms Sample.s0).2 = Ok tt)
    as Hrun by (vm_compute; reflexivity).
  split; [exact Hrun|].
  destruct (branch_codes_are_positional 0 Sample.tree_fns Sample.lonino Sample.cfg
              (seasons Sample.E) (dec_tree_df Sample.E) Sample.wsms Sample.s0 Hrun)
    as (dt & ds & dse & dm & ct & cm & cse & cms & bt & bs & bm & bse
        & H1 & H2 & H3 & H4 & HD & H5 & H6 & H7 & H8 & HC & H9 & H10 & H11 & H12 & HB).
  vm_compute in H1, H2, H3, H4, H5, H6, H7, H8, H9, H10, H11, H12.
  apply (inj Some) in H1, H2, H3, H4, H5, H6, H7, H8, H9, H10, H11, H12.
  subst. rewrite HD, HC, HB. repeat split.
Defined.

(** * Further properties of the code *)

(** ** Comparisons of floats *)

Lemma ltb_leb x y : (x <? y)%float = true → (x <=? y)%float = true.
Proof.
  rewrite FloatAxioms.ltb_spec, FloatAxioms.leb_spec. unfold SFltb, SFleb.
  destruct (SFcompare (Prim2SF x) (Prim2SF y)) as [[]|]; congruence.
Qed.

Lemma SFcompare_refl_finite s m e :
  SFcompare (S754_finite s m e) (S754_finite s m e) = Some Eq.
Proof.
  unfold SFcompare. rewrite Z.compare_refl.
  change (PosDef.Pos.compare_cont Eq m m) with (Pos.compare m m).
  rewrite Pos.compare_refl. destruct s; reflexivity.
Qed.

Lemma leb_refl x : PrimFloat.is_nan x = false → (x <=? x)%float = true.
Proof.
  unfold PrimFloat.is_nan. rewrite FloatAxioms.eqb_spec, FloatAxioms.leb_spec. unfold SFeqb, SFleb.
  destruct (Prim2SF x) as [[]|[]| |s m e]; try reflexivity; try discriminate.
  by rewrite SFcompare_refl_finite.
Qed.

Lemma ltb_nan_l x y : PrimFloat.is_nan x = true → (x <? y)%float = false.
Proof.
  unfold PrimFloat.is_nan. rewrite FloatAxioms.eqb_spec, FloatAxioms.ltb_spec. unfold SFeqb, SFltb.
  destruct (Prim2SF x) as [[]|[]| |s m e]; try reflexivity; try discriminate.
  rewrite SFcompare_refl_finite. discriminate.
Qed.

Lemma ltb_nan_r x y : PrimFloat.is_nan y = true → (x <? y)%float = false.
Proof.
  unfold PrimFloat.is_nan. rewrite FloatAxioms.eqb_spec, FloatAxioms.ltb_spec. unfold SFeqb, SFltb.
  destruct (Prim2SF y) as [[]|[]| |s m e]; try discriminate;
    [destruct (Prim2SF x) as [[]|[]| |[] ? ?]; reflexivity|].
  rewrite SFcompare_refl_finite. discriminate.
Qed.

Lemma leb_not_nan x y : (x <=? y)%float = true → PrimFloat.is_nan y = false.
Proof.
  intros H. destruct (PrimFloat.is_nan y) eqn:Hn; [|reflexivity].
  revert Hn H. unfold PrimFloat.is_nan. rewrite FloatAxioms.eqb_spec, FloatAxioms.leb_spec. unfold SFeqb, SFleb.
  destruct (Prim2SF y) as [[]|[]| |s m e]; try discriminate;
    [destruct (Prim2SF x) as [[]|[]| |[] ? ?]; discriminate|].
  rewrite SFcompare_refl_finite. discriminate.
Qed.

(** [max(0, x)] is never negative and never not-a-number. *)
Lemma py_max_0_nonneg x : (0 <=? py_max 0 x)%float = true.
Proof.
  unfold py_max. destruct (0 <? x)%float eqn:H; [by apply ltb_leb | reflexivity].
Qed.

(** ** More on runs *)

Lemma bind_raises_l {A B} (m : M A) (f : A → M B) s e :
  (m s).2 = Raise e → ((m ≫= f) s).2 = Raise e.
Proof. rewrite bind_unfold. destruct (m s) as [s' [a|e']]; simpl; [discriminate | by intros [= ->]]. Qed.


Lemma wlp_const {A} (m : M A) s (P : Prop) : P → wlp m s (λ _ _, P).
Proof. intros H s' a _. exact H. Qed.

Lemma wlp_mono {A} (m : M A) s (Q Q' : A → state → Prop) :
  wlp m s Q → (∀ a s', Q a s' → Q' a s') → wlp m s Q'.
Proof. intros H HQ s' a Hm. apply HQ, H, Hm. Qed.

(** A step whose outcome does not matter for what follows. *)
Lemma wlp_skip {A B} (m : M A) (f : A → M B) s (Q : B → state → Prop) :
  (∀ a s', wlp (f a) s' Q) → wlp (m ≫= f) s Q.
Proof. intros H. apply wlp_bind. intros s' a _. apply H. Qed.


Lemma wlp_global {A} (g : option A) s (Q : A → state → Prop) :
  (∀ a, g = Some a → Q a s) → wlp (global g) s Q.
Proof. apply wlp_lift_opt. Qed.


(** ** A horizon of less than three rows *)





(** ** The adaptive protocol of one day, rule by rule *)

Lemma col_lookup_bind {A} (m : option (list val)) (i : nat) v (f : val → option A) a :
  m ≫= (λ col, col !! i) = Some v → f v = Some a →
  m ≫= (λ col, col !! i ≫= f) = Some a.
Proof. destruct m; simpl; [|discriminate]. by intros ->. Qed.

(** What the adaptive protocol of day [i] leaves in its arrays when it
    returns: every cell holds the value of its rule of [AP_FNs] on the
    inputs of the day; a flag is stored as 1.0 or 0.0. *)
Lemma thc_step_cells (i n_rows : nat) (config : gmap string val) (format : val → string)
    (adaptive_protocol_df df_WSMs targ_stg_df : DataFrame) (data : gmap string DataFrame)
    (choose_1 : val) (s : state) :
  (i < n_rows - 2)%nat →
  wlp (_define_thc_class_normal_or_above i n_rows config format adaptive_protocol_df
         df_WSMs targ_stg_df data choose_1) s
    (λ _ s',
       ∃ (thc thr stage zone : float) (month : Z) (wsm1 targ : float) (opt_line low_chance : Z)
         (rs bs : float) (est lds : bool) (lds_opt opt_noap opt_ce opt_byp : Z)
         (ch1 : float) (wz : Z) (cb1 cb2 cb3 cb4 cal c2 : float),
         let T := AP_FNs.THC_Class_normal_or_above thc thr in
         let L := AP_FNs.LStgCorres month wsm1 targ opt_line low_chance in
         let LC := AP_FNs.LowChance_Check stage L in
         let LORS := AP_FNs.LORS08_bf_rel bs est in
         let LD := AP_FNs.LDS_LC6_1 lds LC lds_opt in
         let A4 := AP_FNs.All_4 LORS LD in
         let Sa := AP_FNs.Sabf zone in
         let A4S := AP_FNs.All_4andStage A4 Sa in
         let A4Si := AP_FNs.All_4andStagein A4 Sa in
         let P := AP_FNs.P_AP_BF_Stg zone bs in
         let LT := AP_FNs.Logic_test_1 A4S P opt_noap in
         let PB := AP_FNs.Post_Ap_Baseflow LT bs A4Si ch1 in
         let SP := AP_FNs.S77RSplusPreAPS77bsf (rs + bs) zone opt_ce in
         let AEN := AP_FNs.AndEstNeedsLakeWater est SP in
         let ALC := AP_FNs.AndLowChance61stagelessth11 LD AEN in
         let AT := AP_FNs.ATHCnora ALC T lds opt_byp in
         let C1 := AP_FNs.Choose_PAPEWS_1 wz cb1 cb2 cb3 cb4 in
         let PE := AP_FNs.Post_AP_EWS AT wz C1 c2 cal in
         (* the inputs of the day *)
         (num_cell s "Lake_Stage" (i + 1) = Some stage
          ∧ num_cell s "Zone_Code" (i + 1) = Some zone
          ∧ num_cell s "Outlet1USRS" (i + 2) = Some rs
          ∧ num_cell s "Outlet1USBS" (i + 2) = Some bs
          ∧ cell s "WSM_Zone" (i + 2) ≫= int_of = Some wz
          ∧ num_of choose_1 = Some ch1
          ∧ (∃ needs, data !! "Estuary_needs_water" = Some needs
               ∧ df_cols needs !! "Estuary Needs Water?" ≫= (λ col, col !! i ≫= bool_of)
                 = Some est)
          ∧ df_cols adaptive_protocol_df !! "Late_Dry_Season" ≫= (λ col, col !! i ≫= bool_of)
            = Some lds
          ∧ df_cols adaptive_protocol_df !! "Tributary Hydrologic Condition"
            ≫= (λ col, col !! i ≫= num_of) = Some thc)
         (* the options *)
         ∧ (config !! "OptSalFcast" ≫= int_of = Some 3
            ∧ config !! "Opt_NoAP_above_BF_SB" ≫= int_of = Some opt_noap
            ∧ config !! "Opt_CEews_LOWSM" ≫= int_of = Some opt_ce
            ∧ config !! "Opt_THCbypLateDS" ≫= int_of = Some opt_byp
            ∧ config !! "Late_Dry_Season_Option" ≫= int_of = Some lds_opt
            ∧ config !! "CalEst_ews" ≫= num_of = Some cal
            ∧ AP_FNs.Choose_PAPEWS_2 opt_ce cal = Ok c2)
         (* the cells of the day *)
         ∧ (cell s' "THC_Class_normal_or_above" i = Some (VFloat (b2f T))
            ∧ cell s' "Lake_O_Stage_AP" i = Some (VFloat stage)
            ∧ cell s' "Lake_O_Schedule_Zone" i = Some (VFloat zone)
            ∧ cell s' "LStgCorres" i = Some (VFloat L)
            ∧ cell s' "LowChance_Check" i = Some (VFloat (b2f LC))
            ∧ cell s' "Outlet1USRS_AP" i = Some (VFloat rs)
            ∧ cell s' "Outlet1USBS_AP" i = Some (VFloat bs)
            ∧ cell s' "Outlet1USRS_Pre_AP_S77_Baseflow" i = Some (VFloat (rs + bs)))
         ∧ (cell s' "Forecast_D_Sal" i = Some (VFloat nan)
            ∧ cell s' "n30d_mavg" i = Some (VFloat nan)
            ∧ cell s' "n30davgForecast" i = Some (VFloat (b2f est))
            ∧ cell s' "LORS08_bf_rel" i = Some (VFloat (b2f LORS))
            ∧ cell s' "LDS_LC6_1" i = Some (VFloat (b2f LD))
            ∧ cell s' "S_O" i = Some (VFloat (AP_FNs.S_O LD bs))
            ∧ cell s' "All_4" i = Some (VFloat (b2f A4))
            ∧ cell s' "Sabf" i = Some (VFloat (b2f Sa))
            ∧ cell s' "Swbf" i = Some (VFloat (b2f (AP_FNs.Swbf zone)))
            ∧ cell s' "Swbu" i = Some (VFloat (b2f (AP_FNs.Swbu zone))))
         ∧ (cell s' "All_4andStage" i = Some (VFloat (b2f A4S))
            ∧ cell s' "All_4andStagein" i = Some (VFloat (b2f A4Si))
            ∧ cell s' "P_AP_BF_Stg" i = Some (VFloat (b2f P))
            ∧ cell s' "Logic_test_1" i = Some (VFloat (b2f LT))
            ∧ cell s' "Post_Ap_Baseflow" i = Some (VFloat PB)
            ∧ cell s' "Outlet1USRSplusPreAPS77bsf" i = Some (VFloat (b2f SP))
            ∧ cell s' "AndEstNeedsLakeWater" i = Some (VFloat (b2f AEN))
            ∧ cell s' "AndLowChance61stagelessth11" i = Some (VFloat (b2f ALC))
            ∧ cell s' "ATHCnora" i = Some (VFloat (b2f AT))
            ∧ cell s' "Choose_PAPEWS_1" i = Some (VFloat C1)
            ∧ cell s' "Choose_PAPEWS_2" i = Some (VFloat c2)
            ∧ cell s' "Post_AP_EWS" i = Some (VFloat PE)
            ∧ cell s' "Post_AP_Baseflow_EWS_cfs" i = Some (VFloat (PB + PE)))).
Proof.
  intros Hi. unfold _define_thc_class_normal_or_above, THC_Class.
  destruct (decide (i < n_rows - 2)%nat); [|lia].
  wlp_run.
  match goal with
  | H : AP_FNs.Forecast_D_Sal ?z = Ok _, H' : AP_FNs.n30d_mavg ?z = Ok _,
    H'' : AP_FNs.n30davgForecast _ _ ?z _ = Ok _ |- _ =>
      assert (z = 3) as ->
        by (revert H; unfold AP_FNs.Forecast_D_Sal;
            destruct (Z.eqb_spec z 1); [discriminate|];
            destruct (Z.eqb_spec z 2); [discriminate|];
            destruct (Z.eqb_spec z 3); [done | discriminate]);
      vm_compute in H, H'; unfold AP_FNs.n30davgForecast in H''; simpl in H''; simplify_eq
  end.
  do 25 eexists. cbv zeta.
  split.
  { repeat split; norm_goal; try eassumption.
    - eexists. split; [eassumption|]. eapply col_lookup_bind; eassumption.
    - eapply col_lookup_bind; eassumption.
    - eapply col_lookup_bind; eassumption. }
  split; [repeat split; eassumption|].
  repeat split; norm_goal; rewrite ?is_True_b2f; reflexivity.
Qed.

(** From "the run returns" to its final state. *)
Lemma wlp_run_ok {A} (m : M A) s (Q : A → state → Prop) a :
  wlp m s Q → (m s).2 = Ok a → Q a (m s).1.
Proof. intros H Hr. destruct (m s) as [s' r] eqn:E. simpl in *. subst r. by apply H. Qed.

(** X2. No environmental water supply without need. When the protocol of
    day [i] returns, the flag [n30davgForecast[i]] is the entry of the day in
    the table [Estuary Needs Water?], and if it is false, or if the low-chance
    flag [LDS_LC6_1[i]] is false, then [Post_AP_EWS[i]] is 0, for every value
    of the options and of the water-shortage zone. *)
Theorem no_supply_without_need (i n_rows : nat) (config : gmap string val)
    (format : val → string) (adaptive_protocol_df df_WSMs targ_stg_df : DataFrame)
    (data : gmap string DataFrame) (choose_1 : val) (s : state) :
  let run := _define_thc_class_normal_or_above i n_rows config format adaptive_protocol_df
               df_WSMs targ_stg_df data choose_1 s in
  let s' := run.1 in
  (i < n_rows - 2)%nat →
  run.2 = Ok tt →
  ∃ (needs : DataFrame) (need low_chance : bool) (ews : float),
    data !! "Estuary_needs_water" = Some needs
    ∧ df_cols needs !! "Estuary Needs Water?" ≫= (λ col, col !! i ≫= bool_of) = Some need
    ∧ cell s' "n30davgForecast" i = Some (VFloat (b2f need))
    ∧ cell s' "LDS_LC6_1" i = Some (VFloat (b2f low_chance))
    ∧ cell s' "Post_AP_EWS" i = Some (VFloat ews)
    ∧ (need && low_chance = false → ews = 0%float).
Proof.
  cbv zeta. intros Hi Hrun.
  destruct (wlp_run_ok _ _ _ _ (thc_step_cells i n_rows config format adaptive_protocol_df
              df_WSMs targ_stg_df data choose_1 s Hi) Hrun)
    as (thc & thr & stage & zone & month & wsm1 & targ & opt_line & low_chance & rs & bs
        & est & lds & lds_opt & opt_noap & opt_ce & opt_byp & ch1 & wz & cb1 & cb2 & cb3
        & cb4 & cal & c2 & H).
  cbv zeta in H. destruct H as ((_ & _ & _ & _ & _ & _ & (needs & Hn & He) & _) & _ & _ & H1 & H2).
  exists needs. do 3 eexists. split; [exact Hn|]. split; [exact He|].
  split; [apply H1|]. split; [apply H1|]. split; [apply H2|].
  generalize (AP_FNs.LDS_LC6_1 lds
                (AP_FNs.LowChance_Check stage
                   (AP_FNs.LStgCorres month wsm1 targ opt_line low_chance)) lds_opt).
  intros ld Hnl.
  unfold AP_FNs.Post_AP_EWS, AP_FNs.ATHCnora, AP_FNs.AndLowChance61stagelessth11,
    AP_FNs.AndEstNeedsLakeWater.
  destruct est, ld; try discriminate; simpl; rewrite ?andb_false_r; simpl;
    by destruct (opt_byp =? 1)%Z.
Qed.

Lemma no_supply_without_need_witness :
  let s' := (_define_thc_class_normal_or_above 0 4 Sample.cfg Sample.str Sample.ap_df
               Sample.wsms (targ_stg_df Sample.E) Sample.tables (VInt 450)
               (day Sample.E 4 0 Sample.s0).1).1 in
  ∃ (needs : DataFrame) (need low_chance : bool) (ews : float),
    Sample.tables !! "Estuary_needs_water" = Some needs
    ∧ df_cols needs !! "Estuary Needs Water?" ≫= (λ col, col !! 0%nat ≫= bool_of) = Some need
    ∧ cell s' "n30davgForecast" 0 = Some (VFloat (b2f need))
    ∧ cell s' "LDS_LC6_1" 0 = Some (VFloat (b2f low_chance))
    ∧ cell s' "Post_AP_EWS" 0 = Some (VFloat ews)
    ∧ (need && low_chance = false → ews = 0%float).
Proof.
  apply (no_supply_without_need 0 4 Sample.cfg Sample.str Sample.ap_df Sample.wsms
           (targ_stg_df Sample.E) Sample.tables (VInt 450) (day Sample.E 4 0 Sample.s0).1).
  - vm_compute. lia.
  - vm_compute. reflexivity.
Defined.

(** X3. The protocol never raises the baseflow. When the protocol of day
    [i] returns and the baseflow before the protocol, [Outlet1USBS[i + 2]], is
    not negative, the baseflow after the protocol [Post_Ap_Baseflow[i]] is at
    most that baseflow: it is that baseflow, or the smaller of it and the
    constant [choose_1], or 0. *)
Theorem protocol_never_raises_the_baseflow (i n_rows : nat) (config : gmap string val)
    (format : val → string) (adaptive_protocol_df df_WSMs targ_stg_df : DataFrame)
    (data : gmap string DataFrame) (choose_1 : val) (s : state) (S77BS : float) :
  let run := _define_thc_class_normal_or_above i n_rows config format adaptive_protocol_df
               df_WSMs targ_stg_df data choose_1 s in
  let s' := run.1 in
  (i < n_rows - 2)%nat →
  run.2 = Ok tt →
  num_cell s "Outlet1USBS" (i + 2) = Some S77BS →
  (0 <=? S77BS)%float = true →
  ∃ baseflow : float,
    cell s' "Post_Ap_Baseflow" i = Some (VFloat baseflow)
    ∧ (baseflow <=? S77BS)%float = true.
Proof.
  cbv zeta. intros Hi Hrun Hbs Hpos.
  destruct (wlp_run_ok _ _ _ _ (thc_step_cells i n_rows config format adaptive_protocol_df
              df_WSMs targ_stg_df data choose_1 s Hi) Hrun)
    as (thc & thr & stage & zone & month & wsm1 & targ & opt_line & low_chance & rs & bs
        & est & lds & lds_opt & opt_noap & opt_ce & opt_byp & ch1 & wz & cb1 & cb2 & cb3
        & cb4 & cal & c2 & H).
  cbv zeta in H. destruct H as ((_ & _ & _ & Hbs' & _) & _ & _ & _ & H).
  rewrite Hbs in Hbs'. apply (inj Some) in Hbs'. subst bs.
  eexists. split; [apply H|].
  unfold AP_FNs.Post_Ap_Baseflow.
  pose proof (leb_refl S77BS (leb_not_nan _ _ Hpos)) as Hrefl.
  destruct (Bool.eqb _ true); [exact Hrefl|].
  destruct (Bool.eqb _ true); [|exact Hpos].
  unfold py_min. destruct (ch1 <? S77BS)%float eqn:Hlt; [by apply ltb_leb | exact Hrefl].
Qed.

Lemma protocol_never_raises_the_baseflow_witness :
  let s := (day Sample.E 4 0 Sample.s0).1 in
  let s' := (_define_thc_class_normal_or_above 0 4 Sample.cfg Sample.str Sample.ap_df
               Sample.wsms (targ_stg_df Sample.E) Sample.tables (VInt 450) s).1 in
  ∃ baseflow : float,
    cell s' "Post_Ap_Baseflow" 0 = Some (VFloat baseflow)
    ∧ (baseflow <=? 500)%float = true.
Proof.
  apply (protocol_never_raises_the_baseflow 0 4 Sample.cfg Sample.str Sample.ap_df Sample.wsms
           (targ_stg_df Sample.E) Sample.tables (VInt 450) (day Sample.E 4 0 Sample.s0).1 500).
  - vm_compute. lia.
  - vm_compute. reflexivity.
  - vm_compute. reflexivity.
  - vm_compute. reflexivity.
Defined.

Lemma wlp_any {A} (m : M A) s (Q : A → state → Prop) : (∀ a s', Q a s') → wlp m s Q.
Proof. intros H s' a _. apply H. Qed.

(** An iteration of the loop returns only if the name [start_storage],
    which the loop hands to the storage step, is bound. *)
Lemma day_needs_start_storage (E : env) (n_rows i : nat) (s : state) :
  wlp (day E n_rows i) s (λ _ _, is_Some (g_start_storage (module_globals E))).
Proof.
  unfold day. cbv zeta.
  do 39 (apply wlp_skip; intros _ ?).
  apply wlp_bind. apply wlp_bind. apply wlp_global. intros start_storage Hg.
  apply wlp_any. intros _ ?. apply wlp_const. rewrite Hg. eauto.
Qed.


(** ** The arrays of a run *)

Lemma alloc_names names a : (alloc names a).*1 = names.
Proof. unfold alloc. rewrite <- list_fmap_compose. apply list_fmap_id. Qed.

Lemma M_var_names_NoDup :
  NoDup (weekly_arrays ++ monthly_arrays ++ lonino_arrays ++ season_arrays ++ row_arrays
         ++ percentile_arrays ++ tree_arrays ++ AP_arrays).
Proof. decide_closed. Qed.

(** Every name is allocated once: the array of a name is the one of its
    group. *)
Lemma M_var_lookup forecast today sd ed tc lc mn x a :
  let startdate := if forecast : bool then today else sd in
  let enddate := if forecast then today + 15 else ed in
  let Seas_Count := date_range_len startdate enddate in
  let n_rows := date_range_len (startdate - 1) enddate in
  (x, a) ∈ alloc weekly_arrays (zeros tc) ++ alloc monthly_arrays (zeros lc)
           ++ alloc lonino_arrays (zeros mn) ++ alloc season_arrays (zeros Seas_Count)
           ++ alloc row_arrays (zeros_object n_rows) ++ alloc percentile_arrays (zeros Seas_Count)
           ++ alloc tree_arrays (zeros Seas_Count) ++ alloc AP_arrays (zeros Seas_Count) →
  M_var forecast today sd ed tc lc mn !! x = Some a.
Proof.
  cbv zeta. intros Hx. unfold M_var. apply elem_of_list_to_map_1; [|exact Hx].
  rewrite !fmap_app, !alloc_names. exact M_var_names_NoDup.
Qed.

Lemma elem_of_alloc x names a : x ∈ names → (x, a) ∈ alloc names a.
Proof. intros H. unfold alloc. apply list_elem_of_fmap. eauto. Qed.

Lemma M_var_row_array forecast today sd ed tc lc mn x :
  let startdate := if forecast : bool then today else sd in
  let enddate := if forecast then today + 15 else ed in
  x ∈ row_arrays →
  M_var forecast today sd ed tc lc mn !! x
  = Some (zeros_object (date_range_len (startdate - 1) enddate)).
Proof.
  cbv zeta. intros Hx. apply M_var_lookup.
  do 4 (apply elem_of_app; right). apply elem_of_app; left. by apply elem_of_alloc.
Qed.

Lemma M_var_day_array forecast today sd ed tc lc mn x :
  let startdate := if forecast : bool then today else sd in
  let enddate := if forecast then today + 15 else ed in
  x ∈ tree_arrays ++ AP_arrays →
  M_var forecast today sd ed tc lc mn !! x = Some (zeros (date_range_len startdate enddate)).
Proof.
  cbv zeta. intros [Hx|Hx]%elem_of_app; apply M_var_lookup.
  - do 6 (apply elem_of_app; right). apply elem_of_app; left. by apply elem_of_alloc.
  - do 7 (apply elem_of_app; right). by apply elem_of_alloc.
Qed.

Lemma lag_1_arrays_are_rows : Forall (λ x, x ∈ row_arrays) lag_1_arrays.
Proof. decide_closed. Qed.

(** The arrays with a lag, by the length they are created with. *)
Lemma lag_cases x d :
  lag x = Some d →
  (x ∈ row_arrays ∧ (d ≤ 2)%nat) ∨ (x ∈ tree_arrays ++ AP_arrays ∧ d = 0%nat).
Proof.
  unfold lag. repeat case_bool_decide; intros [= <-].
  - match goal with H : x ∈ _ :: _ |- _ => apply elem_of_cons in H as [->|H] end.
    + left. split; [decide_closed | lia].
    + right. done.
  - left. split; [|lia].
    by apply (proj1 (Forall_forall _ _) lag_1_arrays_are_rows).
  - left. split; [done | lia].
Qed.

(** X5. The arrays are long enough for the loop. In the arrays that
    [M_var] creates for a horizon, every cell that an iteration
    [i < n_rows - 2] of the loop writes exists, at the day offset of its
    array, and holds a zero: the arrays of [n_rows] cells are written at
    [i], [i + 1] or [i + 2], those of [n_rows - 1] cells (the decision tree
    and the adaptive protocol) at [i]. *)
Theorem arrays_hold_the_cells_of_every_day (forecast : bool) (today start_date_entry
    end_date_entry : Z) (TC_Count LONINO_Count month_n : nat) (lo : DataFrame)
    (x : string) (d i : nat) :
  let startdate := if forecast then today else start_date_entry in
  let enddate := if forecast then today + 15 else end_date_entry in
  let n_rows := date_range_len (startdate - 1) enddate in
  let s0 :=
    mkState (M_var forecast today start_date_entry end_date_entry TC_Count LONINO_Count month_n)
      lo in
  lag x = Some d →
  (i < n_rows - 2)%nat →
  ∃ v, cell s0 x (i + d) = Some v ∧ (v = VInt 0 ∨ v = VFloat 0).
Proof.
  cbv zeta. intros Hlag Hi. unfold cell. cbn [mvars].
  destruct (lag_cases x d Hlag) as [[Hx Hd]|[Hx ->]].
  - rewrite M_var_row_array by exact Hx. simpl. exists (VInt 0). split; [|by left].
    apply lookup_replicate_2. lia.
  - rewrite M_var_day_array by exact Hx. simpl. exists (VFloat 0). split; [|by right].
    apply lookup_replicate_2. revert Hi. unfold date_range_len. lia.
Qed.

Lemma arrays_hold_the_cells_of_every_day_witness :
  ∃ v, cell Sample.s0 "Post_AP_EWS" (1 + 0) = Some v ∧ (v = VInt 0 ∨ v = VFloat 0).
Proof.
  apply (arrays_hold_the_cells_of_every_day false 0 2 4 1 1 12 Sample.lo_model0
           "Post_AP_EWS" 0 1).
  - vm_compute. reflexivity.
  - vm_compute. lia.
Defined.

(** X6. The rows before the first simulated day. Row 0 and row 1 of an
    array of the water balance that the loop writes at [i + 2], other than
    the stage and the release level of the decision tree which are
    initialised, are written by nothing in [LOONE_Q]: at the end of the run,
    completed or not, they hold the zero they were created with. So for the
    storage: [Storage[0]] and [Storage[1]], which the first two iterations
    read, are 0. *)
Theorem rows_before_the_first_day_stay_zero (E : env) (forecast : bool) (today start_date_entry
    end_date_entry : Z) (TC_Count LONINO_Count month_n : nat) (lo : DataFrame)
    (x : string) (k : nat) :
  let startdate := if forecast then today else start_date_entry in
  let enddate := if forecast then today + 15 else end_date_entry in
  let n_rows := date_range_len (startdate - 1) enddate in
  let s0 :=
    mkState (M_var forecast today start_date_entry end_date_entry TC_Count LONINO_Count month_n)
      lo in
  lag x = Some 2%nat →
  x ∉ init_arrays →
  (k < 2)%nat →
  (k < n_rows)%nat →
  cell (LOONE_Q E s0).1 x k = Some (VInt 0).
Proof.
  cbv zeta. intros Hlag Hinit Hk Hn.
  rewrite LOONE_Q_frame; [|exact Hinit|].
  - unfold cell. cbn [mvars].
    destruct (lag_cases x 2 Hlag) as [[Hx _]|[_ [=]]].
    rewrite M_var_row_array by exact Hx. simpl. by apply lookup_replicate_2.
  - intros j _ (d & Hd & ->). rewrite Hlag in Hd. injection Hd as <-. lia.
Qed.

Lemma rows_before_the_first_day_stay_zero_witness :
  cell (LOONE_Q Sample.E Sample.s0).1 "Storage" 1 = Some (VInt 0).
Proof.
  apply (rows_before_the_first_day_stay_zero Sample.E false 0 2 4 1 1 12 Sample.lo_model0
           "Storage" 1).
  - vm_compute. reflexivity.
  - decide_closed.
  - lia.
  - vm_compute. lia.
Defined.

(** ** The seven-day multipliers and the pulse day *)

Lemma rdz_ok x z s a k v :
  mvars s !! x = Some a → np_index (length a) z = Some k → a !! k = Some v →
  rdz x z s = (s, Ok v).
Proof.
  intros Ha Hk Hv. unfold rdz. rewrite bind_unfold. simpl. rewrite Ha. simpl.
  rewrite bind_unfold. simpl. rewrite Hk. simpl. rewrite bind_unfold. simpl.
  by rewrite Hv.
Qed.

Lemma rdz_out_of_range x z s a :
  mvars s !! x = Some a → np_index (length a) z = None → (rdz x z s).2 = Raise IndexError.
Proof.
  intros Ha Hk. unfold rdz. rewrite bind_unfold. simpl. rewrite Ha. simpl.
  rewrite bind_unfold. simpl. by rewrite Hk.
Qed.

Lemma getkey_ok cfg k s v : cfg !! k = Some v → getkey cfg k s = (s, Ok v).
Proof. intros H. unfold getkey. by rewrite H. Qed.

(** X7. The multiplier of [PlsDay] days ago. The step reads
    [Outlet1US_Mult[z]] with [z = i + 2 - PlsDay[i + 2]], and [n] the length
    of the array. For [0 <= z < n] it is cell [z]. For [-n <= z < 0], a pulse
    day beyond the current row, the negative index counts from the end of
    the array: the step returns normally with cell [n + z] as the multiplier
    of the past, a cell that lies after the current row [i + 2] exactly when
    the pulse day is less than [n]. For every other [z] the step raises an
    IndexError. *)
Theorem multiplier_lookback_wraps (i : nat) (lo_functions : pyobj) (config : gmap string val)
    (s : state) (year month day PlsDay : Z) (pls opt cur : val) (mult : list val) :
  df_cell (lo_model s) (Z.of_nat (i + 2)) "date" = Some (VDate year month day) →
  cell s "PlsDay" (i + 2) = Some pls →
  int_of pls = Some PlsDay →
  mvars s !! "Outlet1US_Mult" = Some mult →
  mult !! (i + 2)%nat = Some cur →
  config !! "opt_qreg_mult" = Some opt →
  is_Some (cell s "Outlet1US_Mult_2" (i + 2)) →
  let n := Z.of_nat (length mult) in
  let z := Z.of_nat i + 2 - PlsDay in
  let run := _calculate_outlet1us_mult_2 i lo_functions config s in
  let returns_with (k : Z) :=
    ∃ back, mult !! Z.to_nat k = Some back
            ∧ run.2 = Ok tt
            ∧ cell run.1 "Outlet1US_Mult_2" (i + 2)
              = Some (lo_functions "Outlet1US_Mult_2"
                        [VInt month; VInt day; pls; back; cur; opt]) in
  (0 ≤ z < n → returns_with z)
  ∧ (- n ≤ z < 0 → returns_with (n + z) ∧ (Z.of_nat i + 2 < n + z ↔ PlsDay < n))
  ∧ (z < - n ∨ n ≤ z → run.2 = Raise IndexError).
Proof.
  intros Hdate Hpls Hint Hmult Hcur Hopt Hcell. cbv zeta.
  assert (_calculate_outlet1us_mult_2 i lo_functions config s
            = ((rdz "Outlet1US_Mult" (Z.of_nat i + 2 - PlsDay) ≫= λ back,
                cur ← rd "Outlet1US_Mult" (i + 2);
                opt ← getkey config "opt_qreg_mult";
                wr "Outlet1US_Mult_2" (i + 2)
                  (lo_functions "Outlet1US_Mult_2" [VInt month; VInt day; pls; back; cur; opt]))
               s)) as Hstep.
  { unfold _calculate_outlet1us_mult_2.
    rewrite bind_unfold. erewrite bind_ok by (apply lo_at_ok; exact Hdate). simpl.
    erewrite bind_ok by (apply rd_ok; exact Hpls).
    erewrite bind_ok by (apply rdZ_ok; rewrite Hpls; exact Hint). reflexivity. }
  rewrite Hstep. clear Hstep.
  assert (∀ k, (k < length mult)%nat →
            np_index (length mult) (Z.of_nat i + 2 - PlsDay) = Some k →
            ∃ back, mult !! k = Some back
              ∧ ((rdz "Outlet1US_Mult" (Z.of_nat i + 2 - PlsDay) ≫= λ back,
                  cur ← rd "Outlet1US_Mult" (i + 2);
                  opt ← getkey config "opt_qreg_mult";
                  wr "Outlet1US_Mult_2" (i + 2)
                    (lo_functions "Outlet1US_Mult_2"
                       [VInt month; VInt day; pls; back; cur; opt])) s).2 = Ok tt
              ∧ cell ((rdz "Outlet1US_Mult" (Z.of_nat i + 2 - PlsDay) ≫= λ back,
                  cur ← rd "Outlet1US_Mult" (i + 2);
                  opt ← getkey config "opt_qreg_mult";
                  wr "Outlet1US_Mult_2" (i + 2)
                    (lo_functions "Outlet1US_Mult_2"
                       [VInt month; VInt day; pls; back; cur; opt])) s).1
                  "Outlet1US_Mult_2" (i + 2)
                = Some (lo_functions "Outlet1US_Mult_2"
                          [VInt month; VInt day; pls; back; cur; opt])) as Hreturns.
  { intros k Hk Hindex.
    destruct (lookup_lt_is_Some_2 mult k Hk) as [back Hback].
    exists back. split; [exact Hback|].
    erewrite bind_ok by (eapply rdz_ok; [exact Hmult | exact Hindex | exact Hback]).
    erewrite bind_ok by (apply rd_ok; unfold cell; rewrite Hmult; exact Hcur).
    erewrite bind_ok by (apply getkey_ok; exact Hopt).
    destruct (wr_ok "Outlet1US_Mult_2" (i + 2)
                (lo_functions "Outlet1US_Mult_2" [VInt month; VInt day; pls; back; cur; opt])
                s Hcell) as [s' Hw].
    rewrite Hw. split; [reflexivity|]. by apply wr_inv in Hw as (? & _). }
  split; [|split].
  - intros Hz. apply Hreturns; [lia|]. unfold np_index.
    destruct (Z.leb_spec 0 (Z.of_nat i + 2 - PlsDay)); [|lia].
    destruct (Z.ltb_spec (Z.of_nat i + 2 - PlsDay) (Z.of_nat (length mult))); [|lia].
    reflexivity.
  - intros Hz. split; [|lia]. apply Hreturns; [lia|]. unfold np_index.
    destruct (Z.leb_spec 0 (Z.of_nat i + 2 - PlsDay)); [lia|].
    destruct (Z.leb_spec (- Z.of_nat (length mult)) (Z.of_nat i + 2 - PlsDay)); [|lia].
    first [reflexivity | do 2 f_equal; lia].
  - intros Hz. apply bind_raises_l. apply (rdz_out_of_range _ _ _ _ Hmult).
    unfold np_index.
    destruct (Z.leb_spec 0 (Z.of_nat i + 2 - PlsDay)).
    + destruct (Z.ltb_spec (Z.of_nat i + 2 - PlsDay) (Z.of_nat (length mult))); [lia|done].
    + destruct (Z.leb_spec (- Z.of_nat (length mult)) (Z.of_nat i + 2 - PlsDay)); [lia|done].
Qed.

(** On day 0 of four rows: with a pulse-day counter of 3 the index is -1
    and the multiplier of the past is the last cell of the array, after the
    current row. *)
Lemma multiplier_lookback_wraps_witness :
  let s := mkState (<["PlsDay" := [VInt 0; VInt 0; VInt 3; VInt 0]]>
                      (<["Outlet1US_Mult" := [VFloat 1; VFloat 2; VFloat 3; VFloat 7]]>
                         (mvars Sample.s0)))
             Sample.lo_model0 in
  let run := _calculate_outlet1us_mult_2 0 Sample.lo_fns Sample.cfg s in
  run.2 = Ok tt
  ∧ cell run.1 "Outlet1US_Mult_2" 2
    = Some (Sample.lo_fns "Outlet1US_Mult_2"
              [VInt 1; VInt 3; VInt 3; VFloat 7; VFloat 3; VInt 0]).
Proof.
  cbv zeta.
  pose proof (multiplier_lookback_wraps 0 Sample.lo_fns Sample.cfg
              (mkState (<["PlsDay" := [VInt 0; VInt 0; VInt 3; VInt 0]]>
                          (<["Outlet1US_Mult" := [VFloat 1; VFloat 2; VFloat 3; VFloat 7]]>
                             (mvars Sample.s0)))
                 Sample.lo_model0)
              2008 1 3 3 (VInt 3) (VInt 0) (VFloat 3) [VFloat 1; VFloat 2; VFloat 3; VFloat 7])
    as H.
  cbv zeta in H.
  destruct H as (_ & H & _); try (vm_compute; reflexivity).
  { exists (VInt 0). vm_compute. reflexivity. }
  destruct H as ((back & Hback & Hrun & Hcell) & _).
  - simpl. lia.
  - simpl in Hback. injection Hback as <-. split; [exact Hrun | exact Hcell].
Defined.

(** ** Releases that are capped or floored *)

(** The order of Python numbers. *)
Lemma py_lt_irrefl a b r : py_lt a b = Ok r → py_lt a a = Ok false ∧ py_lt b b = Ok false.
Proof.
  destruct a, b; simpl; try discriminate; intros _;
    rewrite ?ltb_irrefl, ?Z.ltb_irrefl; split; reflexivity.
Qed.

Lemma py_lt_asym a b : py_lt a b = Ok true → py_lt b a = Ok false.
Proof.
  destruct a as [x|f|x| |], b as [y|g|y| |]; simpl; try discriminate; intros [= H];
    try (apply bool_decide_eq_true_1 in H; f_equal; apply bool_decide_eq_false_2; congruence);
    try (f_equal; apply Z.ltb_lt in H; apply Z.ltb_ge; lia).
  f_equal. by apply ltb_asym.
Qed.

Lemma Z_compare_float_nan z f : PrimFloat.is_nan f = true → Z_compare_float z f = None.
Proof.
  unfold PrimFloat.is_nan, Z_compare_float. rewrite FloatAxioms.eqb_spec. unfold SFeqb.
  destruct (Prim2SF f) as [[]|[]| |s m e]; try reflexivity; try discriminate.
  rewrite SFcompare_refl_finite. discriminate.
Qed.

(** A not-a-number is below nothing. *)
Lemma py_lt_nan_l f b r : PrimFloat.is_nan f = true → py_lt (VFloat f) b = Ok r → r = false.
Proof.
  intros Hn. destruct b as [y|g|y| |]; simpl; try discriminate; intros [= <-].
  - rewrite Z_compare_float_nan by done. by apply bool_decide_eq_false_2.
  - by apply ltb_nan_l.
  - rewrite Z_compare_float_nan by done. by apply bool_decide_eq_false_2.
Qed.

(** A float above the int 0 is above the float 0. *)
Lemma Z_compare_float_0_lt f : Z_compare_float 0 f = Some Lt → (0 <? f)%float = true.
Proof.
  unfold Z_compare_float. rewrite FloatAxioms.ltb_spec.
  change (Prim2SF 0) with (S754_zero false). unfold SFltb.
  destruct (Prim2SF f) as [[]|[]| |[] m e]; cbv beta iota zeta;
    try reflexivity; try discriminate;
    try (intros [= H]; vm_compute in H; discriminate).
  intros [= H]. exfalso.
  destruct (Z.leb_spec 0 e) as [He|He].
  - assert (0 < 2 ^ e) by (apply Z.pow_pos_nonneg; lia).
    assert (Z.neg m * 2 ^ e < 0) by nia.
    destruct (Z.neg m * 2 ^ e); first [lia | discriminate].
  - first [discriminate | apply Z.compare_lt_iff in H; lia].
Qed.

(** [min(a, b)] is one of its arguments, neither of them is below it, and it
    is [a] when [b] is not a number. *)
Lemma py_min_obj_inv a b r :
  py_min_obj a b = Ok r →
  (r = a ∨ r = b)
  ∧ py_lt a r = Ok false
  ∧ py_lt b r = Ok false
  ∧ (∀ f, b = VFloat f → PrimFloat.is_nan f = true → r = a).
Proof.
  unfold py_min_obj. destruct (py_lt b a) as [[]|e] eqn:Hlt; [| |discriminate]; intros [= <-].
  - split; [by right|]. split; [by apply py_lt_asym|].
    split; [apply (py_lt_irrefl _ _ _ Hlt)|].
    intros f -> Hn. by apply (py_lt_nan_l _ _ _ Hn) in Hlt.
  - split; [by left|]. split; [apply (py_lt_irrefl _ _ _ Hlt)|]. split; [exact Hlt | done].
Qed.

(** [max(0, x)] is the int [0] unless [x] is above 0, and then it is [x]. *)
Lemma py_max_obj_0_inv x r :
  py_max_obj (VInt 0) x = Ok r →
  (r = VInt 0 ∧ py_lt (VInt 0) x = Ok false ∨ r = x ∧ py_lt (VInt 0) x = Ok true)
  ∧ (∀ f, r = VFloat f → (0 <? f)%float = true)
  ∧ (∀ z, int_of r = Some z → 0 ≤ z).
Proof.
  unfold py_max_obj. destruct (py_lt (VInt 0) x) as [[]|e] eqn:Hlt; [| |discriminate];
    intros [= <-].
  - split; [by right|]. split.
    + intros f ->. simpl in Hlt. injection Hlt as Hlt.
      apply bool_decide_eq_true_1 in Hlt. by apply Z_compare_float_0_lt.
    + intros z Hz. destruct x as [y|g|y| |]; simpl in *; try discriminate;
        injection Hz as <-; injection Hlt as Hlt; apply Z.ltb_lt in Hlt; lia.
  - split; [by left|]. split; [discriminate|]. intros z [= <-]. lia.
Qed.

(** X8. The regulatory releases to the south are capped. When the step
    returns, [RegWCA[i + 2]] is Python's [min] of the capacity
    [max_cap_reg_wca] and of the multiplier times the chosen release: it is
    one of these two objects as they are, an int capacity stays an int; in
    Python's order of numbers the capacity is not below it, nor is the
    product; and when the product is not a number the release is the
    capacity itself. The same holds for [RegL8C51[i + 2]] and its
    capacity. *)
Theorem releases_south_are_capped (i : nat) (lo_functions : pyobj)
    (data : gmap string DataFrame) (config : gmap string val) (s : state) :
  let wca := _calculate_choose_wca i lo_functions data config s in
  let l8 := _calculate_choose_l8c51 i lo_functions data config s in
  (wca.2 = Ok tt →
   ∃ cap mult chosen prod release,
     config !! "max_cap_reg_wca" = Some cap
     ∧ config !! "multiplier_reg_wca" = Some mult
     ∧ cell wca.1 "Choose_WCA" (i + 2) = Some chosen
     ∧ py_mul mult chosen = Ok prod
     ∧ cell wca.1 "RegWCA" (i + 2) = Some release
     ∧ (release = cap ∨ release = prod)
     ∧ py_lt cap release = Ok false
     ∧ py_lt prod release = Ok false
     ∧ (∀ f, prod = VFloat f → PrimFloat.is_nan f = true → release = cap))
  ∧ (l8.2 = Ok tt →
     ∃ cap mult chosen prod release,
       config !! "max_cap_reg_l8_c51" = Some cap
       ∧ config !! "multiplier_reg_l8_c51" = Some mult
       ∧ cell l8.1 "Choose_L8C51" (i + 2) = Some chosen
       ∧ py_mul mult chosen = Ok prod
       ∧ cell l8.1 "RegL8C51" (i + 2) = Some release
       ∧ (release = cap ∨ release = prod)
       ∧ py_lt cap release = Ok false
       ∧ py_lt prod release = Ok false
       ∧ (∀ f, prod = VFloat f → PrimFloat.is_nan f = true → release = cap)).
Proof.
  cbv zeta. split; intros Hrun.
  - wlp_start Hrun. apply wlp_unit.
    unfold _calculate_choose_wca. wlp_run.
    match goal with H : py_min_obj _ _ = Ok _ |- _ => apply py_min_obj_inv in H end.
    do 5 eexists. split; [eassumption|]. split; [eassumption|].
    split; [norm_goal; first [eassumption | reflexivity]|]. split; [eassumption|].
    split; [norm_goal; first [eassumption | reflexivity] | assumption].
  - wlp_start Hrun. apply wlp_unit.
    unfold _calculate_choose_l8c51. wlp_run.
    match goal with H : py_min_obj _ _ = Ok _ |- _ => apply py_min_obj_inv in H end.
    do 5 eexists. split; [eassumption|]. split; [eassumption|].
    split; [norm_goal; first [eassumption | reflexivity]|]. split; [eassumption|].
    split; [norm_goal; first [eassumption | reflexivity] | assumption].
Qed.

(** With an int capacity of 1000 and a product of 2000.0 the release is the
    int 1000. *)
Lemma releases_south_are_capped_witness :
  let config := <["max_cap_reg_wca" := VInt 1000]>
                  (<["multiplier_reg_wca" := VFloat 2]> Sample.cfg) in
  let s := mkState (<["Choose_WCA" := replicate 4 (VFloat 1000)]> (mvars Sample.s0))
             Sample.lo_model0 in
  let lo_functions : pyobj := λ _ _, VFloat 1000 in
  let run := _calculate_choose_wca 0 lo_functions Sample.tables config s in
  run.2 = Ok tt ∧ cell run.1 "RegWCA" 2 = Some (VInt 1000).
Proof.
  intros config s lo_functions run.
  destruct run.2 as [[]|e] eqn:Hrun; [|exfalso; vm_compute in Hrun; discriminate].
  split; [reflexivity|].
  destruct (releases_south_are_capped 0 lo_functions Sample.tables config s) as [H _].
  destruct (H Hrun) as (cap & mult & chosen & prod & release & Hc & Hm & Hch & Hp & Hcell
                        & Hor & Hle & _).
  transitivity (Some release); [exact Hcell|]. f_equal.
  assert (cap = VInt 1000) as -> by (vm_compute in Hc; congruence).
  assert (mult = VFloat 2) as -> by (vm_compute in Hm; congruence).
  assert (chosen = VFloat 1000) as -> by (vm_compute in Hch; congruence).
  assert (prod = VFloat 2000) as -> by (vm_compute in Hp; congruence).
  destruct Hor as [->| ->]; [reflexivity|]. vm_compute in Hle. discriminate Hle.
Defined.

Lemma wlp_df_at df r c s (Q : val → state → Prop) :
  (∀ v, df_cell df r c = Some v → Q v s) → wlp (df_at df r c) s Q.
Proof. intros H s' v. rewrite df_at_unfold. intros [-> Hv]%lift_opt_inv. auto. Qed.

(** X9. The regulatory release of the second outlet is never negative.
    When the step returns, [Outlet2USRG1[i + 2]] is Python's [max] of the int
    0 and of the release [Outlet2DSRS[i + 2]] minus the basin runoff
    [C44RO]: the difference itself when it is above 0, and the int 0 when
    the difference is negative, zero or not a number. So a float that is
    stored is above 0, never a not-a-number, and an int that is stored is not
    negative. *)
Theorem outlet2_release_is_not_negative (i : nat) (lo_functions : pyobj)
    (data : gmap string DataFrame) (s80avg_l1 s80avg_l2 s80avg_l3 : val)
    (config : gmap string val) (format : val → string) (s : state) :
  let run := _calculate_outlet2dsrs i lo_functions data s80avg_l1 s80avg_l2 s80avg_l3
               config format s in
  run.2 = Ok tt →
  ∃ release runoff diff stored,
    cell run.1 "Outlet2DSRS" (i + 2) = Some release
    ∧ df_cell (lo_model s) (Z.of_nat (i + 2)) "C44RO" = Some runoff
    ∧ py_sub release runoff = Ok diff
    ∧ cell run.1 "Outlet2USRG1" (i + 2) = Some stored
    ∧ (stored = VInt 0 ∧ py_lt (VInt 0) diff = Ok false
       ∨ stored = diff ∧ py_lt (VInt 0) diff = Ok true)
    ∧ (∀ f, stored = VFloat f → (0 <? f)%float = true)
    ∧ (∀ z, int_of stored = Some z → 0 ≤ z).
Proof.
  cbv zeta. intros Hrun.
  wlp_start Hrun. apply wlp_unit.
  unfold _calculate_outlet2dsrs, pulse_at, turn_at, df_atz.
  repeat first [ wlp_step | apply wlp_df_at; intros ? ? ]. simplify_eq.
  match goal with H : py_max_obj _ _ = Ok _ |- _ => apply py_max_obj_0_inv in H end.
  do 4 eexists. split; [norm_goal; first [eassumption | reflexivity]|].
  split.
  { match goal with H : df_cell (lo_model _) _ "C44RO" = Some _ |- _ => revert H end.
    repeat match goal with H : lo_model _ = lo_model _ |- _ => rewrite H; clear H end.
    intros ->. reflexivity. }
  split; [eassumption|]. split; [norm_goal; first [eassumption | reflexivity] | assumption].
Qed.

(** With a release of 1.0 and a runoff of 5.0 the difference is negative:
    the int 0 is stored. *)
Lemma outlet2_release_is_not_negative_witness :
  let s := mkState (mvars Sample.s0)
             (Sample.set_col "C44RO" (replicate 4 (VFloat 5)) Sample.lo_model0) in
  let run := _calculate_outlet2dsrs 0 Sample.lo_fns Sample.tables (VFloat 12) (VFloat 22)
               (VFloat 32) Sample.cfg Sample.str s in
  run.2 = Ok tt ∧ cell run.1 "Outlet2USRG1" 2 = Some (VInt 0).
Proof.
  intros s run.
  destruct run.2 as [[]|e] eqn:Hrun; [|exfalso; vm_compute in Hrun; discriminate].
  split; [reflexivity|].
  destruct (outlet2_release_is_not_negative 0 Sample.lo_fns Sample.tables (VFloat 12)
              (VFloat 22) (VFloat 32) Sample.cfg Sample.str s Hrun)
    as (release & runoff & diff & stored & H1 & H2 & H3 & H4 & Hor & _).
  transitivity (Some stored); [exact H4|]. f_equal.
  destruct Hor as [[-> _]|[-> Hlt]]; [reflexivity|]. exfalso.
  assert (release = VFloat 1) as -> by (vm_compute in H1; congruence).
  assert (runoff = VFloat 5) as -> by (vm_compute in H2; congruence).
  assert (diff = VFloat (-4)) as -> by (vm_compute in H3; congruence).
  vm_compute in Hlt. discriminate Hlt.
Defined.

(** ** The parametric release *)

Lemma leb_ltb_false x y : (x <=? y)%float = true → (y <? x)%float = false.
Proof.
  rewrite FloatAxioms.leb_spec, FloatAxioms.ltb_spec. unfold SFleb, SFltb, SFcompare.
  destruct (Prim2SF x) as [[]|[]| |[] m e], (Prim2SF y) as [[]|[]| |[] m' e'];
    try reflexivity; try discriminate;
    change (PosDef.Pos.compare_cont Eq m m') with (Pos.compare m m');
    change (PosDef.Pos.compare_cont Eq m' m) with (Pos.compare m' m);
    rewrite (Z.compare_antisym e e'), (Pos.compare_antisym m m');
    destruct (e ?= e')%Z; simpl; try reflexivity; try discriminate;
    destruct (m ?= m')%positive; simpl; try reflexivity; discriminate.
Qed.

(** A stage of at most 8 is not a stage of at least 18. *)
Lemma leb_8_not_18 x : (x <=? 8)%float = true → (18 <=? x)%float = false.
Proof.
  rewrite !FloatAxioms.leb_spec.
  let c := eval vm_compute in (Prim2SF 8) in change (Prim2SF 8) with c.
  let c := eval vm_compute in (Prim2SF 18) in change (Prim2SF 18) with c.
  unfold SFleb, SFcompare.
  destruct (Prim2SF x) as [[]|[]| |[] m e]; try reflexivity; try discriminate.
  destruct (Z.compare_spec e (-49)), (Z.compare_spec (-48) e);
    try reflexivity; try discriminate; lia.
Qed.

(** X10. The bands of the parametric release. In a parametric run
    ([sim_type] other than 0) the release of the first outlet is 7800 when the
    stage of the day before is at least 18, and 0 when that stage is at most 8;
    in these two bands the step reads neither the lake indicator
    [tp_lake_s] nor the thresholds [p1] and [p2]. Between the bands, with an
    indicator for the day, the step looks up [p1], which is a free name of the
    module: when the module does not bind it, the step raises a NameError. *)
Theorem parametric_release_bands (i : nat) (G : globals) (lo_functions : pyobj)
    (data : gmap string DataFrame) (config : gmap string val)
    (tp_lake_s s77_dv date_range_6 : list val) (s : state) (sim_type : val) (stage : float) :
  config !! "sim_type" = Some sim_type →
  eq_num sim_type 0 = false →
  num_cell s "Lake_Stage" (i + 1) = Some stage →
  is_Some (cell s "Outlet1USREG" (i + 2)) →
  let run := _calculate_outlet1usreg i G lo_functions data config tp_lake_s s77_dv
               date_range_6 s in
  ((18 <=? stage)%float = true →
     run.2 = Ok tt ∧ cell run.1 "Outlet1USREG" (i + 2) = Some (VInt 7800))
  ∧ ((stage <=? 8)%float = true →
     run.2 = Ok tt ∧ cell run.1 "Outlet1USREG" (i + 2) = Some (VInt 0))
  ∧ ((18 <=? stage)%float = false → (stage <=? 8)%float = false →
     is_Some (tp_lake_s !! i ≫= num_of) → g_p1 G = None →
     run.2 = Raise NameError ∧ run.1 = s).
Proof.
  intros Hsim Hnz Hstage Hcell. cbv zeta.
  assert (∀ v, ∃ s', wr "Outlet1USREG" (i + 2) v s = (s', Ok tt)
                     ∧ cell s' "Outlet1USREG" (i + 2) = Some v) as Hwr.
  { intros v. destruct (wr_ok "Outlet1USREG" (i + 2) v s Hcell) as [s' Hw].
    exists s'. split; [exact Hw|]. by apply wr_inv in Hw as (? & _). }
  unfold _calculate_outlet1usreg.
  erewrite bind_ok by (apply getkey_ok; exact Hsim). rewrite Hnz.
  unfold parametric_release.
  rewrite bind_unfold. erewrite (bind_ok (rdF _ _)) by (apply rdF_ok; exact Hstage).
  split; [|split].
  - intros H18. rewrite H18. simpl.
    destruct (Hwr (VInt 7800)) as (s' & -> & Hc). done.
  - intros H8.
    rewrite (leb_8_not_18 stage H8), H8. simpl.
    destruct (Hwr (VInt 0)) as (s' & -> & Hc). done.
  - intros H18 H8 [t Ht] Hp1. rewrite H18, H8.
    destruct (tp_lake_s !! i) as [tv|] eqn:Htv; simpl in Ht; [|discriminate].
    rewrite Hp1. unfold list_at, as_float, global, mbind, M_bind, mret, M_ret. cbn.
    rewrite Htv. cbn. rewrite Ht. cbn. done.
Qed.

(** A parametric run at a stage of 12.5, between the bands. *)
Lemma parametric_release_bands_witness :
  let run := _calculate_outlet1usreg 0 Sample.unbound Sample.lo_fns Sample.tables
               (<["sim_type" := VInt 1]> Sample.cfg) [VFloat 1] [] Sample.dates
               Sample.s_end in
  num_cell Sample.s_end "Lake_Stage" 1 = Some 12.5%float
  ∧ run.2 = Raise NameError ∧ run.1 = Sample.s_end.
Proof.
  cbv zeta. split; [vm_compute; reflexivity|].
  apply (parametric_release_bands 0 Sample.unbound Sample.lo_fns Sample.tables
           (<["sim_type" := VInt 1]> Sample.cfg) [VFloat 1] [] Sample.dates
           Sample.s_end (VInt 1) 12.5%float).
  - vm_compute. reflexivity.
  - vm_compute. reflexivity.
  - vm_compute. reflexivity.
  - exists (VFloat 1). vm_compute. reflexivity.
  - vm_compute. reflexivity.
  - vm_compute. reflexivity.
  - exists 1%float. vm_compute. reflexivity.
  - reflexivity.
Defined.

(** ** The arrays that a step writes *)

Ltac ww_names_step :=
  match goal with
  | |- writes_within _ (mret _) => apply ww_ret
  | |- writes_within _ (wr _ _ _) => apply ww_wr; decide_closed
  | |- writes_within _ (wrF _ _ _) => apply ww_wrF; decide_closed
  | |- writes_within _ (wrB _ _ _) => apply ww_wrB; decide_closed
  | |- writes_within _ (_ ≫= _) => apply ww_bind; [| intros ?]
  | |- writes_within _ (if ?c then _ else _) => destruct c
  | |- writes_within _ (match ?p with (_, _) => _ end) => destruct p
  | |- writes_within _ _ => apply ww_keeps; solve [auto with keeps]
  end.
Ltac ww_names := repeat ww_names_step.

Section Step_names.
Variable i : nat.

Lemma names_calculate_wsm_zone lf df :
  writes_within (λ x _, x ∈ ["WSM_Zone"]) (_calculate_wsm_zone i lf df).
Proof. unfold _calculate_wsm_zone. ww_names. Qed.
Lemma names_calculate_max_supply lf wd cfg :
  writes_within (λ x _, x ∈ ["Max_Supply"]) (_calculate_max_supply i lf wd cfg).
Proof. unfold _calculate_max_supply. ww_names. Qed.
Lemma names_calculate_losa_supply lf cfg :
  writes_within (λ x _, x ∈ ["LOSA_Supply"]) (_calculate_losa_supply i lf cfg).
Proof. unfold _calculate_losa_supply. ww_names. Qed.
Lemma names_calculate_ni_supply  :
  writes_within (λ x _, x ∈ ["NI_Supply"]) (_calculate_ni_supply i ).
Proof. unfold _calculate_ni_supply. ww_names. Qed.
Lemma names_calculate_cutback  :
  writes_within (λ x _, x ∈ ["Cut_back"]) (_calculate_cutback i ).
Proof. unfold _calculate_cutback. ww_names. Qed.
Lemma names_calculate_demand_not_supplied  :
  writes_within (λ x _, x ∈ ["Dem_N_Sup"]) (_calculate_demand_not_supplied i ).
Proof. unfold _calculate_demand_not_supplied. ww_names. Qed.
Lemma names_calculate_zone_code lf df :
  writes_within (λ x _, x ∈ ["Zone_Code"]) (_calculate_zone_code i lf df).
Proof. unfold _calculate_zone_code. ww_names. Qed.
Lemma names_generate_zone_column lf :
  writes_within (λ x _, x ∈ ["LO_Zone"]) (_generate_zone_column i lf).
Proof. unfold _generate_zone_column. ww_names. Qed.
Lemma names_calculate_decision_tree_variables dtf tc cfg se dt df :
  writes_within (λ x _, x ∈ ["Zone_D_Trib"; "Zone_D_stage"; "Zone_D_Seas"; "Zone_D_MSeas"; "Zone_D_Branch_Code"; "Zone_D_Rel_Code"; "Zone_C_Trib"; "Zone_C_Seas"; "Zone_C_MSeas"; "Zone_C_MetFcast"; "Zone_C_Branch_Code"; "Zone_C_Rel_Code"; "Zone_B_Trib"; "Zone_B_Stage"; "Zone_B_Seas"; "Zone_B_Branch_Code"; "Zone_B_Rel_Code"]) (_calculate_decision_tree_variables i dtf tc cfg se dt df).
Proof. unfold _calculate_decision_tree_variables. ww_names. Qed.
Lemma names_calculate_release_levels sd lf cfg tc :
  writes_within (λ x _, x ∈ ["DecTree_Relslevel"; "DayFlags"; "PlsDay"; "Release_Level"; "dh_7days"]) (_calculate_release_levels i sd lf cfg tc).
Proof. unfold _calculate_release_levels. destruct sd as [[??]?]. ww_names. Qed.
Lemma names_calculate_zone_codes lf df :
  writes_within (λ x _, x ∈ ["ZoneCodeminus1Code"; "ZoneCodeCode"; "Fraction_of_Zone_height"]) (_calculate_zone_codes i lf df).
Proof. unfold _calculate_zone_codes. ww_names. Qed.
Lemma names_calculate_release_level_codes lf cfg :
  writes_within (λ x _, x ∈ ["ReLevelCode_1"; "ReLevelCode_2"; "ReLevelCode_3_S80"]) (_calculate_release_level_codes i lf cfg).
Proof. unfold _calculate_release_level_codes. ww_names. Qed.
Lemma names_calculate_relevel_code_3_s77 lf cfg :
  writes_within (λ x _, x ∈ ["ReLevelCode_3_S77"]) (_calculate_relevel_code_3_s77 i lf cfg).
Proof. unfold _calculate_relevel_code_3_s77. ww_names. Qed.
Lemma names_calculate_outlet2ds_mult lf se cfg :
  writes_within (λ x _, x ∈ ["Outlet2DS_Mult"; "Outlet2DS_Mult_2"]) (_calculate_outlet2ds_mult i lf se cfg).
Proof. unfold _calculate_outlet2ds_mult. ww_names. Qed.
Lemma names_calculate_outlet2dsrs lf d a1 a2 a3 cfg fmt :
  writes_within (λ x _, x ∈ ["Outlet2DSRS"; "Outlet2USRG1"; "Sum_Outlet2USRG1"]) (_calculate_outlet2dsrs i lf d a1 a2 a3 cfg fmt).
Proof. unfold _calculate_outlet2dsrs. ww_names. Qed.
Lemma names_calculate_outlet2dsbs lf v b cfg :
  writes_within (λ x _, x ∈ ["Outlet2DSBS"]) (_calculate_outlet2dsbs i lf v b cfg).
Proof. unfold _calculate_outlet2dsbs. ww_names. Qed.
Lemma names_calculate_outlet2usbk lf df d cfg :
  writes_within (λ x _, x ∈ ["Outlet2USBK"; "ROeast"; "Outlet2USBS"; "Sum_Outlet2USBK"]) (_calculate_outlet2usbk i lf df d cfg).
Proof. unfold _calculate_outlet2usbk. ww_names. Qed.
Lemma names_calculate_outlet2usrg_code G lf d cfg dr :
  writes_within (λ x _, x ∈ ["Outlet2USRG_Code"; "Outlet2USRG"]) (_calculate_outlet2usrg_code i G lf d cfg dr).
Proof. unfold _calculate_outlet2usrg_code. ww_names. Qed.
Lemma names_calculate_outlet2ds lf d cfg :
  writes_within (λ x _, x ∈ ["Outlet2DS"]) (_calculate_outlet2ds i lf d cfg).
Proof. unfold _calculate_outlet2ds. ww_names. Qed.
Lemma names_calculate_outlet1us_mult lf se cfg :
  writes_within (λ x _, x ∈ ["Outlet1US_Mult"]) (_calculate_outlet1us_mult i lf se cfg).
Proof. unfold _calculate_outlet1us_mult. ww_names. Qed.
Lemma names_calculate_outlet1us_mult_2 lf cfg :
  writes_within (λ x _, x ∈ ["Outlet1US_Mult_2"]) (_calculate_outlet1us_mult_2 i lf cfg).
Proof. unfold _calculate_outlet1us_mult_2. ww_names. Qed.
Lemma names_calculate_outlet1usrs lf d cfg a1 a2 a3 fmt :
  writes_within (λ x _, x ∈ ["Outlet1USRS"]) (_calculate_outlet1usrs i lf d cfg a1 a2 a3 fmt).
Proof. unfold _calculate_outlet1usrs. ww_names. Qed.
Lemma names_calculate_sum_outlet1usrs lf :
  writes_within (λ x _, x ∈ ["Sum_Outlet1USRS"]) (_calculate_sum_outlet1usrs i lf).
Proof. unfold _calculate_sum_outlet1usrs. ww_names. Qed.
Lemma names_calculate_outlet1usbk lf d cfg :
  writes_within (λ x _, x ∈ ["Outlet1USBK"]) (_calculate_outlet1usbk i lf d cfg).
Proof. unfold _calculate_outlet1usbk. ww_names. Qed.
Lemma names_calculate_rowest  :
  writes_within (λ x _, x ∈ ["ROwest"]) (_calculate_rowest i ).
Proof. unfold _calculate_rowest. ww_names. Qed.
Lemma names_calculate_outlet1dsbs lf v b cfg :
  writes_within (λ x _, x ∈ ["Outlet1DSBS"]) (_calculate_outlet1dsbs i lf v b cfg).
Proof. unfold _calculate_outlet1dsbs. ww_names. Qed.
Lemma names_calculate_outlet1usbs lf cfg :
  writes_within (λ x _, x ∈ ["Outlet1USBS"]) (_calculate_outlet1usbs i lf cfg).
Proof. unfold _calculate_outlet1usbs. ww_names. Qed.
Lemma names_calculate_outlet1usbsap lf cfg :
  writes_within (λ x _, x ∈ ["Outlet1USBSAP"]) (_calculate_outlet1usbsap i lf cfg).
Proof. unfold _calculate_outlet1usbsap. ww_names. Qed.
Lemma names_calculate_outlet1usews lf d cfg :
  writes_within (λ x _, x ∈ ["Outlet1USEWS"]) (_calculate_outlet1usews i lf d cfg).
Proof. unfold _calculate_outlet1usews. ww_names. Qed.
Lemma names_define_thc_class_normal_or_above n cfg fmt ap df tg d ch :
  writes_within (λ x _, x ∈ AP_arrays) (_define_thc_class_normal_or_above i n cfg fmt ap df tg d ch).
Proof. unfold _define_thc_class_normal_or_above, THC_Class. ww_names. Qed.
Lemma names_calculate_outlet1usreg G lf d cfg tp dv dr :
  writes_within (λ x _, x ∈ ["Outlet1USREG"]) (_calculate_outlet1usreg i G lf d cfg tp dv dr).
Proof. unfold _calculate_outlet1usreg. ww_names. Qed.
Lemma names_calculate_outlet1ds lf d cfg :
  writes_within (λ x _, x ∈ ["Outlet1DS"]) (_calculate_outlet1ds i lf d cfg).
Proof. unfold _calculate_outlet1ds. ww_names. Qed.
Lemma names_calculate_tot_reg_ew  :
  writes_within (λ x _, x ∈ ["TotRegEW"]) (_calculate_tot_reg_ew i ).
Proof. unfold _calculate_tot_reg_ew. ww_names. Qed.
Lemma names_calculate_choose_wca lf d cfg :
  writes_within (λ x _, x ∈ ["RegWCA"; "Choose_WCA"]) (_calculate_choose_wca i lf d cfg).
Proof. unfold _calculate_choose_wca. ww_names. Qed.
Lemma names_calculate_choose_l8c51 lf d cfg :
  writes_within (λ x _, x ∈ ["RegL8C51"; "Choose_L8C51"]) (_calculate_choose_l8c51 i lf d cfg).
Proof. unfold _calculate_choose_l8c51. ww_names. Qed.
Lemma names_calculate_tot_reg_so  :
  writes_within (λ x _, x ∈ ["TotRegSo"]) (_calculate_tot_reg_so i ).
Proof. unfold _calculate_tot_reg_so. ww_names. Qed.
Lemma names_calculate_stage2ar_and_stage2marsh ssa :
  writes_within (λ x _, x ∈ ["Stage2ar"; "Stage2marsh"]) (_calculate_stage2ar_and_stage2marsh i ssa).
Proof. unfold _calculate_stage2ar_and_stage2marsh. ww_names. Qed.
Lemma names_calculate_rf_and_et lf d cfg :
  writes_within (λ x _, x ∈ ["RF"; "ET"]) (_calculate_rf_and_et i lf d cfg).
Proof. unfold _calculate_rf_and_et. ww_names. Qed.
Lemma names_calculate_wsa lf df wca tc d cfg :
  writes_within (λ x _, x ∈ ["Choose_WSA_1"; "Choose_WSA_2"; "WSA_MIA"; "WSA_NNR"]) (_calculate_wsa i lf df wca tc d cfg).
Proof. unfold _calculate_wsa. ww_names. Qed.
Lemma names_calculate_dsto_and_storage lf dev ss :
  writes_within (λ x _, x ∈ ["DSto"; "Storage"]) (_calculate_dsto_and_storage i lf dev ss).
Proof. unfold _calculate_dsto_and_storage. ww_names. Qed.
Lemma names_calculate_lake_stage lf ssa d cfg :
  writes_within (λ x _, x ∈ ["Lake_Stage"]) (_calculate_lake_stage i lf ssa d cfg).
Proof. unfold _calculate_lake_stage. ww_names. Qed.

End Step_names.

(** The lemma of a step, chosen by the name of the step. *)
Ltac step_names :=
  lazymatch goal with
  | |- writes_within _ (_calculate_wsm_zone _ _ _) => apply names_calculate_wsm_zone
  | |- writes_within _ (_calculate_max_supply _ _ _ _) => apply names_calculate_max_supply
  | |- writes_within _ (_calculate_losa_supply _ _ _) => apply names_calculate_losa_supply
  | |- writes_within _ (_calculate_ni_supply _) => apply names_calculate_ni_supply
  | |- writes_within _ (_calculate_cutback _) => apply names_calculate_cutback
  | |- writes_within _ (_calculate_demand_not_supplied _) => apply names_calculate_demand_not_supplied
  | |- writes_within _ (_calculate_zone_code _ _ _) => apply names_calculate_zone_code
  | |- writes_within _ (_generate_zone_column _ _) => apply names_generate_zone_column
  | |- writes_within _ (_calculate_decision_tree_variables _ _ _ _ _ _ _) => apply names_calculate_decision_tree_variables
  | |- writes_within _ (_calculate_release_levels _ _ _ _ _) => apply names_calculate_release_levels
  | |- writes_within _ (_calculate_zone_codes _ _ _) => apply names_calculate_zone_codes
  | |- writes_within _ (_calculate_release_level_codes _ _ _) => apply names_calculate_release_level_codes
  | |- writes_within _ (_calculate_relevel_code_3_s77 _ _ _) => apply names_calculate_relevel_code_3_s77
  | |- writes_within _ (_calculate_outlet2ds_mult _ _ _ _) => apply names_calculate_outlet2ds_mult
  | |- writes_within _ (_calculate_outlet2dsrs _ _ _ _ _ _ _ _) => apply names_calculate_outlet2dsrs
  | |- writes_within _ (_calculate_outlet2dsbs _ _ _ _ _) => apply names_calculate_outlet2dsbs
  | |- writes_within _ (_calculate_outlet2usbk _ _ _ _ _) => apply names_calculate_outlet2usbk
  | |- writes_within _ (_calculate_outlet2usrg_code _ _ _ _ _ _) => apply names_calculate_outlet2usrg_code
  | |- writes_within _ (_calculate_outlet2ds _ _ _ _) => apply names_calculate_outlet2ds
  | |- writes_within _ (_calculate_outlet1us_mult _ _ _ _) => apply names_calculate_outlet1us_mult
  | |- writes_within _ (_calculate_outlet1us_mult_2 _ _ _) => apply names_calculate_outlet1us_mult_2
  | |- writes_within _ (_calculate_outlet1usrs _ _ _ _ _ _ _ _) => apply names_calculate_outlet1usrs
  | |- writes_within _ (_calculate_sum_outlet1usrs _ _) => apply names_calculate_sum_outlet1usrs
  | |- writes_within _ (_calculate_outlet1usbk _ _ _ _) => apply names_calculate_outlet1usbk
  | |- writes_within _ (_calculate_rowest _) => apply names_calculate_rowest
  | |- writes_within _ (_calculate_outlet1dsbs _ _ _ _ _) => apply names_calculate_outlet1dsbs
  | |- writes_within _ (_calculate_outlet1usbs _ _ _) => apply names_calculate_outlet1usbs
  | |- writes_within _ (_calculate_outlet1usbsap _ _ _) => apply names_calculate_outlet1usbsap
  | |- writes_within _ (_calculate_outlet1usews _ _ _ _) => apply names_calculate_outlet1usews
  | |- writes_within _ (_define_thc_class_normal_or_above _ _ _ _ _ _ _ _ _) => apply names_define_thc_class_normal_or_above
  | |- writes_within _ (_calculate_outlet1usreg _ _ _ _ _ _ _ _) => apply names_calculate_outlet1usreg
  | |- writes_within _ (_calculate_outlet1ds _ _ _ _) => apply names_calculate_outlet1ds
  | |- writes_within _ (_calculate_tot_reg_ew _) => apply names_calculate_tot_reg_ew
  | |- writes_within _ (_calculate_choose_wca _ _ _ _) => apply names_calculate_choose_wca
  | |- writes_within _ (_calculate_choose_l8c51 _ _ _ _) => apply names_calculate_choose_l8c51
  | |- writes_within _ (_calculate_tot_reg_so _) => apply names_calculate_tot_reg_so
  | |- writes_within _ (_calculate_stage2ar_and_stage2marsh _ _) => apply names_calculate_stage2ar_and_stage2marsh
  | |- writes_within _ (_calculate_rf_and_et _ _ _ _) => apply names_calculate_rf_and_et
  | |- writes_within _ (_calculate_wsa _ _ _ _ _ _ _) => apply names_calculate_wsa
  | |- writes_within _ (_calculate_dsto_and_storage _ _ _ _) => apply names_calculate_dsto_and_storage
  | |- writes_within _ (_calculate_lake_stage _ _ _ _ _) => apply names_calculate_lake_stage
  end.

(** ** The table of the run is changed by [_update_lo_model] only *)

Lemma kl_ret {A} (a : A) : keeps_lo_model (mret a : M A).
Proof. intros s. reflexivity. Qed.

Lemma kl_bind {A B} (m : M A) (f : A → M B) :
  keeps_lo_model m → (∀ a, keeps_lo_model (f a)) → keeps_lo_model (m ≫= f).
Proof.
  intros Hm Hf s. rewrite bind_unfold. specialize (Hm s).
  destruct (m s) as [s' [a|e]]; simpl in *; [rewrite Hf|]; exact Hm.
Qed.

Lemma kl_raise {A} e : keeps_lo_model (raise e : M A).
Proof. intros s. reflexivity. Qed.
Lemma kl_lift {A} (r : result A) : keeps_lo_model (lift r).
Proof. intros s. reflexivity. Qed.
Lemma kl_lift_opt {A} e (o : option A) : keeps_lo_model (lift_opt e o).
Proof. destruct o; [apply kl_ret | apply kl_raise]. Qed.
Lemma kl_get_state : keeps_lo_model get_state.
Proof. intros s. reflexivity. Qed.
Lemma kl_put_mvars m : keeps_lo_model (put_mvars m).
Proof. intros s. reflexivity. Qed.

Create HintDb keeps_lo discriminated.
#[local] Hint Resolve kl_ret kl_raise kl_lift kl_lift_opt kl_get_state kl_put_mvars : keeps_lo.

Ltac kl_step :=
  match goal with
  | |- keeps_lo_model (_ ≫= _) => apply kl_bind; [| intros ?]
  | |- keeps_lo_model (if ?c then _ else _) => destruct c
  | |- keeps_lo_model (match ?p with (_, _) => _ end) => destruct p
  | |- keeps_lo_model (match ?v with VInt _ => _ | _ => _ end) => destruct v
  | |- keeps_lo_model _ => solve [auto with keeps_lo]
  end.
Ltac kl := repeat kl_step.

Lemma kl_rdz x z : keeps_lo_model (rdz x z).
Proof. unfold rdz. kl. Qed.
Lemma kl_wr x k v : keeps_lo_model (wr x k v).
Proof. unfold wr. kl. Qed.
Lemma kl_as_float v : keeps_lo_model (as_float v).
Proof. unfold as_float. kl. Qed.
Lemma kl_as_int v : keeps_lo_model (as_int v).
Proof. unfold as_int. kl. Qed.
Lemma kl_as_bool v : keeps_lo_model (as_bool v).
Proof. unfold as_bool. kl. Qed.
Lemma kl_as_date v : keeps_lo_model (as_date v).
Proof. unfold as_date. kl. Qed.
Lemma kl_rd_slice x i j : keeps_lo_model (rd_slice x i j).
Proof. unfold rd_slice. kl. Qed.
Lemma kl_df_at df r c : keeps_lo_model (df_at df r c).
Proof. unfold df_at. kl. Qed.
Lemma kl_df_iloc df c k : keeps_lo_model (df_iloc df c k).
Proof. unfold df_iloc. kl. Qed.
Lemma kl_list_at e xs k : keeps_lo_model (list_at e xs k).
Proof. unfold list_at. kl. Qed.
Lemma kl_getkey cfg k : keeps_lo_model (getkey cfg k).
Proof. unfold getkey. kl. Qed.
#[local] Hint Resolve kl_rdz kl_wr kl_as_float kl_as_int kl_as_bool kl_as_date kl_rd_slice kl_df_at kl_df_iloc kl_list_at kl_getkey : keeps_lo.
Lemma kl_rd x k : keeps_lo_model (rd x k).
Proof. unfold rd. kl. Qed.
Lemma kl_wrF x k v : keeps_lo_model (wrF x k v).
Proof. unfold wrF. kl. Qed.
Lemma kl_wrB x k b : keeps_lo_model (wrB x k b).
Proof. unfold wrB. kl. Qed.
Lemma kl_getkeyF cfg k : keeps_lo_model (getkeyF cfg k).
Proof. unfold getkeyF. kl. Qed.
Lemma kl_getkeyZ cfg k : keeps_lo_model (getkeyZ cfg k).
Proof. unfold getkeyZ. kl. Qed.
Lemma kl_df_atn df r c : keeps_lo_model (df_atn df r c).
Proof. unfold df_atn. kl. Qed.
Lemma kl_df_atz df r c : keeps_lo_model (df_atz df r c).
Proof. unfold df_atz. kl. Qed.
Lemma kl_data_attr d n : keeps_lo_model (data_attr d n).
Proof. unfold data_attr. kl. Qed.
Lemma kl_seq_at dv z : keeps_lo_model (seq_at dv z).
Proof. unfold seq_at. kl. Qed.
#[local] Hint Resolve kl_rd kl_wrF kl_wrB kl_getkeyF kl_getkeyZ kl_df_atn kl_df_atz kl_data_attr kl_seq_at : keeps_lo.
Lemma kl_global {A} (g : option A) : keeps_lo_model (global g).
Proof. unfold global. kl. Qed.
#[local] Hint Resolve kl_global : keeps_lo.
Lemma kl_rdF x k : keeps_lo_model (rdF x k).
Proof. unfold rdF. kl. Qed.
Lemma kl_rdZ x k : keeps_lo_model (rdZ x k).
Proof. unfold rdZ. kl. Qed.
Lemma kl_lo_at r c : keeps_lo_model (lo_at r c).
Proof. unfold lo_at. kl. Qed.
Lemma kl_zone_params cfg p : keeps_lo_model (zone_params cfg p).
Proof. unfold zone_params. kl. Qed.
#[local] Hint Resolve kl_rdF kl_rdZ kl_lo_at kl_zone_params : keeps_lo.
Lemma kl_rdB x k : keeps_lo_model (rdB x k).
Proof. unfold rdB. kl. Qed.
Lemma kl_pulse_at i d cfg fmt p : keeps_lo_model (pulse_at i d cfg fmt p).
Proof. unfold pulse_at. kl. Qed.
Lemma kl_turn_at i d cfg c : keeps_lo_model (turn_at i d cfg c).
Proof. unfold turn_at. kl. Qed.
#[local] Hint Resolve kl_rdB kl_pulse_at kl_turn_at : keeps_lo.
Lemma kl_parametric_release i cap tp p1 p2 dv dr :
  keeps_lo_model tp → keeps_lo_model p1 → keeps_lo_model p2 → keeps_lo_model dv →
  keeps_lo_model (parametric_release i cap tp p1 p2 dv dr).
Proof. intros. unfold parametric_release. kl. Qed.
#[local] Hint Resolve kl_parametric_release : keeps_lo.

Section Step_table.
Variable i : nat.

Lemma kl_calculate_wsm_zone lf df : keeps_lo_model (_calculate_wsm_zone i lf df).
Proof. unfold _calculate_wsm_zone. kl. Qed.
Lemma kl_calculate_max_supply lf wd cfg : keeps_lo_model (_calculate_max_supply i lf wd cfg).
Proof. unfold _calculate_max_supply. kl. Qed.
Lemma kl_calculate_losa_supply lf cfg : keeps_lo_model (_calculate_losa_supply i lf cfg).
Proof. unfold _calculate_losa_supply. kl. Qed.
Lemma kl_calculate_ni_supply  : keeps_lo_model (_calculate_ni_supply i ).
Proof. unfold _calculate_ni_supply. kl. Qed.
Lemma kl_calculate_cutback  : keeps_lo_model (_calculate_cutback i ).
Proof. unfold _calculate_cutback. kl. Qed.
Lemma kl_calculate_demand_not_supplied  : keeps_lo_model (_calculate_demand_not_supplied i ).
Proof. unfold _calculate_demand_not_supplied. kl. Qed.
Lemma kl_calculate_zone_code lf df : keeps_lo_model (_calculate_zone_code i lf df).
Proof. unfold _calculate_zone_code. kl. Qed.
Lemma kl_generate_zone_column lf : keeps_lo_model (_generate_zone_column i lf).
Proof. unfold _generate_zone_column. kl. Qed.
Lemma kl_calculate_decision_tree_variables dtf tc cfg se dt df : keeps_lo_model (_calculate_decision_tree_variables i dtf tc cfg se dt df).
Proof. unfold _calculate_decision_tree_variables. kl. Qed.
Lemma kl_calculate_release_levels sd lf cfg tc : keeps_lo_model (_calculate_release_levels i sd lf cfg tc).
Proof. unfold _calculate_release_levels. destruct sd as [[??]?]. kl. Qed.
Lemma kl_calculate_zone_codes lf df : keeps_lo_model (_calculate_zone_codes i lf df).
Proof. unfold _calculate_zone_codes. kl. Qed.
Lemma kl_calculate_release_level_codes lf cfg : keeps_lo_model (_calculate_release_level_codes i lf cfg).
Proof. unfold _calculate_release_level_codes. kl. Qed.
Lemma kl_calculate_relevel_code_3_s77 lf cfg : keeps_lo_model (_calculate_relevel_code_3_s77 i lf cfg).
Proof. unfold _calculate_relevel_code_3_s77. kl. Qed.
Lemma kl_calculate_outlet2ds_mult lf se cfg : keeps_lo_model (_calculate_outlet2ds_mult i lf se cfg).
Proof. unfold _calculate_outlet2ds_mult. kl. Qed.
Lemma kl_calculate_outlet2dsrs lf d a1 a2 a3 cfg fmt : keeps_lo_model (_calculate_outlet2dsrs i lf d a1 a2 a3 cfg fmt).
Proof. unfold _calculate_outlet2dsrs. kl. Qed.
Lemma kl_calculate_outlet2dsbs lf v b cfg : keeps_lo_model (_calculate_outlet2dsbs i lf v b cfg).
Proof. unfold _calculate_outlet2dsbs. kl. Qed.
Lemma kl_calculate_outlet2usbk lf df d cfg : keeps_lo_model (_calculate_outlet2usbk i lf df d cfg).
Proof. unfold _calculate_outlet2usbk. kl. Qed.
Lemma kl_calculate_outlet2usrg_code G lf d cfg dr : keeps_lo_model (_calculate_outlet2usrg_code i G lf d cfg dr).
Proof. unfold _calculate_outlet2usrg_code. kl. Qed.
Lemma kl_calculate_outlet2ds lf d cfg : keeps_lo_model (_calculate_outlet2ds i lf d cfg).
Proof. unfold _calculate_outlet2ds. kl. Qed.
Lemma kl_calculate_outlet1us_mult lf se cfg : keeps_lo_model (_calculate_outlet1us_mult i lf se cfg).
Proof. unfold _calculate_outlet1us_mult. kl. Qed.
Lemma kl_calculate_outlet1us_mult_2 lf cfg : keeps_lo_model (_calculate_outlet1us_mult_2 i lf cfg).
Proof. unfold _calculate_outlet1us_mult_2. kl. Qed.
Lemma kl_calculate_outlet1usrs lf d cfg a1 a2 a3 fmt : keeps_lo_model (_calculate_outlet1usrs i lf d cfg a1 a2 a3 fmt).
Proof. unfold _calculate_outlet1usrs. kl. Qed.
Lemma kl_calculate_sum_outlet1usrs lf : keeps_lo_model (_calculate_sum_outlet1usrs i lf).
Proof. unfold _calculate_sum_outlet1usrs. kl. Qed.
Lemma kl_calculate_outlet1usbk lf d cfg : keeps_lo_model (_calculate_outlet1usbk i lf d cfg).
Proof. unfold _calculate_outlet1usbk. kl. Qed.
Lemma kl_calculate_rowest  : keeps_lo_model (_calculate_rowest i ).
Proof. unfold _calculate_rowest. kl. Qed.
Lemma kl_calculate_outlet1dsbs lf v b cfg : keeps_lo_model (_calculate_outlet1dsbs i lf v b cfg).
Proof. unfold _calculate_outlet1dsbs. kl. Qed.
Lemma kl_calculate_outlet1usbs lf cfg : keeps_lo_model (_calculate_outlet1usbs i lf cfg).
Proof. unfold _calculate_outlet1usbs. kl. Qed.
Lemma kl_calculate_outlet1usbsap lf cfg : keeps_lo_model (_calculate_outlet1usbsap i lf cfg).
Proof. unfold _calculate_outlet1usbsap. kl. Qed.
Lemma kl_calculate_outlet1usews lf d cfg : keeps_lo_model (_calculate_outlet1usews i lf d cfg).
Proof. unfold _calculate_outlet1usews. kl. Qed.
Lemma kl_define_thc_class_normal_or_above n cfg fmt ap df tg d ch : keeps_lo_model (_define_thc_class_normal_or_above i n cfg fmt ap df tg d ch).
Proof. unfold _define_thc_class_normal_or_above, THC_Class. kl. Qed.
Lemma kl_calculate_outlet1usreg G lf d cfg tp dv dr : keeps_lo_model (_calculate_outlet1usreg i G lf d cfg tp dv dr).
Proof. unfold _calculate_outlet1usreg. kl. Qed.
Lemma kl_calculate_outlet1ds lf d cfg : keeps_lo_model (_calculate_outlet1ds i lf d cfg).
Proof. unfold _calculate_outlet1ds. kl. Qed.
Lemma kl_calculate_tot_reg_ew  : keeps_lo_model (_calculate_tot_reg_ew i ).
Proof. unfold _calculate_tot_reg_ew. kl. Qed.
Lemma kl_calculate_choose_wca lf d cfg : keeps_lo_model (_calculate_choose_wca i lf d cfg).
Proof. unfold _calculate_choose_wca. kl. Qed.
Lemma kl_calculate_choose_l8c51 lf d cfg : keeps_lo_model (_calculate_choose_l8c51 i lf d cfg).
Proof. unfold _calculate_choose_l8c51. kl. Qed.
Lemma kl_calculate_tot_reg_so  : keeps_lo_model (_calculate_tot_reg_so i ).
Proof. unfold _calculate_tot_reg_so. kl. Qed.
Lemma kl_calculate_stage2ar_and_stage2marsh ssa : keeps_lo_model (_calculate_stage2ar_and_stage2marsh i ssa).
Proof. unfold _calculate_stage2ar_and_stage2marsh. kl. Qed.
Lemma kl_calculate_rf_and_et lf d cfg : keeps_lo_model (_calculate_rf_and_et i lf d cfg).
Proof. unfold _calculate_rf_and_et. kl. Qed.
Lemma kl_calculate_wsa lf df wca tc d cfg : keeps_lo_model (_calculate_wsa i lf df wca tc d cfg).
Proof. unfold _calculate_wsa. kl. Qed.
Lemma kl_calculate_dsto_and_storage lf dev ss : keeps_lo_model (_calculate_dsto_and_storage i lf dev ss).
Proof. unfold _calculate_dsto_and_storage. kl. Qed.
Lemma kl_calculate_lake_stage lf ssa d cfg : keeps_lo_model (_calculate_lake_stage i lf ssa d cfg).
Proof. unfold _calculate_lake_stage. kl. Qed.

End Step_table.

#[local] Hint Resolve kl_calculate_wsm_zone
  kl_calculate_max_supply
  kl_calculate_losa_supply
  kl_calculate_ni_supply
  kl_calculate_cutback
  kl_calculate_demand_not_supplied
  kl_calculate_zone_code
  kl_generate_zone_column
  kl_calculate_decision_tree_variables
  kl_calculate_release_levels
  kl_calculate_zone_codes
  kl_calculate_release_level_codes
  kl_calculate_relevel_code_3_s77
  kl_calculate_outlet2ds_mult
  kl_calculate_outlet2dsrs
  kl_calculate_outlet2dsbs
  kl_calculate_outlet2usbk
  kl_calculate_outlet2usrg_code
  kl_calculate_outlet2ds
  kl_calculate_outlet1us_mult
  kl_calculate_outlet1us_mult_2
  kl_calculate_outlet1usrs
  kl_calculate_sum_outlet1usrs
  kl_calculate_outlet1usbk
  kl_calculate_rowest
  kl_calculate_outlet1dsbs
  kl_calculate_outlet1usbs
  kl_calculate_outlet1usbsap
  kl_calculate_outlet1usews
  kl_define_thc_class_normal_or_above
  kl_calculate_outlet1usreg
  kl_calculate_outlet1ds
  kl_calculate_tot_reg_ew
  kl_calculate_choose_wca
  kl_calculate_choose_l8c51
  kl_calculate_tot_reg_so
  kl_calculate_stage2ar_and_stage2marsh
  kl_calculate_rf_and_et
  kl_calculate_wsa
  kl_calculate_dsto_and_storage
  kl_calculate_lake_stage : keeps_lo.

(** ** The result table *)

Lemma sc_keeps {A} (C : string → Prop) (m : M A) : keeps_lo_model m → sets_columns C m.
Proof. intros H s. rewrite (H s). done. Qed.

Lemma sc_bind {A B} (C : string → Prop) (m : M A) (f : A → M B) :
  sets_columns C m → (∀ a, sets_columns C (f a)) → sets_columns C (m ≫= f).
Proof.
  intros Hm Hf s. rewrite bind_unfold. destruct (Hm s) as [Hl Hc].
  destruct (m s) as [s' [a|e]]; simpl in *; [|done].
  destruct (Hf a s') as [Hl' Hc']. split; [congruence|].
  intros c Hn. rewrite Hc', Hc; done.
Qed.

Lemma set_column_inv c x s s' :
  set_column c x s = (s', Ok tt) →
  ∃ a, mvars s !! x = Some a ∧ length a = df_len (lo_model s)
       ∧ s' = mkState (mvars s)
                (mkDataFrame (df_len (lo_model s)) (<[c := a]> (df_cols (lo_model s)))).
Proof.
  unfold set_column. rewrite bind_unfold. simpl. rewrite bind_unfold.
  destruct (mvars s !! x) as [a|]; simpl; [|done].
  destruct (decide _); simpl; [|done]. unfold put_lo_model. intros [= <-]. by exists a.
Qed.

Lemma set_column_ok c x s a :
  mvars s !! x = Some a → length a = df_len (lo_model s) →
  set_column c x s
  = (mkState (mvars s)
       (mkDataFrame (df_len (lo_model s)) (<[c := a]> (df_cols (lo_model s)))), Ok tt).
Proof.
  intros Ha Hlen. unfold set_column. rewrite bind_unfold. simpl. rewrite bind_unfold.
  rewrite Ha. simpl. destruct (decide _); [reflexivity | done].
Qed.

Lemma sc_set_column (C : string → Prop) c x : C c → sets_columns C (set_column c x).
Proof.
  intros HC s. destruct (set_column c x s) as [s' [[]|e]] eqn:Hrun.
  - apply set_column_inv in Hrun as (a & _ & _ & ->). simpl. split; [done|].
    intros c' Hn. apply lookup_insert_ne. by intros <-.
  - revert Hrun. unfold set_column. rewrite bind_unfold. simpl. rewrite bind_unfold.
    destruct (mvars s !! x) as [a|]; simpl; [|by intros [= <- _]].
    destruct (decide _); simpl; [done | by intros [= <- _]].
Qed.

Lemma sc_update_lo_model : sets_columns (λ c, c ∈ output_columns.*1) _update_lo_model.
Proof.
  unfold _update_lo_model.
  repeat first [ apply sc_set_column; decide_closed | apply sc_bind; [| intros _] ].
Qed.

(** The columns that [_update_lo_model] leaves when it returns. *)
Lemma update_lo_model_columns s s' :
  _update_lo_model s = (s', Ok tt) →
  mvars s' = mvars s
  ∧ df_len (lo_model s') = df_len (lo_model s)
  ∧ ∀ c x, (c, x) ∈ output_columns →
      ∃ a, df_cols (lo_model s') !! c = Some a ∧ mvars s !! x = Some a
           ∧ length a = df_len (lo_model s).
Proof.
  unfold _update_lo_model. intros Hrun.
  repeat (apply bind_inv in Hrun as (? & [] & Hrun' & Hrun);
          apply set_column_inv in Hrun' as (? & ? & ? & ->); simpl in *).
  apply set_column_inv in Hrun as (? & ? & ? & ->). simpl in *. split; [done|]. split; [done|].
  intros c y Hin. unfold output_columns in Hin.
  rewrite !elem_of_cons in Hin. rewrite elem_of_nil in Hin.
  repeat (destruct Hin as [[= -> ->]|Hin];
          [eexists; split; [simplify_map_eq; reflexivity | split; assumption]|]).
  destruct Hin.
Qed.

(** [_update_lo_model] returns when every array is there, with one value
    for every row. *)
Lemma update_lo_model_returns s :
  (∀ c x, (c, x) ∈ output_columns →
     ∃ a, mvars s !! x = Some a ∧ length a = df_len (lo_model s)) →
  (_update_lo_model s).2 = Ok tt.
Proof.
  intros Hall. unfold _update_lo_model.
  repeat match goal with
  | |- ((set_column ?c ?x ≫= _) ?s0).2 = _ =>
      let a := fresh "a" in let Ha := fresh "Ha" in let Hl := fresh "Hl" in
      destruct (Hall c x) as (a & Ha & Hl); [decide_closed|];
      erewrite bind_ok by (apply set_column_ok; [exact Ha | exact Hl])
  end.
  destruct (Hall "TotRegSo" "TotRegSo") as (last & Hlast & Hlen); [decide_closed|].
  erewrite set_column_ok by first [exact Hlast | exact Hlen]. reflexivity.
Qed.

(** X11. The result table. On a table with rows, [_update_lo_model]
    returns exactly when each of the eight arrays [Cut_back], [Lake_Stage],
    [Storage], [Outlet1USREG], [Outlet2USRG], [Outlet1USEWS], [TotRegEW] and
    [TotRegSo] exists and has one value for every row of [lo_model]. Then
    each of the result columns [Cutback], [Stage], [Storage], [S77_Q],
    [S308_Q], [S77EW], [TotRegEW], [TotRegSo] is its array; the arrays and
    the number of rows are unchanged, and every other column, the dates and
    the inputs, is as it was. *)
Theorem result_table_holds_the_arrays (s : state) :
  (0 < df_len (lo_model s))%nat →
  let run := _update_lo_model s in
  (run.2 = Ok tt
   ↔ ∀ c x, (c, x) ∈ output_columns →
       ∃ a, mvars s !! x = Some a ∧ length a = df_len (lo_model s))
  ∧ (run.2 = Ok tt →
     mvars run.1 = mvars s
     ∧ df_len (lo_model run.1) = df_len (lo_model s)
     ∧ (∀ c x, (c, x) ∈ output_columns →
          ∃ a, df_cols (lo_model run.1) !! c = Some a ∧ mvars s !! x = Some a)
     ∧ (∀ c, c ∉ output_columns.*1 →
          df_cols (lo_model run.1) !! c = df_cols (lo_model s) !! c)).
Proof.
  intros _. cbv zeta.
  assert ((_update_lo_model s).2 = Ok tt →
          mvars (_update_lo_model s).1 = mvars s
          ∧ df_len (lo_model (_update_lo_model s).1) = df_len (lo_model s)
          ∧ ∀ c x, (c, x) ∈ output_columns →
              ∃ a, df_cols (lo_model (_update_lo_model s).1) !! c = Some a
                   ∧ mvars s !! x = Some a ∧ length a = df_len (lo_model s)) as Hcols.
  { intros Hrun. destruct (_update_lo_model s) as [s' r] eqn:Hq. simpl in *. subst r.
    by apply update_lo_model_columns. }
  split; [split|].
  - intros Hrun c x Hin. destruct (Hcols Hrun) as (_ & _ & H).
    destruct (H c x Hin) as (a & _ & Ha & Hl). by exists a.
  - apply update_lo_model_returns.
  - intros Hrun. destruct (Hcols Hrun) as (Hm & Hl & H).
    split; [exact Hm|]. split; [exact Hl|]. split.
    + intros c x Hin. destruct (H c x Hin) as (a & Hc & Ha & _). by exists a.
    + apply (sc_update_lo_model s).
Qed.

(** The table and the arrays at the end of the sample run. *)
Lemma result_table_holds_the_arrays_witness :
  let run := _update_lo_model Sample.s_end in
  run.2 = Ok tt
  ∧ ∀ c x, (c, x) ∈ output_columns →
      ∃ a, df_cols (lo_model run.1) !! c = Some a ∧ mvars Sample.s_end !! x = Some a.
Proof.
  intros run.
  destruct (result_table_holds_the_arrays Sample.s_end) as [_ H]; [vm_compute; lia|].
  destruct run.2 as [[]|e] eqn:Hrun; [|exfalso; vm_compute in Hrun; discriminate].
  split; [reflexivity|]. apply (H Hrun).
Defined.

(** ** A run without [start_storage] *)

Lemma kl_initialize cfg sd bd :
  keeps_lo_model (_initialize_model_variables_stage_levels_flags cfg sd bd).
Proof.
  unfold _initialize_model_variables_stage_levels_flags, _determine_day_flags.
  destruct sd as [[??]?], bd as [[??]?]. kl.
Qed.

Lemma kl_initial_zone lf df : keeps_lo_model (_calculate_initial_zone_code_and_lo_zone lf df).
Proof. unfold _calculate_initial_zone_code_and_lo_zone. kl. Qed.

(** The cells that the initialisation writes. *)
Lemma ww_initialize_cells cfg sd bd :
  writes_within (λ x k, (x, k) ∈ init_cells)
    (_initialize_model_variables_stage_levels_flags cfg sd bd).
Proof.
  unfold _initialize_model_variables_stage_levels_flags. repeat ww_init_step.
Qed.

Lemma ww_initial_zone_cells lf df :
  writes_within (λ x k, (x, k) ∈ init_cells) (_calculate_initial_zone_code_and_lo_zone lf df).
Proof. unfold _calculate_initial_zone_code_and_lo_zone. repeat ww_init_step. Qed.

Section Without_start_storage.
Variable E : env.
Hypothesis unbound : g_start_storage (module_globals E) = None.

(** An iteration stops at the storage step at the latest. *)
Lemma day_raises (n_rows i : nat) (s : state) : (day E n_rows i s).2 ≠ Ok tt.
Proof.
  intros Hrun.
  pose proof (wlp_run_ok _ _ _ _ (day_needs_start_storage E n_rows i s) Hrun) as [v Hv].
  congruence.
Qed.

(** It writes none of the arrays of the storage and of the stage, *)
Lemma names_day_without_start_storage (n_rows i : nat) :
  writes_within (λ x _, x ∉ ["DSto"; "Storage"; "Lake_Stage"]) (day E n_rows i).
Proof.
  unfold day. cbv zeta. rewrite unbound.
  do 39 (apply ww_bind;
         [eapply ww_mono; [|step_names];
          intros x k; cbv beta; clear k; revert x; apply Forall_forall; decide_closed
         | intros _]).
  apply ww_keeps. intros s. reflexivity.
Qed.

(** and leaves the table alone. *)
Lemma kl_day_without_start_storage (n_rows i : nat) : keeps_lo_model (day E n_rows i).
Proof.
  unfold day. cbv zeta. rewrite unbound.
  do 39 (apply kl_bind; [solve [auto with keeps_lo | kl] | intros _]).
  intros s. reflexivity.
Qed.

(** What the initialisation, the initial zone and any first day preserve,
    the run preserves: there is no second day. *)
Lemma run_without_start_storage (P : state → state → Prop) :
  (∀ s, P s s) →
  (∀ s1 s2 s3, P s1 s2 → P s2 s3 → P s1 s3) →
  (∀ s, P s (_initialize_model_variables_stage_levels_flags
               (config E) (startdate E) (begdateCS E) s).1) →
  (∀ s, P s (_calculate_initial_zone_code_and_lo_zone (lo_functions E) (df_WSMs E) s).1) →
  (∀ n_rows s, P s (day E n_rows 0 s).1) →
  ∀ s, P s (LOONE_Q E s).1.
Proof.
  intros Hrefl Htrans Hinit Hzone Hday s.
  unfold LOONE_Q. rewrite bind_unfold. simpl.
  rewrite bind_unfold. specialize (Hinit s).
  destruct (_initialize_model_variables_stage_levels_flags _ _ _ s) as [s1 [[]|e]];
    simpl in *; [|exact Hinit].
  rewrite bind_unfold. specialize (Hzone s1).
  destruct (_calculate_initial_zone_code_and_lo_zone _ _ s1) as [s2 [[]|e]];
    simpl in *; [|by eapply Htrans].
  assert (P s s2) as H2 by (by eapply Htrans).
  unfold for_range. destruct (df_len (lo_model s) - 2)%nat as [|k]; simpl; [exact H2|].
  rewrite bind_unfold. specialize (Hday (df_len (lo_model s)) s2).
  pose proof (day_raises (df_len (lo_model s)) 0 s2) as Hraise.
  destruct (day E (df_len (lo_model s)) 0 s2) as [s3 [[]|e]]; simpl in *; [done|].
  by eapply Htrans.
Qed.

End Without_start_storage.

(** X12. What a run leaves without [start_storage]. With the name unbound,
    as in LOONE_Q.py, the loop never reaches the storage step, the stage
    step and [_update_lo_model]. So wherever the run stops and whatever the
    number of rows: the table [lo_model] is as it was, without any result
    column added or changed; no cell of [DSto] and of [Storage] is written;
    [Lake_Stage] keeps every cell from row 2 on, only the two rows of the
    initialisation are set; and the cells that are written are those of the
    initialisation and of day 0. *)
Theorem first_day_stops_before_the_storage (E : env) (s : state) :
  g_start_storage (module_globals E) = None →
  let s' := (LOONE_Q E s).1 in
  lo_model s' = lo_model s
  ∧ (∀ k, cell s' "DSto" k = cell s "DSto" k)
  ∧ (∀ k, cell s' "Storage" k = cell s "Storage" k)
  ∧ (∀ k, (2 ≤ k)%nat → cell s' "Lake_Stage" k = cell s "Lake_Stage" k)
  ∧ (∀ x k, (x, k) ∉ init_cells → ¬ day_cells 0 x k → cell s' x k = cell s x k).
Proof.
  intros Hg. cbv zeta.
  assert (∀ x k, (x, k) ∉ init_cells → x ∈ ["DSto"; "Storage"; "Lake_Stage"] →
            cell (LOONE_Q E s).1 x k = cell s x k) as Hnames.
  { intros x k Hinit Hx.
    refine (run_without_start_storage E Hg (λ s s', cell s' x k = cell s x k) _ _ _ _ _ s).
    - done.
    - intros s1 s2 s3 H1 H2. congruence.
    - intros s1. by apply ww_initialize_cells.
    - intros s1. by apply ww_initial_zone_cells.
    - intros n s1. apply (names_day_without_start_storage E Hg). by intros H. }
  assert (∀ x k, (x, k) ∈ init_cells → x ∈ ["DSto"; "Storage"] ∨ x = "Lake_Stage" ∧ (2 ≤ k)%nat →
            False) as Hinit.
  { intros x k Hin Hx. unfold init_cells in Hin.
    rewrite !elem_of_cons, elem_of_nil in Hin.
    rewrite !elem_of_cons, elem_of_nil in Hx.
    repeat (destruct Hin as [Hin|Hin];
            [injection Hin as -> ->;
             destruct Hx as [[Hx|[Hx|[]]]|[Hx ?]]; first [discriminate | lia]|]).
    destruct Hin. }
  split; [|split; [|split; [|split]]].
  - refine (run_without_start_storage E Hg (λ s s', lo_model s' = lo_model s) _ _ _ _ _ s).
    + done.
    + intros s1 s2 s3 H1 H2. congruence.
    + intros s1. apply kl_initialize.
    + intros s1. apply kl_initial_zone.
    + intros n s1. by apply kl_day_without_start_storage.
  - intros k. apply Hnames; [|decide_closed].
    intros Hin. apply (Hinit _ _ Hin). left. decide_closed.
  - intros k. apply Hnames; [|decide_closed].
    intros Hin. apply (Hinit _ _ Hin). left. decide_closed.
  - intros k Hk. apply Hnames; [|decide_closed].
    intros Hin. apply (Hinit _ _ Hin). by right.
  - intros x k Hinit' Hday.
    refine (run_without_start_storage E Hg (λ s s', cell s' x k = cell s x k) _ _ _ _ _ s).
    + done.
    + intros s1 s2 s3 H1 H2. congruence.
    + intros s1. by apply ww_initialize_cells.
    + intros s1. by apply ww_initial_zone_cells.
    + intros n s1. by apply day_writes_its_cells.
Qed.

(** The sample run with the module as it is. *)
Lemma first_day_stops_before_the_storage_witness :
  let s' := (LOONE_Q Sample.E_unbound Sample.s0).1 in
  lo_model s' = lo_model Sample.s0
  ∧ (∀ k, cell s' "Storage" k = cell Sample.s0 "Storage" k)
  ∧ (∀ k, (2 ≤ k)%nat → cell s' "Lake_Stage" k = cell Sample.s0 "Lake_Stage" k).
Proof.
  intros s'.
  destruct (first_day_stops_before_the_storage Sample.E_unbound Sample.s0)
    as (H1 & _ & H2 & H3 & _); [vm_compute; reflexivity|].
  auto.
Defined.
(** ** The dates of a run *)

Lemma monthrange_days_inv year month n :
  monthrange_days year month = Some n → 1 ≤ month ≤ 12 ∧ 28 ≤ n ≤ 31.
Proof.
  unfold monthrange_days.
  destruct (Z.leb_spec 1 month), (Z.leb_spec month 12); simpl; try discriminate.
  intros [= <-]. split; [lia|].
  assert (month = 1 ∨ month = 2 ∨ month = 3 ∨ month = 4 ∨ month = 5 ∨ month = 6 ∨ month = 7
          ∨ month = 8 ∨ month = 9 ∨ month = 10 ∨ month = 11 ∨ month = 12) as Hm by lia.
  destruct (isleap year);
    repeat (destruct Hm as [->|Hm]; [simpl; lia|]); subst; simpl; lia.
Qed.

Lemma datetime_inv year month day s s' r :
  datetime year month day s = (s', Ok r) →
  s' = s ∧ r = (year, month, day)
  ∧ ∃ n, monthrange_days year month = Some n ∧ 1 ≤ day ≤ n.
Proof.
  unfold datetime. destruct (_ && _); [|discriminate].
  destruct (monthrange_days year month) as [n|]; [|discriminate].
  destruct (Z.leb_spec 1 day), (Z.leb_spec day n); simpl; try discriminate.
  intros [= <- <-]. eauto with lia.
Qed.

Lemma date_of_entry_inv entry s s' r :
  date_of_entry entry s = (s', Ok r) →
  s' = s ∧ entry = [r.1.1; r.1.2; r.2]
  ∧ ∃ n, monthrange_days r.1.1 r.1.2 = Some n ∧ 1 ≤ r.2 ≤ n.
Proof.
  destruct entry as [|y [|m [|d [|]]]]; try discriminate. simpl.
  intros (-> & -> & Hn)%datetime_inv. auto.
Qed.

(** The day after the day before a date of the calendar is the date. *)
Lemma next_day_prev_day y m d n :
  monthrange_days y m = Some n → 1 ≤ d ≤ n → next_day (prev_day (y, m, d)) = (y, m, d).
Proof.
  intros Hn Hd. apply monthrange_days_inv in Hn as Hm. unfold prev_day.
  destruct (Z.ltb_spec 1 d).
  - unfold next_day. rewrite Hn. simpl.
    destruct (Z.ltb_spec (d - 1) n); [|lia]. do 2 f_equal. lia.
  - assert (d = 1) as -> by lia. destruct (Z.ltb_spec 1 m).
    + unfold next_day. rewrite Z.ltb_irrefl.
      destruct (Z.ltb_spec (m - 1) 12); [|lia]. do 2 f_equal. lia.
    + assert (m = 1) as -> by lia. unfold next_day.
      change (monthrange_days (y - 1) 12) with (Some 31). simpl.
      do 2 f_equal. lia.
Qed.

(** The next day never has the month and the day of the month of the day. *)
Lemma next_day_differs y m d n :
  monthrange_days y m = Some n → 1 ≤ d ≤ n →
  (m =? (next_day (y, m, d)).1.2) && (d =? (next_day (y, m, d)).2) = false.
Proof.
  intros Hn Hd. apply monthrange_days_inv in Hn as Hm. unfold next_day. rewrite Hn. simpl.
  destruct (Z.ltb_spec d n); simpl.
  - rewrite Z.eqb_refl. simpl. apply Z.eqb_neq. lia.
  - destruct (Z.ltb_spec m 12); simpl.
    + replace (m =? m + 1) with false; [reflexivity|]. symmetry. apply Z.eqb_neq. lia.
    + replace (m =? 1) with false; [reflexivity|]. symmetry. apply Z.eqb_neq. lia.
Qed.

Lemma date_range_lookup_2 start periods :
  (3 ≤ periods)%nat →
  date_range start periods !! 2%nat
  = Some (let '(y, m, d) := next_day (next_day start) in VDate y m d).
Proof.
  intros H. destruct periods as [|[|[|n]]]; try lia. reflexivity.
Qed.

Lemma date_range_length start periods : length (date_range start periods) = periods.
Proof. revert start. induction periods as [|n IH]; intros start; simpl; [done|]. by rewrite IH. Qed.

Lemma define_dates_inv config_dates s s' startdate begdateCS enddate :
  _define_start_and_end_dates config_dates s = (s', Ok (startdate, begdateCS, enddate)) →
  s' = s ∧ begdateCS = startdate
  ∧ config_dates !! "start_date_entry" = Some [startdate.1.1; startdate.1.2; startdate.2]
  ∧ config_dates !! "end_date_entry" = Some [enddate.1.1; enddate.1.2; enddate.2]
  ∧ (∃ n, monthrange_days startdate.1.1 startdate.1.2 = Some n ∧ 1 ≤ startdate.2 ≤ n)
  ∧ (∃ n, monthrange_days enddate.1.1 enddate.1.2 = Some n ∧ 1 ≤ enddate.2 ≤ n).
Proof.
  unfold _define_start_and_end_dates. intros Hrun.
  apply bind_inv in Hrun as (s1 & sd & H1 & Hrun).
  apply bind_inv in Hrun as (s2 & bd & H2 & Hrun).
  apply bind_inv in Hrun as (s3 & ed & H3 & Hrun).
  injection Hrun as <- <- <- <-.
  apply bind_inv in H1 as (? & e1 & [-> He1]%lift_opt_inv & (-> & -> & Hv1)%date_of_entry_inv).
  apply bind_inv in H2 as (? & e2 & [-> He2]%lift_opt_inv & (-> & -> & Hv2)%date_of_entry_inv).
  apply bind_inv in H3 as (? & e3 & [-> He3]%lift_opt_inv & (-> & -> & Hv3)%date_of_entry_inv).
  rewrite He1 in He2. injection He2 as H. 
  split; [done|]. split.
  { destruct sd as [[??]?], bd as [[??]?]. simpl in *. congruence. }
  auto.
Qed.

Lemma initialize_lo_model_inv date_range_6 data config s s' lo :
  _initialize_lo_model date_range_6 data config s = (s', Ok lo) →
  df_len lo = length date_range_6 ∧ df_cols lo !! "date" = Some date_range_6.
Proof.
  unfold _initialize_lo_model. intros Hrun.
  apply bind_inv in Hrun as (? & ? & _ & Hrun).
  apply bind_inv in Hrun as (? & ? & _ & Hrun).
  apply bind_inv in Hrun as (? & ? & _ & Hrun).
  apply bind_inv in Hrun as (? & ? & _ & Hrun).
  apply bind_inv in Hrun as (? & ? & _ & Hrun).
  injection Hrun as <- <-. split; [reflexivity|]. simpl.
  rewrite !lookup_insert_ne by discriminate. apply lookup_singleton_eq.
Qed.

(** X13. The flag of the first day. [_define_start_and_end_dates] reads
    the start of the calibration period from the entry of the start date, so
    the two dates are equal and [_determine_day_flags] never answers
    "CS start date". And on the table that [LOONE_Q] builds, whose rows start
    the day before the start date, row 2 is the day after the start date: the
    flag of the first simulated day is that date, not "SimDay1". The start
    date is taken within the years that pandas supports. *)
Theorem first_day_flag_is_the_date_after_the_start (config_dates : gmap string (list Z))
    (data : gmap string DataFrame) (config : gmap string val) (periods : nat)
    (s1 s2 : state) (startdate begdateCS enddate : Z * Z * Z) (lo : DataFrame) :
  (_define_start_and_end_dates config_dates s1).2 = Ok (startdate, begdateCS, enddate) →
  1678 ≤ startdate.1.1 ≤ 2261 →
  (_initialize_lo_model (date_range (prev_day startdate) periods) data config s2).2 = Ok lo →
  begdateCS = startdate
  ∧ (∀ s v, (_determine_day_flags startdate begdateCS s).2 = Ok v → v ≠ VStr "CS start date")
  ∧ ((3 ≤ periods)%nat →
     ∀ mv, (_determine_day_flags startdate begdateCS (mkState mv lo)).2
           = Ok (let '(y, m, d) := next_day startdate in VDate y m d)).
Proof.
  intros Hd Hy Hlo.
  destruct (_define_start_and_end_dates config_dates s1) as [s1' r1] eqn:E1.
  simpl in Hd. subst r1.
  apply define_dates_inv in E1 as (_ & -> & _ & _ & (n & Hn & Hday) & _).
  destruct (_initialize_lo_model _ data config s2) as [s2' r2] eqn:E2.
  simpl in Hlo. subst r2. apply initialize_lo_model_inv in E2 as [Hlen Hdate].
  destruct startdate as [[y m] d]. cbn [fst snd] in *.
  pose proof (next_day_prev_day y m d n Hn Hday) as Hnp.
  set (p := prev_day (y, m, d)) in *. clearbody p.
  split; [reflexivity|]. split.
  - intros s v. unfold _determine_day_flags.
    rewrite bind_unfold. simpl. rewrite bind_unfold.
    destruct (_ ≫= _) as [s' [[[y' m'] d']|e]]; simpl; [|discriminate].
    destruct ((m =? m') && (d =? d')) eqn:Hmd; simpl; [by intros [= <-]|].
    destruct (y =? y'), (m =? m'), (d =? d'); simpl in *; try discriminate; by intros [= <-].
  - intros Hp mv.
    pose proof (next_day_differs y m d n Hn Hday) as Hne.
    destruct (next_day (y, m, d)) as [[y' m'] d'] eqn:Hnd. cbn [fst snd] in Hne.
    unfold _determine_day_flags.
    rewrite bind_unfold. simpl. unfold df_iloc. rewrite Hdate.
    rewrite ?bind_unfold. simpl.
    rewrite date_range_lookup_2 by exact Hp.
    rewrite Hnp, Hnd. simpl. rewrite Hne. simpl.
    destruct (y =? y'), (m =? m'), (d =? d'); simpl in *; try discriminate; reflexivity.
Qed.

Lemma first_day_flag_is_the_date_after_the_start_witness :
  let config_dates : gmap string (list Z) :=
    {[ "start_date_entry" := [2008; 1; 2]; "end_date_entry" := [2008; 1; 4] ]} in
  let data : gmap string DataFrame :=
    {[ "NetInf_Input" := Sample.table 4 [("Netflows_acft", VFloat 100)];
       "SFWMM_W_dmd" := Sample.table 4 [("LOSA_dmd", VFloat 8)];
       "C44_Runoff" := Sample.table 4 [("C44RO", VFloat 0)] ]} in
  let config : gmap string val := {[ "mult_losa" := VFloat 100 ]} in
  ∃ lo,
    (_initialize_lo_model (date_range (prev_day (2008, 1, 2)) 4) data config Sample.s0).2
    = Ok lo
    ∧ (_determine_day_flags (2008, 1, 2) (2008, 1, 2) (mkState ∅ lo)).2
      = Ok (VDate 2008 1 3).
Proof.
  cbv zeta. eexists. split; [vm_compute; reflexivity|].
  refine (proj2 (proj2 (first_day_flag_is_the_date_after_the_start
            {[ "start_date_entry" := [2008; 1; 2]; "end_date_entry" := [2008; 1; 4] ]}
            {[ "NetInf_Input" := Sample.table 4 [("Netflows_acft", VFloat 100)];
               "SFWMM_W_dmd" := Sample.table 4 [("LOSA_dmd", VFloat 8)];
               "C44_Runoff" := Sample.table 4 [("C44RO", VFloat 0)] ]}
            {[ "mult_losa" := VFloat 100 ]} 4 Sample.s0 Sample.s0
            (2008, 1, 2) (2008, 1, 2) (2008, 1, 4) _ _ _ _)) _ ∅).
  - vm_compute. reflexivity.
  - simpl. lia.
  - vm_compute. reflexivity.
  - lia.
Defined.

(** ** The daily water demand *)

(** What a list comprehension that returns says of every element. *)
Lemma mapM_inv {A B} (f : A → M B) (P : A → B → Prop) (l : list A) :
  (∀ a s1 s2 b, f a s1 = (s2, Ok b) → P a b) →
  ∀ s s' r, mapM f l s = (s', Ok r) → Forall2 P l r.
Proof.
  intros Hf. induction l as [|a l IH]; intros s s' r; simpl.
  - intros [= <- <-]. constructor.
  - intros (s1 & b & Hb & Hrun)%bind_inv.
    apply bind_inv in Hrun as (s2 & bs & Hbs & Hrun).
    injection Hrun as <- <-. constructor; eauto.
Qed.

Lemma week_number_range i : 0 ≤ i → 1 ≤ week_number i ≤ 52.
Proof.
  intros Hi. unfold week_number. destruct (Z.ltb_spec 363 i); [lia|].
  pose proof (Z.quot_pos i 7). pose proof (Z.quot_le_mono i 363 7).
  change (363 ÷ 7) with 51 in *. lia.
Qed.

(** The counts of the first loop: each is 0, on a day with the month and
    the day of the start date, or one more than the count before; without a
    count before, the first day has to be such a day. *)
Lemma day_counts_inv startdate dates :
  ∀ n s s' N,
    day_counts startdate n dates s = (s', Ok N) →
    (∀ k, n = Some k → 0 ≤ k) →
    length N = length dates
    ∧ Forall (λ c, 0 ≤ c) N
    ∧ (∀ first rest, dates = first :: rest →
         (∃ year, first = VDate year startdate.1.2 startdate.2 ∧ head N = Some 0)
         ∨ (∃ k, n = Some k ∧ head N = Some (k + 1)))
    ∧ (∀ j c c', N !! j = Some c → N !! S j = Some c' → c' = 0 ∨ c' = c + 1).
Proof.
  induction dates as [|date dates IH]; intros n s s' N; simpl.
  - intros [= <- <-] _. repeat split; [constructor | done | intros j c c' [=]].
  - intros (s1 & [[y m] d] & Hdate & Hrun)%bind_inv Hn.
    apply as_date_inv in Hdate as [-> ->].
    apply bind_inv in Hrun as (s2 & c0 & Hc0 & Hrun).
    apply bind_inv in Hrun as (s3 & N' & HN' & Hrun).
    injection Hrun as <- <-.
    assert (0 ≤ c0 ∧ ((m =? startdate.1.2) && (d =? startdate.2) = true ∧ c0 = 0
                      ∨ ∃ k, n = Some k ∧ c0 = k + 1)) as [Hc Hcase].
    { destruct ((m =? startdate.1.2) && (d =? startdate.2)) eqn:Hmd.
      - injection Hc0 as <- <-. split; [lia | by left].
      - apply bind_inv in Hc0 as (? & k & [-> Hk]%lift_opt_inv & [= <- <-]).
        split; [specialize (Hn k Hk); lia | right; eauto]. }
    destruct (IH (Some c0) s2 s3 N' HN') as (Hlen & Hall & Hfirst & Hadj).
    { intros k [= <-]. exact Hc. }
    split; [simpl; congruence|]. split; [by constructor|]. split.
    + intros first rest [= <- <-]. destruct Hcase as [[Hmd ->]|(k & -> & ->)].
      * left. exists y. apply andb_true_iff in Hmd as [->%Z.eqb_eq ->%Z.eqb_eq]. done.
      * right. eauto.
    + intros [|j] c c'; simpl.
      * intros [= <-] HN0. destruct dates as [|d1 rest].
        { destruct N'; [discriminate | simpl in Hlen; discriminate]. }
        destruct N' as [|c1 N'']; [discriminate|]. injection HN0 as ->.
        destruct (Hfirst d1 rest eq_refl) as [(? & _ & [= ->])|(k & [= <-] & [= ->])]; auto.
      * apply Hadj.
Qed.

Lemma set_values_inv df c values s s' r :
  set_values df c values s = (s', Ok r) →
  s' = s ∧ length values = df_len df
  ∧ r = mkDataFrame (df_len df) (<[c := values]> (df_cols df)).
Proof. unfold set_values. destruct (decide _); [|discriminate]. by intros [= <- <-]. Qed.

(** X14. The weeks of the daily water demand. When
    [_calculate_daily_water_demand] returns, the first day of the range has
    the month and the day of the start date (a count for any other first
    day would use a counter that is not bound yet); the count of a day is 0
    on the first day and either 0 or one more than the day before on every
    other day; and the week number of every day, computed from the count, is
    between 1 and 52, so that the demand is read from one of the first 52
    rows of the weekly table. *)
Theorem water_demand_weeks (date_range_2 : list val) (startdate : Z * Z * Z)
    (data : gmap string DataFrame) (config : gmap string val) (format : val → string)
    (s : state) (water_demand : DataFrame) :
  (_calculate_daily_water_demand date_range_2 startdate data config format s).2
  = Ok water_demand →
  df_len water_demand = length date_range_2
  ∧ (∀ first rest, date_range_2 = first :: rest →
       ∃ year, first = VDate year startdate.1.2 startdate.2)
  ∧ ∃ counts demand,
      df_cols water_demand !! "date" = Some date_range_2
      ∧ df_cols water_demand !! "count" = Some (VInt <$> counts)
      ∧ df_cols water_demand !! "Week_num" = Some (VInt <$> (week_number <$> counts))
      ∧ df_cols water_demand !! "Daily_demand" = Some demand
      ∧ length counts = length date_range_2
      ∧ length demand = length date_range_2
      ∧ (date_range_2 ≠ [] → head counts = Some 0)
      ∧ (∀ j c c', counts !! j = Some c → counts !! S j = Some c' → c' = 0 ∨ c' = c + 1)
      ∧ Forall (λ c, 1 ≤ week_number c ≤ 52) counts.
Proof.
  intros Hrun.
  destruct (_calculate_daily_water_demand _ _ _ _ _ s) as [s' r] eqn:E.
  simpl in Hrun. subst r. revert E. unfold _calculate_daily_water_demand.
  intros Hrun.
  apply bind_inv in Hrun as (s1 & dates & Hdates & Hrun).
  unfold column, DataFrame_of in Hdates. simpl in Hdates.
  rewrite lookup_singleton_eq in Hdates. injection Hdates as <- <-.
  apply bind_inv in Hrun as (s2 & N & HN & Hrun).
  apply bind_inv in Hrun as (s3 & wd1 & (-> & _ & ->)%set_values_inv & Hrun).
  apply bind_inv in Hrun as (s4 & wd2 & (-> & _ & ->)%set_values_inv & Hrun).
  apply bind_inv in Hrun as (s5 & demand & Hdemand & Hrun).
  apply set_values_inv in Hrun as (-> & Hlen & ->). simpl in *.
  apply day_counts_inv in HN as (HlenN & Hnonneg & Hfirst & Hadj); [|done].
  split; [reflexivity|]. split.
  { intros first rest Hd. destruct (Hfirst first rest Hd) as [(y & -> & _)|(k & [=] & _)].
    by exists y. }
  exists N, demand. simplify_map_eq. repeat split; try done.
  - intros Hne. destruct date_range_2 as [|first rest]; [done|].
    destruct (Hfirst first rest eq_refl) as [(y & _ & H0)|(k & [=] & _)]. exact H0.
  - eapply Forall_impl; [exact Hnonneg|]. intros c. apply week_number_range.
Qed.

(** Three days from the start date, with a weekly demand of 70 and 140. *)
Lemma water_demand_weeks_witness :
  let dates := date_range (2008, 1, 2) 3 in
  let data : gmap string DataFrame :=
    {[ "Weekly_dmd" := mkDataFrame 2 {[ "C1" := [VFloat 70; VFloat 140] ]} ]} in
  let config : gmap string val := {[ "code" := VInt 1; "multiplier" := VFloat 100 ]} in
  ∃ water_demand,
    (_calculate_daily_water_demand dates (2008, 1, 2) data config Sample.str Sample.s0).2
    = Ok water_demand
    ∧ ∃ counts, df_cols water_demand !! "count" = Some (VInt <$> counts)
                ∧ length counts = 3%nat
                ∧ head counts = Some 0
                ∧ Forall (λ c, 1 ≤ week_number c ≤ 52) counts.
Proof.
  intros dates data config.
  destruct (_calculate_daily_water_demand dates (2008, 1, 2) data config Sample.str
              Sample.s0).2
    as [water_demand|e] eqn:Hrun; [|exfalso; vm_compute in Hrun; discriminate].
  exists water_demand. split; [reflexivity|].
  destruct (water_demand_weeks dates (2008, 1, 2) data config Sample.str Sample.s0
              water_demand Hrun)
    as (_ & _ & counts & demand & _ & Hc & _ & _ & Hlen & _ & Hhead & _ & Hw).
  exists counts. split; [exact Hc|]. split; [exact Hlen|]. split; [by apply Hhead | exact Hw].
Defined.

(** ** The seasons *)

(** A loop that keeps an invariant. *)
Lemma wlp_for_range_from (I : nat → state → Prop) (body : nat → M unit) n :
  ∀ start s (Q : unit → state → Prop),
    I start s →
    (∀ k s, (start ≤ k < start + n)%nat → I k s → wlp (body k) s (λ _ s', I (S k) s')) →
    (∀ s', I (start + n)%nat s' → Q tt s') →
    wlp (for_range_from start n body) s Q.
Proof.
  induction n as [|n IH]; intros start s Q HI Hbody HQ; simpl.
  - apply wlp_ret. apply HQ. by rewrite Nat.add_0_r.
  - apply wlp_bind. eapply wlp_mono; [apply (Hbody start s); [lia | exact HI]|].
    intros [] s1 HI1. apply (IH (S start)); [exact HI1| |].
    + intros k s2 Hk. apply Hbody. lia.
    + intros s' HI'. apply HQ. by replace (start + S n)%nat with (S start + n)%nat by lia.
Qed.

Lemma season_of_month_range month : 1 ≤ season_of_month month ≤ 4.
Proof.
  unfold season_of_month.
  destruct (_ && _); [lia|]. destruct (_ && _); [lia|]. destruct (_ && _); lia.
Qed.

(** X15. The table of the seasons. When [_determine_seasons] returns on a
    range of at least one day, the arrays [Daily_Seasons] and [Mon] have
    exactly one cell for every day of the range, every entry of the range is
    a date, and row [i] of the table holds the month of day [i] and its
    season, a number from 1 to 4, both as floats. *)
Theorem seasons_table (date_range_5 : list val) (s : state) (seasons : DataFrame) :
  date_range_5 ≠ [] →
  (_determine_seasons date_range_5 s).2 = Ok seasons →
  df_len seasons = length date_range_5
  ∧ df_cols seasons !! "date" = Some date_range_5
  ∧ ∃ Season Month,
      df_cols seasons !! "Season" = Some Season
      ∧ df_cols seasons !! "Month" = Some Month
      ∧ mvars (_determine_seasons date_range_5 s).1 !! "Daily_Seasons" = Some Season
      ∧ mvars (_determine_seasons date_range_5 s).1 !! "Mon" = Some Month
      ∧ length Season = length date_range_5
      ∧ length Month = length date_range_5
      ∧ ∀ i date, date_range_5 !! i = Some date →
          ∃ year month day,
            date = VDate year month day
            ∧ Season !! i = Some (VFloat (Z2f (season_of_month month)))
            ∧ Month !! i = Some (VFloat (Z2f month))
            ∧ 1 ≤ season_of_month month ≤ 4.
Proof.
  intros _ Hrun.
  destruct (_determine_seasons date_range_5 s) as [s' r] eqn:E.
  simpl in Hrun |- *. subst r. revert s' seasons E.
  unfold _determine_seasons. intros s' seasons Hrun.
  apply bind_inv in Hrun as (s1 & [] & Hl & Hrun).
  assert (∀ i date, date_range_5 !! i = Some date →
          ∃ year month day,
            date = VDate year month day
            ∧ cell s1 "Daily_Seasons" i = Some (VFloat (Z2f (season_of_month month)))
            ∧ cell s1 "Mon" i = Some (VFloat (Z2f month))) as Hloop.
  { clear Hrun. revert s1 Hl.
    apply (wlp_unit _ s (λ s1, ∀ i date, date_range_5 !! i = Some date →
          ∃ year month day,
            date = VDate year month day
            ∧ cell s1 "Daily_Seasons" i = Some (VFloat (Z2f (season_of_month month)))
            ∧ cell s1 "Mon" i = Some (VFloat (Z2f month)))).
    unfold for_range.
    apply (wlp_for_range_from
             (λ k s1, ∀ i date, (i < k)%nat → date_range_5 !! i = Some date →
                ∃ year month day,
                  date = VDate year month day
                  ∧ cell s1 "Daily_Seasons" i = Some (VFloat (Z2f (season_of_month month)))
                  ∧ cell s1 "Mon" i = Some (VFloat (Z2f month)))).
    - intros i date Hi. lia.
    - intros k s1 Hk HI.
      unfold df_iloc, DataFrame_of. simpl. rewrite lookup_singleton_eq.
      wlp_run.
      repeat match goal with H : num_of (VInt _) = Some _ |- _ => injection H as <- end.
      intros i date Hi Hdate.
      destruct (decide (i = k)) as [->|Hne].
      + simplify_eq. do 3 eexists. split; [reflexivity|].
        split; [norm_goal; reflexivity | norm_goal; reflexivity].
      + destruct (HI i date) as (y' & m' & d' & -> & K1 & K2); [lia | done |].
        exists y', m', d'. split; [reflexivity|]. split; norm_goal; first [assumption | reflexivity].
    - intros s2 HI i date Hdate. apply (HI i date); [|exact Hdate].
      apply lookup_lt_Some in Hdate. simpl. lia. }
  apply bind_inv in Hrun as (? & ? & [= <- <-] & Hrun).
  apply bind_inv in Hrun as (? & Season & [-> HS]%lift_opt_inv & Hrun).
  apply bind_inv in Hrun as (? & ? & (-> & HlenS & ->)%set_values_inv & Hrun).
  apply bind_inv in Hrun as (? & Month & [-> HM]%lift_opt_inv & Hrun).
  apply set_values_inv in Hrun as (-> & HlenM & ->). simpl in *.
  split; [reflexivity|]. split; [by simplify_map_eq|].
  exists Season, Month. simplify_map_eq. repeat split; try done.
  intros i date Hi. destruct (Hloop i date Hi) as (y & m & d & -> & H1 & H2).
  exists y, m, d. unfold cell in H1, H2. rewrite HS in H1. rewrite HM in H2.
  repeat split; try done; apply season_of_month_range.
Qed.

(** The three days of the sample run, in January: season 1. *)
Lemma seasons_table_witness :
  let dates := date_range (2008, 1, 2) 3 in
  ∃ seasons,
    (_determine_seasons dates Sample.s0).2 = Ok seasons
    ∧ df_len seasons = 3%nat
    ∧ ∃ Season,
        df_cols seasons !! "Season" = Some Season
        ∧ Season !! 0%nat = Some (VFloat (Z2f (season_of_month 1))).
Proof.
  intros dates.
  destruct (_determine_seasons dates Sample.s0).2
    as [seasons|e] eqn:Hrun; [|exfalso; vm_compute in Hrun; discriminate].
  exists seasons. split; [reflexivity|].
  destruct (seasons_table dates Sample.s0 seasons ltac:(discriminate) Hrun)
    as (Hlen & _ & Season & Month & HS & _ & _ & _ & _ & _ & Hrows).
  split; [exact Hlen|]. exists Season. split; [exact HS|].
  destruct (Hrows 0%nat (VDate 2008 1 2) eq_refl) as (y & m & d & [= <- <- <-] & H & _).
  exact H.
Defined.

(** ** The late dry season *)


Lemma reindex_length n series : length (reindex n series) = n.
Proof. unfold reindex. by rewrite length_fmap, length_seq. Qed.




(** ** The monthly basin runoff *)

Lemma py_max_0_nonneg_val x : ∃ f, VFloat (py_max 0 x) = VFloat f ∧ (0 <=? f)%float = true.
Proof. eexists. split; [reflexivity | apply py_max_0_nonneg]. Qed.

(** One month of the loop. *)
Lemma basin_runoff_month_inv (basin_ro : DataFrame) (data : gmap string DataFrame)
    (outlet1_baseflow outlet2_baseflow : val) (i : nat) (s : state) :
  wlp (basin_runoff_month basin_ro data outlet1_baseflow outlet2_baseflow i) s
    (λ r _,
       (∃ n, r.1.1.1.1 = Z2f n ∧ 28 ≤ n ≤ 31)
       ∧ (0 <=? r.1.1.1.2)%float = true
       ∧ (0 <=? r.1.1.2)%float = true
       ∧ ∀ t c, (t, c) ∈ [("C43RO", "C43RO"); ("C44RO", "C44RO"); ("SLTRIB", "SLTRIB_cfs")] →
           ∃ df col x, data !! t = Some df ∧ df_cols df !! c = Some col
                       ∧ col !! i = Some x ∧ is_Some (num_of x)).
Proof.
  unfold basin_runoff_month, df_iloc. wlp_run.
  split; [|split; [apply py_max_0_nonneg|split; [apply py_max_0_nonneg|]]].
  { match goal with H : monthrange_days _ _ = Some ?n |- _ =>
      exists n; split; [reflexivity|]; by apply monthrange_days_inv in H as [_ ?] end. }
  intros t c Htc. rewrite !elem_of_cons, elem_of_nil in Htc.
  destruct Htc as [[= -> ->]|[[= -> ->]|[[= -> ->]|[]]]]; eauto 10.
Qed.

(** X17. The baseflow that the basin runoff leaves uncovered. When
    [_calculate_basin_runoff] returns, the table keeps its rows; every
    value of [BS-C43RO] and of [BS-C44RO] is a number that is at least 0 (never
    negative and never not-a-number); [Ndays] holds a number of days from 28
    to 31; and each of the three input tables has a row for every month of
    the table. *)
Theorem basin_runoff_deficits_are_not_negative (basin_ro : DataFrame)
    (data : gmap string DataFrame) (outlet1_baseflow outlet2_baseflow : val) (s : state)
    (result : DataFrame) :
  (_calculate_basin_runoff basin_ro data outlet1_baseflow outlet2_baseflow s).2 = Ok result →
  df_len result = df_len basin_ro
  ∧ (∀ c, c ∈ ["BS-C43RO"; "BS-C44RO"] →
       ∃ col, df_cols result !! c = Some col
              ∧ length col = df_len basin_ro
              ∧ Forall (λ v, ∃ f, v = VFloat f ∧ (0 <=? f)%float = true) col)
  ∧ (∃ col, df_cols result !! "Ndays" = Some col
            ∧ length col = df_len basin_ro
            ∧ Forall (λ v, ∃ n, v = VFloat (Z2f n) ∧ 28 ≤ n ≤ 31) col)
  ∧ (∀ i, (i < df_len basin_ro)%nat →
       ∀ t c, (t, c) ∈ [("C43RO", "C43RO"); ("C44RO", "C44RO"); ("SLTRIB", "SLTRIB_cfs")] →
         ∃ df col x, data !! t = Some df ∧ df_cols df !! c = Some col
                     ∧ col !! i = Some x ∧ is_Some (num_of x)).
Proof.
  intros Hrun.
  destruct (_calculate_basin_runoff _ _ _ _ s) as [s' r] eqn:E. simpl in Hrun. subst r.
  revert E. unfold _calculate_basin_runoff. intros Hrun.
  apply bind_inv in Hrun as (s1 & months & Hmonths & Hrun).
  apply (mapM_inv _ (λ i r,
           (∃ n, r.1.1.1.1 = Z2f n ∧ 28 ≤ n ≤ 31)
           ∧ (0 <=? r.1.1.1.2)%float = true
           ∧ (0 <=? r.1.1.2)%float = true
           ∧ ∀ t c, (t, c) ∈ [("C43RO", "C43RO"); ("C44RO", "C44RO"); ("SLTRIB", "SLTRIB_cfs")] →
               ∃ df col x, data !! t = Some df ∧ df_cols df !! c = Some col
                           ∧ col !! i = Some x ∧ is_Some (num_of x))) in Hmonths.
  2:{ intros i sa sb r Hr. exact (basin_runoff_month_inv _ _ _ _ i sa sb r Hr). }
  assert (length months = df_len basin_ro) as Hlen.
  { apply Forall2_length in Hmonths. by rewrite length_seq in Hmonths. }
  apply bind_inv in Hrun as (? & ? & (-> & _ & ->)%set_values_inv & Hrun).
  apply bind_inv in Hrun as (? & ? & _ & Hrun).
  apply bind_inv in Hrun as (? & ? & (-> & _ & ->)%set_values_inv & Hrun).
  apply bind_inv in Hrun as (? & ? & _ & Hrun).
  apply bind_inv in Hrun as (? & ? & (-> & _ & ->)%set_values_inv & Hrun).
  apply bind_inv in Hrun as (? & ? & _ & Hrun).
  apply bind_inv in Hrun as (? & ? & (-> & _ & ->)%set_values_inv & Hrun).
  apply set_values_inv in Hrun as (-> & _ & ->). simpl.
  assert (Forall (λ r : float * float * float * float * float,
            (∃ n, r.1.1.1.1 = Z2f n ∧ 28 ≤ n ≤ 31)
            ∧ (0 <=? r.1.1.1.2)%float = true ∧ (0 <=? r.1.1.2)%float = true) months) as Hall.
  { eapply Forall2_Forall_r; [exact Hmonths|]. apply Forall_forall.
    intros i _ r (H1 & H2 & H3 & _). auto. }
  split; [reflexivity|]. split; [|split].
  - intros c Hc. rewrite !elem_of_cons, elem_of_nil in Hc.
    destruct Hc as [->|[->|[]]]; eexists; (split; [by simplify_map_eq|]);
      (split; [by rewrite length_fmap|]); apply Forall_fmap;
      (eapply Forall_impl; [exact Hall|]); intros r (_ & H2 & H3); simpl; eauto.
  - eexists. split; [by simplify_map_eq|]. split; [by rewrite length_fmap|].
    apply Forall_fmap. eapply Forall_impl; [exact Hall|].
    intros r ((n & Hr & Hn) & _). simpl. rewrite Hr. eauto.
  - intros i Hi t c Htc.
    destruct (Forall2_lookup_l _ _ _ i i Hmonths) as (r & _ & _ & _ & _ & Hr).
    { by apply lookup_seq_lt. }
    exact (Hr t c Htc).
Qed.

(** Two months, with a baseflow of 450 and a runoff of 100 and of 900. *)
Lemma basin_runoff_deficits_are_not_negative_witness :
  let basin_ro := DataFrame_of "date" [VDate 2008 1 1; VDate 2008 2 1] in
  let data : gmap string DataFrame :=
    {[ "C43RO" := DataFrame_of "C43RO" [VFloat 100; VFloat 900];
       "C44RO" := DataFrame_of "C44RO" [VFloat 100; VFloat 900];
       "SLTRIB" := DataFrame_of "SLTRIB_cfs" [VFloat 10; VFloat 20] ]} in
  ∃ result,
    (_calculate_basin_runoff basin_ro data (VFloat 450) (VFloat 450) Sample.s0).2 = Ok result
    ∧ ∃ col, df_cols result !! "BS-C43RO" = Some col
             ∧ length col = 2%nat
             ∧ Forall (λ v, ∃ f, v = VFloat f ∧ (0 <=? f)%float = true) col.
Proof.
  intros basin_ro data.
  destruct (_calculate_basin_runoff basin_ro data (VFloat 450) (VFloat 450) Sample.s0).2
    as [result|e] eqn:Hrun; [|exfalso; vm_compute in Hrun; discriminate].
  exists result. split; [reflexivity|].
  destruct (basin_runoff_deficits_are_not_negative basin_ro data (VFloat 450) (VFloat 450)
              Sample.s0 result Hrun) as (_ & Hcols & _).
  apply (Hcols "BS-C43RO"). apply elem_of_cons. by left.
Defined.

(** ** The arrays that a run does not touch *)

Lemma arrays_without_offset :
  Forall (λ x, lag x = None ∧ x ∉ init_arrays)
    (weekly_arrays ++ monthly_arrays ++ lonino_arrays).
Proof. decide_closed. Qed.

Lemma keeps_set_values df c values : keeps_mvars (set_values df c values).
Proof. unfold set_values. destruct (decide _); auto with keeps. Qed.

Lemma keeps_mapM {A B} (f : A → M B) (l : list A) :
  (∀ a, keeps_mvars (f a)) → keeps_mvars (mapM f l).
Proof.
  intros Hf. induction l as [|a l IH]; simpl; [apply keeps_ret|].
  apply keeps_bind; [apply Hf | intros b].
  apply keeps_bind; [exact IH | intros bs]. apply keeps_ret.
Qed.

Lemma keeps_drop_nan a : keeps_mvars (drop_nan a).
Proof.
  unfold drop_nan. apply keeps_bind; [|intros ?; apply keeps_ret].
  apply keeps_mapM. intros v. auto with keeps.
Qed.

#[local] Hint Resolve keeps_set_values keeps_drop_nan : keeps.

Lemma names_for_range (L : list string) (body : nat → M unit) n :
  (∀ j, writes_within (λ x _, x ∈ L) (body j)) →
  writes_within (λ x _, x ∈ L) (for_range n body).
Proof.
  intros Hbody. unfold for_range.
  eapply ww_mono; [|apply (for_range_from_frame (λ _ x _, x ∈ L) body n Hbody 0%nat)].
  by intros x k (_ & _ & H).
Qed.

Lemma names_determine_seasons date_range_5 :
  writes_within (λ x _, x ∈ season_arrays) (_determine_seasons date_range_5).
Proof.
  unfold _determine_seasons. cbv zeta.
  apply ww_bind; [apply names_for_range; intros j; ww_names | intros _].
  ww_names.
Qed.

Lemma names_calculate_targ_stg_df replicate config data date_range_5 :
  writes_within (λ x _, x ∈ percentile_arrays)
    (_calculate_targ_stg_df replicate config data date_range_5).
Proof.
  unfold _calculate_targ_stg_df. cbv zeta.
  do 2 (apply ww_bind; [apply ww_keeps; auto with keeps | intros ?]).
  apply ww_bind; [apply names_for_range; intros j; ww_names | intros _].
  ww_names.
Qed.

(** X18. The arrays that a run never writes. [LOONE_Q] hands the model
    variables to [_determine_seasons], to [_calculate_targ_stg_df], to the
    initialisation and to the steps of the loop. None of them writes the
    arrays of the weekly classes, of the monthly classes and of the LONINO
    classes: whatever the environment and the arguments, and whether the
    call ends normally or with an exception, every cell of these arrays
    holds after it what it held before. *)
Theorem run_keeps_the_class_arrays (E : env) (s : state) (x : string) (k : nat) :
  x ∈ weekly_arrays ++ monthly_arrays ++ lonino_arrays →
  cell (LOONE_Q E s).1 x k = cell s x k
  ∧ (∀ date_range_5, cell (_determine_seasons date_range_5 s).1 x k = cell s x k)
  ∧ (∀ replicate config data date_range_5,
       cell (_calculate_targ_stg_df replicate config data date_range_5 s).1 x k
       = cell s x k).
Proof.
  intros Hx.
  destruct (proj1 (Forall_forall _ _) arrays_without_offset x Hx) as [Hlag Hinit].
  assert ((x ∉ season_arrays) ∧ (x ∉ percentile_arrays)) as [Hseason Hpercentile].
  { clear Hlag Hinit. revert x Hx. apply Forall_forall. decide_closed. }
  split; [|split].
  - apply LOONE_Q_frame; [exact Hinit|].
    intros j _ (d & Hd & _). rewrite Hlag in Hd. discriminate Hd.
  - intros date_range_5. apply names_determine_seasons. exact Hseason.
  - intros replicate config data date_range_5. apply names_calculate_targ_stg_df.
    exact Hpercentile.
Qed.

Lemma run_keeps_the_class_arrays_witness :
  cell (LOONE_Q Sample.E Sample.s0).1 "Seas" 0 = cell Sample.s0 "Seas" 0.
Proof.
  destruct (run_keeps_the_class_arrays Sample.E Sample.s0 "Seas" 0) as [H _];
    [decide_closed | exact H].
Defined.

(** ** The target stages *)

Lemma filter_length_eq {A} (P : A → Prop) `{∀ x, Decision (P x)} (l : list A) :
  length (filter P l) = length l → filter P l = l ∧ Forall P l.
Proof.
  induction l as [|x l IH]; [done|]. rewrite filter_cons.
  destruct (decide (P x)); simpl.
  - intros [= Hl]. destruct (IH Hl) as [-> ?]. split; [done | by constructor].
  - intros Hl. pose proof (length_filter P l). lia.
Qed.

Lemma drop_nan_inv a s s' values :
  drop_nan a s = (s', Ok values) →
  s' = s
  ∧ ∃ floats, Forall2 (λ v f, num_of v = Some f) a floats
              ∧ values = VFloat <$> filter (λ x, PrimFloat.is_nan x = false) floats.
Proof.
  unfold drop_nan. intros (s1 & floats & Hm & [= <- <-])%bind_inv. split.
  - clear -Hm. revert s s1 floats Hm. induction a as [|v a IH]; intros s s1 floats; simpl.
    + by intros [= <- _].
    + intros (? & f & [-> _]%as_float_inv & Hrun)%bind_inv.
      apply bind_inv in Hrun as (s2 & fs & Hfs & [= <- _]). eauto.
  - exists floats. split; [|reflexivity].
    eapply mapM_inv; [|exact Hm]. intros v sa sb f Hf. by apply as_float_inv in Hf as [_ ?].
Qed.

(** The percentiles, each with its column and its array. *)
Lemma wlp_targ_stg_loop (replicate : Z → Z → Z → DataFrame → val) (targ_stg : DataFrame)
    (dates : list val) (s : state) :
  wlp (for_range (length dates) (λ i,
         '(year, month, day) ← df_iloc (DataFrame_of "dates" dates) "dates" i ≫= as_date;
         let day_of_year := tm_yday year month day in
         wrF "V10per" i (replicate year day_of_year 10 targ_stg);;
         wrF "V20per" i (replicate year day_of_year 20 targ_stg);;
         wrF "V25per" i (replicate year day_of_year 25 targ_stg);;
         wrF "V30per" i (replicate year day_of_year 30 targ_stg);;
         wrF "V40per" i (replicate year day_of_year 40 targ_stg);;
         wrF "V45per" i (replicate year day_of_year 45 targ_stg);;
         wrF "V50per" i (replicate year day_of_year 50 targ_stg);;
         wrF "V60per" i (replicate year day_of_year 60 targ_stg))) s
    (λ _ s', ∀ i date, dates !! i = Some date →
       ∃ year month day,
         date = VDate year month day
         ∧ ∀ x p, (x, p) ∈ [("V10per", 10); ("V20per", 20); ("V25per", 25); ("V30per", 30);
                            ("V40per", 40); ("V45per", 45); ("V50per", 50); ("V60per", 60)] →
             ∃ f, cell s' x i = Some (VFloat f)
                  ∧ num_of (replicate year (tm_yday year month day) p targ_stg) = Some f).
Proof.
  unfold for_range.
  apply (wlp_for_range_from
           (λ k s', ∀ i date, (i < k)%nat → dates !! i = Some date →
              ∃ year month day,
                date = VDate year month day
                ∧ ∀ x p, (x, p) ∈ [("V10per", 10); ("V20per", 20); ("V25per", 25);
                                   ("V30per", 30); ("V40per", 40); ("V45per", 45);
                                   ("V50per", 50); ("V60per", 60)] →
                    ∃ f, cell s' x i = Some (VFloat f)
                         ∧ num_of (replicate year (tm_yday year month day) p targ_stg)
                           = Some f)).
  - intros i date Hi. lia.
  - intros k s1 Hk HI.
    unfold df_iloc, DataFrame_of. simpl. rewrite lookup_singleton_eq.
    wlp_run. cbv zeta. wlp_run.
    intros i date Hi Hdate.
    destruct (decide (i = k)) as [->|Hne].
    + simplify_eq. do 3 eexists. split; [reflexivity|].
      intros x p Hxp. rewrite !elem_of_cons, elem_of_nil in Hxp.
      repeat (destruct Hxp as [[= -> ->]|Hxp];
              [eexists; split; [norm_goal; reflexivity | eassumption]|]).
      destruct Hxp.
    + destruct (HI i date) as (y' & m' & d' & -> & K); [lia | done |].
      exists y', m', d'. split; [reflexivity|].
      intros x p Hxp. destruct (K x p Hxp) as (f' & Kc & Kn).
      exists f'. split; [|exact Kn]. norm_goal. first [assumption | reflexivity].
  - intros s2 HI i date Hdate. apply (HI i date); [|exact Hdate].
    apply lookup_lt_Some in Hdate. simpl. lia.
Qed.

(** A column without a gap: when dropping the values that are not a number
    leaves as many values as the array has, the array has no such value. *)
Lemma column_without_nan (a : list val) (floats : list float) (n : nat) :
  Forall2 (λ v f, num_of v = Some f) a floats →
  length (filter (λ x, PrimFloat.is_nan x = false) floats) = n →
  length a = n →
  (∀ i, (i < n)%nat → ∃ f, a !! i = Some (VFloat f)) →
  VFloat <$> filter (λ x, PrimFloat.is_nan x = false) floats = a
  ∧ ∀ i f, a !! i = Some (VFloat f) → PrimFloat.is_nan f = false.
Proof.
  intros Hnum Hlen Ha Hfloat.
  pose proof (Forall2_length _ _ _ Hnum) as Hl.
  destruct (filter_length_eq (λ x, PrimFloat.is_nan x = false) floats) as [Hfilter Hall];
    [lia|].
  rewrite Hfilter.
  assert (∀ i f, a !! i = Some (VFloat f) → floats !! i = Some f) as Hsame.
  { intros i f Hi. destruct (Forall2_lookup_l _ _ _ i _ Hnum Hi) as (f' & Hf' & [= ->]).
    exact Hf'. }
  split.
  - apply list_eq. intros i. rewrite list_lookup_fmap.
    destruct (decide (i < n)%nat) as [Hi|Hi].
    + destruct (Hfloat i Hi) as (f & Hf). rewrite Hf, (Hsame i f Hf). reflexivity.
    + rewrite !lookup_ge_None_2 by lia. reflexivity.
  - intros i f Hi. exact (proj1 (Forall_lookup _ _) Hall i f (Hsame i f Hi)).
Qed.

(** Takes one column assignment off the run. *)
Ltac targ_column Hcol a fl Ha Hfl Hlen :=
  apply bind_inv in Hcol as (? & ? & [= <- <-] & Hcol);
  apply bind_inv in Hcol as (? & a & [-> Ha]%lift_opt_inv & Hcol);
  apply bind_inv in Hcol as (? & ? & (-> & fl & Hfl & ->)%drop_nan_inv & Hcol);
  apply set_values_inv in Hcol as (-> & Hlen & ->).

(** X19. The target stages have no gap. [_calculate_targ_stg_df] fills the
    percentile arrays day by day with the values of [replicate] and makes
    each array, without its values that are not a number, a column of the
    table. When the call returns on a range of at least one day, every
    column has one value per day; and for
    an array that has one cell per day, as [M_var] creates it, the column is
    the array and none of the values that [replicate] gave for the days of the
    range is not-a-number (with one, the column would be too short and pandas
    would refuse it). *)
Theorem target_stages_have_no_gap (replicate : Z → Z → Z → DataFrame → val)
    (config : gmap string val) (data : gmap string DataFrame) (date_range_5 : list val)
    (s : state) (targ_stg_df : DataFrame) :
  let run := _calculate_targ_stg_df replicate config data date_range_5 s in
  date_range_5 ≠ [] →
  run.2 = Ok targ_stg_df →
  df_len targ_stg_df = length date_range_5
  ∧ ∃ opt targ_stg,
      config !! "opt_date_targ_stg" = Some opt
      ∧ data !! (if eq_num opt 1 then "Targ_Stg_June_1st" else "Targ_Stg_May_1st")
        = Some targ_stg
      ∧ ∀ c x p,
          (c, x, p) ∈ [("10%", "V10per", 10); ("20%", "V20per", 20); ("25%", "V25per", 25);
                       ("30%", "V30per", 30); ("40%", "V40per", 40); ("45%", "V45per", 45);
                       ("50%", "V50per", 50); ("60%", "V60per", 60)] →
          ∃ a col,
            mvars run.1 !! x = Some a
            ∧ df_cols targ_stg_df !! c = Some col
            ∧ length col = length date_range_5
            ∧ (length a = length date_range_5 →
               col = a
               ∧ ∀ i year month day, date_range_5 !! i = Some (VDate year month day) →
                   ∃ f, a !! i = Some (VFloat f)
                        ∧ num_of (replicate year (tm_yday year month day) p targ_stg) = Some f
                        ∧ PrimFloat.is_nan f = false).
Proof.
  cbv zeta. intros _ Hrun.
  destruct (_calculate_targ_stg_df _ _ _ _ s) as [s' r] eqn:E. simpl in Hrun |- *. subst r.
  revert E. unfold _calculate_targ_stg_df. intros Hrun.
  apply bind_inv in Hrun as (? & opt & [-> Hopt]%getkey_inv & Hrun).
  apply bind_inv in Hrun as (? & targ_stg & [-> Htarg]%data_attr_inv & Hrun).
  apply bind_inv in Hrun as (s1 & [] & Hloop & Hrun).
  apply (wlp_targ_stg_loop replicate targ_stg date_range_5 s) in Hloop.
  apply bind_inv in Hrun as (? & ? & H1 & Hrun). targ_column H1 a1 fl1 Ha1 Hfl1 Hlen1.
  apply bind_inv in Hrun as (? & ? & H2 & Hrun). targ_column H2 a2 fl2 Ha2 Hfl2 Hlen2.
  apply bind_inv in Hrun as (? & ? & H3 & Hrun). targ_column H3 a3 fl3 Ha3 Hfl3 Hlen3.
  apply bind_inv in Hrun as (? & ? & H4 & Hrun). targ_column H4 a4 fl4 Ha4 Hfl4 Hlen4.
  apply bind_inv in Hrun as (? & ? & H5 & Hrun). targ_column H5 a5 fl5 Ha5 Hfl5 Hlen5.
  apply bind_inv in Hrun as (? & ? & H6 & Hrun). targ_column H6 a6 fl6 Ha6 Hfl6 Hlen6.
  apply bind_inv in Hrun as (? & ? & H7 & Hrun). targ_column H7 a7 fl7 Ha7 Hfl7 Hlen7.
  targ_column Hrun a8 fl8 Ha8 Hfl8 Hlen8.
  simpl in *. split; [reflexivity|]. exists opt, targ_stg. split; [exact Hopt|].
  split; [exact Htarg|].
  assert (∀ x p a fl,
            (x, p) ∈ [("V10per", 10); ("V20per", 20); ("V25per", 25); ("V30per", 30);
                      ("V40per", 40); ("V45per", 45); ("V50per", 50); ("V60per", 60)] →
            mvars s1 !! x = Some a →
            Forall2 (λ v f, num_of v = Some f) a fl →
            length (VFloat <$> filter (λ x, PrimFloat.is_nan x = false) fl)
            = length date_range_5 →
            length a = length date_range_5 →
            VFloat <$> filter (λ x, PrimFloat.is_nan x = false) fl = a
            ∧ ∀ i year month day, date_range_5 !! i = Some (VDate year month day) →
                ∃ f, a !! i = Some (VFloat f)
                     ∧ num_of (replicate year (tm_yday year month day) p targ_stg) = Some f
                     ∧ PrimFloat.is_nan f = false) as Hcolumn.
  { intros x p a fl Hxp Ha Hfl Hlen Hla. rewrite length_fmap in Hlen.
    assert (∀ i year month day, date_range_5 !! i = Some (VDate year month day) →
              ∃ f, a !! i = Some (VFloat f)
                   ∧ num_of (replicate year (tm_yday year month day) p targ_stg) = Some f)
      as Hcells.
    { intros i y m d Hi. destruct (Hloop i _ Hi) as (y' & m' & d' & [= <- <- <-] & K).
      destruct (K x p Hxp) as (f & Hc & Hn). exists f. split; [|exact Hn].
      unfold cell in Hc. rewrite Ha in Hc. exact Hc. }
    destruct (column_without_nan a fl (length date_range_5) Hfl Hlen Hla) as [Heq Hnan].
    { intros i Hi. destruct (lookup_lt_is_Some_2 date_range_5 i Hi) as [date Hdate].
      destruct (Hloop i date Hdate) as (y & m & d & -> & _).
      destruct (Hcells i y m d Hdate) as (f & Hf & _). eauto. }
    split; [exact Heq|]. intros i y m d Hi. destruct (Hcells i y m d Hi) as (f & Hf & Hn).
    exists f. split; [exact Hf|]. split; [exact Hn|]. exact (Hnan i f Hf). }
  intros c x p Hcxp. rewrite !elem_of_cons, elem_of_nil in Hcxp.
  repeat (destruct Hcxp as [[= -> -> ->]|Hcxp];
    [eexists _, _; split; [eassumption|]; split; [by simplify_map_eq|];
     split; [assumption|]; intros Hla;
     eapply Hcolumn; [ | eassumption | eassumption | assumption | exact Hla];
     decide_closed|]).
  destruct Hcxp.
Qed.

(** Three days, with a target stage of 11.5 for every percentile. *)
Lemma target_stages_have_no_gap_witness :
  let replicate : Z → Z → Z → DataFrame → val := λ _ _ _ _, VFloat 11.5 in
  let config : gmap string val := {[ "opt_date_targ_stg" := VInt 1 ]} in
  let data : gmap string DataFrame :=
    {[ "Targ_Stg_June_1st" := DataFrame_of "10%" [VFloat 11.5] ]} in
  let dates := date_range (2008, 1, 2) 3 in
  ∃ targ_stg_df,
    (_calculate_targ_stg_df replicate config data dates Sample.s0).2 = Ok targ_stg_df
    ∧ df_len targ_stg_df = 3%nat
    ∧ ∃ col, df_cols targ_stg_df !! "10%" = Some col ∧ length col = 3%nat.
Proof.
  intros replicate config data dates.
  destruct (_calculate_targ_stg_df replicate config data dates Sample.s0).2
    as [targ_stg_df|e] eqn:Hrun; [|exfalso; vm_compute in Hrun; discriminate].
  exists targ_stg_df. split; [reflexivity|].
  destruct (target_stages_have_no_gap replicate config data dates Sample.s0 targ_stg_df
              ltac:(discriminate) Hrun)
    as (Hlen & opt & targ_stg & _ & _ & Hcols).
  split; [exact Hlen|].
  destruct (Hcols "10%" "V10per" 10) as (a & col & _ & Hcol & Hl & _).
  { apply elem_of_cons. by left. }
  exists col. split; [exact Hcol | exact Hl].
Defined.
